(** * Application-profile editor of nvidia-settings (src/gtk+-2.x/ctkappprofile.c)

    A shallow embedding of the engine part of the application-profile page:
    the recognised-key and feature tables, the setting-value checks, the
    rule and profile validation, the rendering of setting values, the default
    search path and the reload/save cycle of the two configurations.

    Conventions.
    - A [string] stands for the bytes a [const char *] points at.  The
      terminating NUL is implicit at the end of the Rocq string; libc's
      comparison functions are modelled with their C meaning, so a NUL byte
      inside a Rocq string ends the C string early ([c_str]).
    - [gint], [int], [size_t] and [json_int_t] values are [Z]; [gboolean]
      is [bool].
    - A function that can dereference NULL or run into [assert(0)] returns
      an [option]; [None] is the abnormal end of the program.
    - The collaborators that are not part of the file (jansson, GLib/GTK and
      the app-profile library of nvidia-settings) are interfaces
      ([Jansson], [GLib], [AppProfileLib]); the code is modelled over any
      implementation of them. *)

From Stdlib Require Import ZArith NArith Ascii String List Bool Lia.
From stdpp Require Import base option list strings gmap.

Set Warnings "-register-all".

Local Open Scope string_scope.
Local Open Scope Z_scope.

(** ** C strings and the libc functions the file uses *)

(** [*p] as an [unsigned char]. *)
Definition deref (p : string) : Z :=
  match p with
  | EmptyString => 0
  | String c _ => Z.of_N (N_of_ascii c)
  end.

(** [p + 1]; only used where [*p] is not the terminator. *)
Definition advance (p : string) : string :=
  match p with
  | EmptyString => EmptyString
  | String _ r => r
  end.

(** The bytes of the C string at [s]: everything before the first NUL. *)
Fixpoint c_str (s : string) : string :=
  match s with
  | EmptyString => EmptyString
  | String c r => if (N_of_ascii c =? 0)%N then EmptyString else String c (c_str r)
  end.

(** [tolower] in the C locale, on a byte value. *)
Definition tolower (c : Z) : Z :=
  if (65 <=? c) && (c <=? 90) then c + 32 else c.

Definition tolower_ascii (c : ascii) : ascii :=
  ascii_of_N (Z.to_N (tolower (Z.of_N (N_of_ascii c)))).

(** The C string at [s] with every byte lowered: two strings match without
    regard to case when their images are equal. *)
Fixpoint c_lower (s : string) : string :=
  match s with
  | EmptyString => EmptyString
  | String c r =>
      if (N_of_ascii c =? 0)%N then EmptyString else String (tolower_ascii c) (c_lower r)
  end.

(** [strcmp]: the difference of the first two bytes that differ, 0 when the
    terminator is reached on both sides. *)
Fixpoint strcmp (s1 s2 : string) : Z :=
  let c1 := deref s1 in
  let c2 := deref s2 in
  match s1 with
  | EmptyString => c1 - c2
  | String _ r1 =>
      if (c1 =? 0) || negb (c1 =? c2) then c1 - c2 else strcmp r1 (advance s2)
  end.

(** [strcasecmp]: [strcmp] on the lowered bytes. *)
Fixpoint strcasecmp (s1 s2 : string) : Z :=
  let result := tolower (deref s1) - tolower (deref s2) in
  match s1 with
  | EmptyString => result
  | String _ r1 =>
      if negb (result =? 0) then result
      else if deref s1 =? 0 then result
      else strcasecmp r1 (advance s2)
  end.

(** [nvstrcat(a, b, NULL)] of common-utils: a fresh concatenation. *)
Definition nvstrcat (a b : string) : string := c_str a +:+ c_str b.

(** Characters that a Rocq string literal cannot hold directly. *)
Definition dquote : string := String "034"%char EmptyString.
Definition tab : string := String "009"%char EmptyString.
Definition newline : string := String "010"%char EmptyString.

(** ** JSON values (jansson's [json_t]) *)

Inductive json_type : Set :=
  | JSON_OBJECT | JSON_ARRAY | JSON_STRING | JSON_INTEGER
  | JSON_REAL | JSON_TRUE | JSON_FALSE | JSON_NULL.

#[global] Instance json_type_eq_dec : EqDecision json_type.
Proof. solve_decision. Defined.

(** A real is kept as the bit pattern of its double: nothing here computes
    with it.  An object keeps its members in insertion order. *)
Inductive json_t : Type :=
  | json_object_of (members : list (string * json_t))
  | json_array_of (elems : list json_t)
  | json_string (s : string)
  | json_integer (n : Z)
  | json_real (bits : Z)
  | json_true
  | json_false
  | json_null.

Definition json_typeof (v : json_t) : json_type :=
  match v with
  | json_object_of _ => JSON_OBJECT
  | json_array_of _ => JSON_ARRAY
  | json_string _ => JSON_STRING
  | json_integer _ => JSON_INTEGER
  | json_real _ => JSON_REAL
  | json_true => JSON_TRUE
  | json_false => JSON_FALSE
  | json_null => JSON_NULL
  end.

Fixpoint members_get (ms : list (string * json_t)) (key : string) : option json_t :=
  match ms with
  | [] => None
  | (k, v) :: rest => if String.eqb k key then Some v else members_get rest key
  end.

Fixpoint members_set (ms : list (string * json_t)) (key : string) (v : json_t)
  : list (string * json_t) :=
  match ms with
  | [] => [(key, v)]
  | (k, w) :: rest =>
      if String.eqb k key then (k, v) :: rest else (k, w) :: members_set rest key v
  end.

(** [json_object_get]: NULL when [o] is not an object or has no such member. *)
Definition json_object_get (o : json_t) (key : string) : option json_t :=
  match o with
  | json_object_of ms => members_get ms key
  | _ => None
  end.

(** [json_object_set_new]: replaces or adds the member; fails, leaving [o]
    as it is, when [o] is not an object. *)
Definition json_object_set_new (o : json_t) (key : string) (v : json_t) : json_t :=
  match o with
  | json_object_of ms => json_object_of (members_set ms key v)
  | _ => o
  end.

(** [json_string_value] of a possibly NULL value: NULL unless it is a string. *)
Definition json_string_value (v : option json_t) : option string :=
  match v with
  | Some (json_string s) => Some s
  | _ => None
  end.

Definition json_integer_value (v : json_t) : Z :=
  match v with
  | json_integer n => n
  | _ => 0
  end.

(** [json_array_size] and [json_array_get]: 0 and NULL for a non-array. *)
Definition json_array_elems (a : json_t) : list json_t :=
  match a with
  | json_array_of l => l
  | _ => []
  end.

(** ** The tables *)

Definition profile_setting_keys : list string :=
  [ "GLFSAAMode"; "GLLogMaxAniso"; "GLNoDsoFinalizer"; "GLSingleThreaded";
    "GLSyncDisplayDevice"; "GLSyncToVblank"; "GLSortFbconfigs";
    "GLAllowUnofficialProtocol"; "GLSELinuxBooleans"; "GLShaderDiskCache";
    "GLShaderDiskCachePath"; "GLYield"; "GLThreadedOptimizations"; "GLDoom3";
    "GLExtensionStringVersion" ].

Definition NUM_PROFILE_SETTINGS : nat := 15.

Definition RULE_FEATURE_PROCNAME : Z := 0.
Definition RULE_FEATURE_DSO : Z := 1.
Definition RULE_FEATURE_TRUE : Z := 2.
Definition NUM_RULE_FEATURES : Z := 3.

Definition rule_feature_identifiers : list string := [ "procname"; "dso"; "true" ].

(** ** Lookup in the tables *)

(** The loop of [parse_feature] from index [i] on, over the rest [ids] of
    the table. *)
Fixpoint parse_feature_from (feature_str : string) (i : Z) (ids : list string) : Z :=
  match ids with
  | [] => 0
  | id :: rest =>
      if strcmp feature_str id =? 0 then i
      else parse_feature_from feature_str (i + 1) rest
  end.

Definition parse_feature (feature_str : string) : Z :=
  parse_feature_from feature_str 0 rule_feature_identifiers.

(** The loop of [get_canonical_setting_key] over the first
    [NUM_PROFILE_SETTINGS] entries of the table. *)
Fixpoint get_canonical_setting_key_from (key : string) (keys : list string) : option string :=
  match keys with
  | [] => None
  | k :: rest =>
      if strcasecmp key k =? 0 then Some k
      else get_canonical_setting_key_from key rest
  end.

Definition get_canonical_setting_key (key : string) : option string :=
  get_canonical_setting_key_from key (take NUM_PROFILE_SETTINGS profile_setting_keys).

(** [check_unrecognized_setting_keys]: [Some true] as soon as a setting has
    a key outside the table.  A setting without a string key makes
    [strcasecmp] read through NULL. *)
Fixpoint check_unrecognized_setting_keys_from (settings : list json_t) : option bool :=
  match settings with
  | [] => Some false
  | setting :: rest =>
      match json_string_value (json_object_get setting "key") with
      | None => None
      | Some setting_key =>
          match get_canonical_setting_key setting_key with
          | None => Some true
          | Some _ => check_unrecognized_setting_keys_from rest
          end
      end
  end.

Definition check_unrecognized_setting_keys (settings : json_t) : option bool :=
  check_unrecognized_setting_keys_from (json_array_elems settings).

(** ** Setting values *)

(** [is_valid_setting_value]: the result and what it leaves in
    [*invalid_type_str].  The switch covers the eight values of
    [json_type]; its [default: assert(0)] has no value left to catch. *)
Definition is_valid_setting_value (value : json_t) : bool * option string :=
  match json_typeof value with
  | JSON_STRING | JSON_TRUE | JSON_FALSE | JSON_REAL | JSON_INTEGER => (true, None)
  | JSON_NULL => (false, Some "null")
  | JSON_OBJECT => (false, Some "object")
  | JSON_ARRAY => (false, Some "array")
  end.

(** ** Formatting *)

(** One hexadecimal digit of [printf]'s [x] conversion (lower case). *)
Definition hex_digit (d : Z) : ascii :=
  if d <? 10 then ascii_of_N (Z.to_N (48 + d)) else ascii_of_N (Z.to_N (87 + d)).

(** The digits of [u], most significant first, in front of [acc]; at most
    [fuel] of them. *)
Fixpoint hex_digits (fuel : nat) (u : Z) (acc : string) : string :=
  match fuel with
  | O => acc
  | S fuel' =>
      let acc' := String (hex_digit (u mod 16)) acc in
      if u / 16 =? 0 then acc' else hex_digits fuel' (u / 16) acc'
  end.

(** [json_int_t] is a 64-bit signed integer ([long long], or [long] on the
    LP64 platforms the program is built for). *)
Definition JSON_INTEGER_BITS : Z := 64.

(** The [llx] / [lx] conversion ([JSON_INTEGER_HEX_FORMAT]): the argument is
    read as unsigned, so a negative integer shows as its two's complement. *)
Definition printf_hex (n : Z) : string :=
  hex_digits 16 (n mod 2 ^ JSON_INTEGER_BITS) EmptyString.

(** The value a run of hexadecimal digits denotes, read after [acc]. *)
Definition hex_digit_value (c : ascii) : Z :=
  let n := Z.of_N (N_of_ascii c) in
  if (48 <=? n) && (n <=? 57) then n - 48 else n - 87.

Fixpoint hex_value_from (acc : Z) (s : string) : Z :=
  match s with
  | EmptyString => acc
  | String c r => hex_value_from (16 * acc + hex_digit_value c) r
  end.

Definition hex_value (s : string) : Z := hex_value_from 0 s.

(** The attribute list [vmarkup_string] prints from its variadic arguments,
    as a list of pairs. *)
Fixpoint markup_attribs (attribs : list (string * string)) : string :=
  match attribs with
  | [] => EmptyString
  | (attrib, attrib_val) :: rest =>
      c_str attrib +:+ "=" +:+ dquote +:+ c_str attrib_val +:+ dquote
        +:+ markup_attribs rest
  end.

(** [get_bullet]: U+2022 in UTF-8. *)
Definition get_bullet : string :=
  String (ascii_of_N 226) (String (ascii_of_N 128) (String (ascii_of_N 162) EmptyString)).

(** [len] of a [GString]. *)
Definition g_string_len (s : string) : Z := Z.of_nat (String.length s).

Definition GTK_RESPONSE_YES : Z := -8.

(** ** The collaborators *)

(** jansson.  [json_dumps] is called with [JSON_ENCODE_ANY], [json_loads]
    with [JSON_DECODE_ANY]; both give NULL on failure. *)
Class Jansson := {
  json_dumps : json_t → option string;
  json_loads : string → option json_t
}.

(** GLib and GTK.  A tree path is its list of indices. *)
Class GLib := {
  g_markup_escape_text : string → string;
  gtk_tree_path_new_from_string : string → option (list Z)
}.

(** The app-profile library of nvidia-settings (app-profile.c) and the two
    tree models (ctkapcprofilemodel.c, ctkapcrulemodel.c).  [Disk] is the
    state of the configuration files; loading reads it, saving writes it. *)
Class AppProfileLib := {
  AppProfileConfig : Type;
  CtkApcProfileModel : Type;
  CtkApcRuleModel : Type;
  Disk : Type;
  nv_app_profile_config_load : Disk → option string → list string → AppProfileConfig;
  nv_app_profile_config_dup : AppProfileConfig → AppProfileConfig;
  nv_app_profile_config_validate : AppProfileConfig → AppProfileConfig → json_t;
  nv_app_profile_config_check_backing_files : Disk → AppProfileConfig → bool;
  nv_app_profile_config_save_updates : Disk → AppProfileConfig → json_t → bool → Disk * Z;
  nv_app_profile_config_get_enabled : AppProfileConfig → bool;
  nv_app_profile_config_set_enabled : AppProfileConfig → bool → AppProfileConfig;
  (* the result, and the reason it leaves when the file is not valid *)
  nv_app_profile_config_check_valid_source_file : AppProfileConfig → string → Z * string;
  nv_app_profile_cfg_file_syntax_to_json : string → string;
  ctk_apc_profile_model_get_profile : CtkApcProfileModel → string → option json_t;
  ctk_apc_profile_model_attach : CtkApcProfileModel → AppProfileConfig → CtkApcProfileModel;
  ctk_apc_rule_model_attach : CtkApcRuleModel → AppProfileConfig → CtkApcRuleModel
}.

(** ** The page and its dialogs *)

(** The fields of [CtkAppProfile] the engine reads and writes.
    [status_bar_enabled] and [status_bar] are those of its [ctk_config]. *)
Record CtkAppProfile `{AppProfileLib} := {
  cur_config : AppProfileConfig;
  gold_config : AppProfileConfig;
  apc_profile_model : CtkApcProfileModel;
  apc_rule_model : CtkApcRuleModel;
  enable_check_button : bool;
  status_bar_enabled : bool;
  status_bar : list string
}.

Module EditRuleDialog.
Record t `{AppProfileLib} := {
  parent : CtkAppProfile;
  new_rule : bool;
  rule_id : Z;
  source_file : string;
  feature : Z;
  matches : string;
  profile_name : string
}.
End EditRuleDialog.

Module EditProfileDialog.
Record t `{AppProfileLib} := {
  parent : CtkAppProfile;
  new_profile : bool;
  name : string;
  orig_name : string;
  source_file : string;
  settings : json_t;
  settings_store : list json_t;
  setting_update_canceled : bool;
  error_statusbar : list string
}.
End EditProfileDialog.

Module SaveAppProfileChangesDialog.
Record t `{AppProfileLib} := {
  parent : CtkAppProfile;
  updates : option json_t;
  backup_check_button : bool
}.
End SaveAppProfileChangesDialog.

(** What the process sees outside its own memory: the environment, the
    configuration files, and what it printed with [nv_error_msg]. *)
Record World `{AppProfileLib} := {
  environ : gmap string string;
  disk : Disk;
  stderr : list string
}.

(** ** The engine *)

Section Engine.
Context `{Jansson} `{GLib} `{AppProfileLib}.

(** [vmarkup_string] and [markup_string]; a [%s] prints the C string. *)
Definition vmarkup_string (s : string) (add_markup : bool) (tag : string)
    (ap : list (string * string)) : string :=
  if negb add_markup then c_str s
  else
    let escaped_s := g_markup_escape_text s in
    "<" +:+ c_str tag +:+ " " +:+ markup_attribs ap +:+ ">"
      +:+ c_str escaped_s +:+ "</" +:+ c_str tag +:+ ">".

Definition markup_string (s : string) (add_markup : bool) (tag : string)
    (ap : list (string * string)) : string :=
  vmarkup_string s add_markup tag ap.

(** [setting_get_key_value]: [key] and [value] tell which of the two output
    pointers are not NULL; the result holds what is written through them.
    [None]: a member is missing ([strdup] or [json_typeof] on NULL),
    [json_dumps] failed, or the value has a type the switch asserts against. *)
Definition setting_get_key_value (setting : json_t) (key value add_markup : bool)
  : option (option string * option string) :=
  key_out ←
    (if key then
       plain_key ← json_string_value (json_object_get setting "key");
       Some (Some (markup_string plain_key add_markup "span" [("color", "#000033")]))
     else Some None);
  value_out ←
    (if value then
       json_value ← json_object_get setting "value";
       plain_value ←
         match json_typeof json_value with
         | JSON_STRING | JSON_TRUE | JSON_FALSE | JSON_REAL => json_dumps json_value
         | JSON_INTEGER => Some ("0x" +:+ printf_hex (json_integer_value json_value))
         | _ => None
         end;
       Some (Some (markup_string plain_value add_markup "span" [("color", "#003300")]))
     else Some None);
  Some (key_out, value_out).

(** [run_error_dialog]: [result] is what [gtk_dialog_run] returns when the
    dialog is shown.  Gives the text of the dialog, if one is shown, and
    whether the operation goes on. *)
Definition run_error_dialog (result : Z) (fatal_errors nonfatal_errors op_string : string)
  : option string * bool :=
  if (g_string_len fatal_errors =? 0) && (g_string_len nonfatal_errors =? 0) then (None, true)
  else
    let error_string := EmptyString in
    let error_string :=
      if negb (g_string_len fatal_errors =? 0) then
        error_string +:+ "nvidia-settings encountered the following configuration errors:"
          +:+ newline +:+ newline +:+ fatal_errors +:+ newline
      else error_string in
    let error_string :=
      if negb (g_string_len nonfatal_errors =? 0) then
        error_string
          +:+ (if negb (g_string_len fatal_errors =? 0) then "Also, " else EmptyString)
          +:+ "nvidia-settings encountered the following configuration issues:"
          +:+ newline +:+ newline +:+ nonfatal_errors +:+ newline
      else error_string in
    let error_string :=
      if negb (g_string_len fatal_errors =? 0) then
        error_string +:+ "Please fix the configuration errors before attempting to "
          +:+ op_string +:+ "." +:+ newline
      else error_string +:+ "Continue to " +:+ op_string +:+ " anyway?" +:+ newline in
    let success :=
      if g_string_len fatal_errors =? 0 then result =? GTK_RESPONSE_YES else false in
    (Some error_string, success).

Definition check_valid_source_file (ctk_app_profile : CtkAppProfile)
    (source_file_str : string) : bool * string :=
  let '(r, reason) :=
    nv_app_profile_config_check_valid_source_file (cur_config ctk_app_profile) source_file_str in
  (negb (r =? 0), reason).

(** The message both dialogs append to [fatal_errors] for a bad source file. *)
Definition source_file_error (source_file reason : string) : string :=
  get_bullet +:+ tab +:+ "The source filename " +:+ dquote +:+ c_str source_file +:+ dquote
    +:+ " is not valid in this configuration because " +:+ c_str reason +:+ newline.

Definition missing_profile_error (profile_name : string) : string :=
  get_bullet +:+ tab +:+ "The profile " +:+ dquote +:+ c_str profile_name +:+ dquote
    +:+ " referenced by this rule does not exist." +:+ newline.

(** [edit_rule_dialog_validate] up to its call of [run_error_dialog]: the
    contents of [fatal_errors] and [nonfatal_errors] at that point. *)
Definition edit_rule_dialog_errors (dialog : EditRuleDialog.t) : string * string :=
  let ctk_app_profile := EditRuleDialog.parent dialog in
  let fatal_errors := EmptyString in
  let nonfatal_errors := EmptyString in
  let fatal_errors :=
    let '(valid, reason) :=
      check_valid_source_file ctk_app_profile (EditRuleDialog.source_file dialog) in
    if negb valid then
      fatal_errors +:+ source_file_error (EditRuleDialog.source_file dialog) reason
    else fatal_errors in
  let nonfatal_errors :=
    match ctk_apc_profile_model_get_profile (apc_profile_model ctk_app_profile)
            (EditRuleDialog.profile_name dialog) with
    | None => nonfatal_errors +:+ missing_profile_error (EditRuleDialog.profile_name dialog)
    | Some _ => nonfatal_errors
    end in
  (fatal_errors, nonfatal_errors).

Definition edit_rule_dialog_validate (result : Z) (dialog : EditRuleDialog.t) : bool :=
  let '(fatal_errors, nonfatal_errors) := edit_rule_dialog_errors dialog in
  (run_error_dialog result fatal_errors nonfatal_errors "save this rule").2.

Definition empty_name_error : string :=
  get_bullet +:+ tab +:+ "The profile name is empty." +:+ newline.

Definition overwrite_error (name : string) : string :=
  get_bullet +:+ tab +:+ "A profile with the name " +:+ dquote +:+ c_str name +:+ dquote
    +:+ " already exists and will be overwritten." +:+ newline.

Definition rename_error (orig_name name : string) : string :=
  get_bullet +:+ tab +:+ "Renaming this profile from " +:+ dquote +:+ c_str orig_name
    +:+ dquote +:+ " to " +:+ dquote +:+ c_str name +:+ dquote
    +:+ " will overwrite an existing profile." +:+ newline.

Definition unrecognized_keys_error : string :=
  get_bullet +:+ tab
    +:+ "This profile has settings with keys that may not be recognized "
    +:+ "by the NVIDIA graphics driver. Consult the on-line help for a list "
    +:+ "of valid keys." +:+ newline.

(** [edit_profile_dialog_validate] up to its call of [run_error_dialog]. *)
Definition edit_profile_dialog_errors (dialog : EditProfileDialog.t)
  : option (string * string) :=
  let ctk_app_profile := EditProfileDialog.parent dialog in
  let name := EditProfileDialog.name dialog in
  let orig_name := EditProfileDialog.orig_name dialog in
  let fatal_errors := EmptyString in
  let nonfatal_errors := EmptyString in
  let nonfatal_errors :=
    if strcmp name "" =? 0 then nonfatal_errors +:+ empty_name_error else nonfatal_errors in
  let nonfatal_errors :=
    if (EditProfileDialog.new_profile dialog || negb (strcmp name orig_name =? 0))
       && match ctk_apc_profile_model_get_profile (apc_profile_model ctk_app_profile) name with
          | Some _ => true
          | None => false
          end
    then
      if EditProfileDialog.new_profile dialog then nonfatal_errors +:+ overwrite_error name
      else nonfatal_errors +:+ rename_error orig_name name
    else nonfatal_errors in
  let fatal_errors :=
    let '(valid, reason) :=
      check_valid_source_file ctk_app_profile (EditProfileDialog.source_file dialog) in
    if negb valid then
      fatal_errors +:+ source_file_error (EditProfileDialog.source_file dialog) reason
    else fatal_errors in
  unrecognized ← check_unrecognized_setting_keys (EditProfileDialog.settings dialog);
  let nonfatal_errors :=
    if unrecognized : bool then nonfatal_errors +:+ unrecognized_keys_error
    else nonfatal_errors in
  Some (fatal_errors, nonfatal_errors).

Definition edit_profile_dialog_validate (result : Z) (dialog : EditProfileDialog.t)
  : option bool :=
  '(fatal_errors, nonfatal_errors) ← edit_profile_dialog_errors dialog;
  Some (run_error_dialog result fatal_errors nonfatal_errors "save this profile").2.

(** [gtk_tree_model_get_iter] on a list store: the row a path names, when
    the path is not NULL, has depth one and its index is in range. *)
Definition gtk_tree_model_get_iter (store : list json_t) (path : option (list Z))
  : option nat :=
  match path with
  | Some [i] =>
      if (0 <=? i) && (i <? Z.of_nat (length store)) then Some (Z.to_nat i) else None
  | _ => None
  end.

(** [gtk_statusbar_push]: the new message goes on top of the stack. *)
Definition gtk_statusbar_push (statusbar : list string) (text : string) : list string :=
  text :: statusbar.

Definition parse_error_message (new_text : string) : string :=
  "The value [" +:+ c_str new_text +:+ "] was not understood by the JSON parser.".

(** [%s] of a NULL pointer prints as glibc does. *)
Definition illegal_type_message (invalid_type_str : option string) : string :=
  "A value of type " +:+ dquote +:+ default "(null)" invalid_type_str +:+ dquote
    +:+ " is not allowed in the configuration.".

(** [setting_value_edited]: the handler of the value column's edit.  The
    setting of a row is shared with the store, so storing into it is an
    update of the row. *)
Definition setting_value_edited (path_s new_text : string) (dialog : EditProfileDialog.t)
  : EditProfileDialog.t :=
  if EditProfileDialog.setting_update_canceled dialog then dialog
  else
    let path := gtk_tree_path_new_from_string path_s in
    match gtk_tree_model_get_iter (EditProfileDialog.settings_store dialog) path with
    | None => dialog
    | Some iter =>
        match EditProfileDialog.settings_store dialog !! iter with
        | None => dialog
        | Some setting =>
            let new_text_in_json := nv_app_profile_cfg_file_syntax_to_json new_text in
            let '(value, error_statusbar) :=
              match json_loads new_text_in_json with
              | None =>
                  (json_false,
                   gtk_statusbar_push (EditProfileDialog.error_statusbar dialog)
                     (parse_error_message new_text))
              | Some value =>
                  let '(valid, invalid_type_str) := is_valid_setting_value value in
                  if negb valid then
                    (json_false,
                     gtk_statusbar_push (EditProfileDialog.error_statusbar dialog)
                       (illegal_type_message invalid_type_str))
                  else (value, EditProfileDialog.error_statusbar dialog)
              end in
            {| EditProfileDialog.parent := EditProfileDialog.parent dialog;
               EditProfileDialog.new_profile := EditProfileDialog.new_profile dialog;
               EditProfileDialog.name := EditProfileDialog.name dialog;
               EditProfileDialog.orig_name := EditProfileDialog.orig_name dialog;
               EditProfileDialog.source_file := EditProfileDialog.source_file dialog;
               EditProfileDialog.settings := EditProfileDialog.settings dialog;
               EditProfileDialog.settings_store :=
                 <[iter := json_object_set_new setting "value" value]>
                   (EditProfileDialog.settings_store dialog);
               EditProfileDialog.setting_update_canceled :=
                 EditProfileDialog.setting_update_canceled dialog;
               EditProfileDialog.error_statusbar := error_statusbar |}
        end
    end.

(** The value a row of the settings store holds. *)
Definition stored_value (store : list json_t) (row : nat) : option json_t :=
  setting ← store !! row; json_object_get setting "value".

(** ** The default files *)

Definition getenv (w : World) (var : string) : option string := environ w !! var.

Definition nv_error_msg (w : World) (msg : string) : World :=
  {| environ := environ w; disk := disk w; stderr := (stderr w ++ [msg])%list |}.

Definition HOME_not_set_error : string :=
  "The environment variable HOME is not set. Any "
    +:+ "modifications to global application profile settings "
    +:+ "will not be saved.".

Definition get_default_global_config_file (w : World) : World * option string :=
  match getenv w "HOME" with
  | Some homeStr =>
      (w, Some (nvstrcat homeStr "/.nv/nvidia-application-profile-globals-rc"))
  | None => (nv_error_msg w HOME_not_set_error, None)
  end.

Definition SEARCH_PATH_NUM_FILES : Z := 4.

(** [get_default_search_path]: the entries written to [filenames], in
    order; [*num_files] is their number. *)
Definition get_default_search_path (w : World) : list string :=
  let filenames : list string := [] in
  let filenames :=
    match getenv w "HOME" with
    | Some homeStr =>
        (filenames
           ++ [nvstrcat homeStr "/.nv/nvidia-application-profiles-rc"]
           ++ [nvstrcat homeStr "/.nv/nvidia-application-profiles-rc.d"])%list
    | None => filenames
    end in
  (filenames
     ++ ["/etc/nvidia/nvidia-application-profiles-rc"]
     ++ ["/etc/nvidia/nvidia-application-profiles-rc.d"])%list.

(** ** Reload and save *)

(** [ctk_config_statusbar_message] of ctkconfig.c: the message is shown
    unless the status bar is disabled, which is what
    [app_profile_load_global_settings] disables it for. *)
Definition ctk_config_statusbar_message (ctk_app_profile : CtkAppProfile) (msg : string)
  : CtkAppProfile :=
  if status_bar_enabled ctk_app_profile then
    {| cur_config := cur_config ctk_app_profile;
       gold_config := gold_config ctk_app_profile;
       apc_profile_model := apc_profile_model ctk_app_profile;
       apc_rule_model := apc_rule_model ctk_app_profile;
       enable_check_button := enable_check_button ctk_app_profile;
       status_bar_enabled := status_bar_enabled ctk_app_profile;
       status_bar := msg :: status_bar ctk_app_profile |}
  else ctk_app_profile.

Definition STATUSBAR_UPDATE_WARNING : string :=
  "This will take effect after changes are saved.".

(** [enabled_check_button_toggled], the handler of the check button. *)
Definition enabled_check_button_toggled (ctk_app_profile : CtkAppProfile) : CtkAppProfile :=
  let active := enable_check_button ctk_app_profile in
  ctk_config_statusbar_message
    {| cur_config := nv_app_profile_config_set_enabled (cur_config ctk_app_profile) active;
       gold_config := gold_config ctk_app_profile;
       apc_profile_model := apc_profile_model ctk_app_profile;
       apc_rule_model := apc_rule_model ctk_app_profile;
       enable_check_button := active;
       status_bar_enabled := status_bar_enabled ctk_app_profile;
       status_bar := status_bar ctk_app_profile |}
    ("Application profiles are " +:+ (if active then "enabled" else "disabled")
       +:+ ". " +:+ STATUSBAR_UPDATE_WARNING).

(** [gtk_toggle_button_set_active] on the check button: GTK runs the
    handler when the state changes. *)
Definition gtk_toggle_button_set_active (ctk_app_profile : CtkAppProfile) (is_active : bool)
  : CtkAppProfile :=
  if Bool.eqb (enable_check_button ctk_app_profile) is_active then ctk_app_profile
  else
    enabled_check_button_toggled
      {| cur_config := cur_config ctk_app_profile;
         gold_config := gold_config ctk_app_profile;
         apc_profile_model := apc_profile_model ctk_app_profile;
         apc_rule_model := apc_rule_model ctk_app_profile;
         enable_check_button := is_active;
         status_bar_enabled := status_bar_enabled ctk_app_profile;
         status_bar := status_bar ctk_app_profile |}.

Definition set_status_bar_enabled (ctk_app_profile : CtkAppProfile) (enabled : bool)
  : CtkAppProfile :=
  {| cur_config := cur_config ctk_app_profile;
     gold_config := gold_config ctk_app_profile;
     apc_profile_model := apc_profile_model ctk_app_profile;
     apc_rule_model := apc_rule_model ctk_app_profile;
     enable_check_button := enable_check_button ctk_app_profile;
     status_bar_enabled := enabled;
     status_bar := status_bar ctk_app_profile |}.

Definition app_profile_load_global_settings (ctk_app_profile : CtkAppProfile)
    (config : AppProfileConfig) : CtkAppProfile :=
  let ctk_app_profile := set_status_bar_enabled ctk_app_profile false in
  let ctk_app_profile :=
    gtk_toggle_button_set_active ctk_app_profile (nv_app_profile_config_get_enabled config) in
  set_status_bar_enabled ctk_app_profile true.

(** [app_profile_reload]: both configurations are freed, the gold one is
    loaded from the files and the current one is a duplicate of it. *)
Definition app_profile_reload (w : World) (ctk_app_profile : CtkAppProfile)
  : World * CtkAppProfile :=
  let search_path := get_default_search_path w in
  let '(w, global_config_file) := get_default_global_config_file w in
  let gold := nv_app_profile_config_load (disk w) global_config_file search_path in
  let cur := nv_app_profile_config_dup gold in
  let ctk_app_profile :=
    {| cur_config := cur;
       gold_config := gold;
       apc_profile_model :=
         ctk_apc_profile_model_attach (apc_profile_model ctk_app_profile) cur;
       apc_rule_model := ctk_apc_rule_model_attach (apc_rule_model ctk_app_profile) cur;
       enable_check_button := enable_check_button ctk_app_profile;
       status_bar_enabled := status_bar_enabled ctk_app_profile;
       status_bar := status_bar ctk_app_profile |} in
  (w, app_profile_load_global_settings ctk_app_profile (cur_config ctk_app_profile)).

(** [json_array_size]. *)
Definition json_array_size (a : json_t) : Z := Z.of_nat (length (json_array_elems a)).

Definition unsaved_changes_error : string :=
  "There are unsaved changes in the configuration which will be permanently lost if "
    +:+ "the configuration is reloaded from disk." +:+ newline.

Definition files_altered_error : string :=
  "Some configuration files may have been modified externally since the configuration "
    +:+ "was last loaded from disk." +:+ newline.

(** [reload_callback], the handler of the Reload button; [result] is the
    user's answer to the dialog, if one is shown. *)
Definition reload_callback (result : Z) (w : World) (ctk_app_profile : CtkAppProfile)
  : World * CtkAppProfile :=
  let fatal_errors := EmptyString in
  let nonfatal_errors := EmptyString in
  let updates :=
    nv_app_profile_config_validate (cur_config ctk_app_profile) (gold_config ctk_app_profile) in
  let nonfatal_errors :=
    if 0 <? json_array_size updates then
      nonfatal_errors +:+ get_bullet +:+ tab +:+ unsaved_changes_error
    else nonfatal_errors in
  let nonfatal_errors :=
    if nv_app_profile_config_check_backing_files (disk w) (cur_config ctk_app_profile) then
      nonfatal_errors +:+ get_bullet +:+ tab +:+ files_altered_error
    else nonfatal_errors in
  let do_reload :=
    (run_error_dialog result fatal_errors nonfatal_errors
       "reload the configuration from disk").2 in
  if do_reload then
    let '(w, ctk_app_profile) := app_profile_reload w ctk_app_profile in
    (w, ctk_config_statusbar_message ctk_app_profile
          "Application profile configuration reloaded from disk.")
  else (w, ctk_app_profile).

(** [save_app_profile_changes_dialog_save_changes], the handler of the Save
    button of the dialog.  [conflict_result] and [write_error_result] are
    the user's answers to the two questions the handler may ask. *)
Definition save_app_profile_changes_dialog_save_changes
    (conflict_result write_error_result : Z) (w : World)
    (dialog : SaveAppProfileChangesDialog.t)
  : World * SaveAppProfileChangesDialog.t :=
  let ctk_app_profile := SaveAppProfileChangesDialog.parent dialog in
  let do_save := true in
  let do_reload := true in
  let do_save :=
    if nv_app_profile_config_check_backing_files (disk w) (cur_config ctk_app_profile) then
      if negb (conflict_result =? GTK_RESPONSE_YES) then false else do_save
    else do_save in
  let do_backup := SaveAppProfileChangesDialog.backup_check_button dialog in
  let '(w, ctk_app_profile) :=
    if do_save then
      let '(disk', ret) :=
        nv_app_profile_config_save_updates (disk w) (cur_config ctk_app_profile)
          (default json_null (SaveAppProfileChangesDialog.updates dialog)) do_backup in
      let w := {| environ := environ w; disk := disk'; stderr := stderr w |} in
      let do_reload :=
        if ret <? 0 then
          if negb (write_error_result =? GTK_RESPONSE_YES) then false else do_reload
        else do_reload in
      let '(w, ctk_app_profile) :=
        if do_reload then app_profile_reload w ctk_app_profile else (w, ctk_app_profile) in
      (w, ctk_config_statusbar_message ctk_app_profile
            "Application profile configuration saved to disk.")
    else (w, ctk_app_profile) in
  (w, {| SaveAppProfileChangesDialog.parent := ctk_app_profile;
         SaveAppProfileChangesDialog.updates := None;
         SaveAppProfileChangesDialog.backup_check_button :=
           SaveAppProfileChangesDialog.backup_check_button dialog |}).

End Engine.

(** ** The rest of the editor

    The handlers and helpers of the file around the ones above: the other
    cell edit, the rows of the settings store, the renderers of the lists,
    the keys that move the cursor between cells, the preview of a save and
    the saving of a rule. *)

(** jansson's UTF-8 check: [json_string] gives NULL for a text that fails it. *)
Class JanssonUtf8 := {
  utf8_check_string : string → bool
}.

(** The two writes of the rule model (ctkapcrulemodel.c).  The model writes
    through to the configuration it is attached to, so a write changes the
    pair. *)
Class RuleModelLib `{AppProfileLib} := {
  ctk_apc_rule_model_create_rule :
    CtkApcRuleModel * AppProfileConfig → string → json_t →
    CtkApcRuleModel * AppProfileConfig;
  ctk_apc_rule_model_update_rule :
    CtkApcRuleModel * AppProfileConfig → string → Z → json_t →
    CtkApcRuleModel * AppProfileConfig
}.

(** What is being typed into a cell of the settings view: the column, the
    path of the row and the text so far. *)
Inductive pending_edit : Type :=
  | editing_key (path_s new_text : string)
  | editing_value (path_s new_text : string).

Section Editor.
Context `{Jansson} `{GLib} `{AppProfileLib} `{JanssonUtf8} `{!RuleModelLib}.

(** [json_string(value)]: a string value holding the C string, or NULL. *)
Definition json_string_of (value : string) : option json_t :=
  if utf8_check_string (c_str value) then Some (json_string (c_str value)) else None.

(** [json_object_set_new] with a value that may be NULL: it fails on NULL. *)
Definition json_object_set_new_nullable (o : json_t) (key : string) (v : option json_t)
  : json_t :=
  match v with
  | Some v => json_object_set_new o key v
  | None => o
  end.

(** The writes to the fields of the profile dialog. *)
Definition set_settings_store (dialog : EditProfileDialog.t) (store : list json_t)
  : EditProfileDialog.t :=
  {| EditProfileDialog.parent := EditProfileDialog.parent dialog;
     EditProfileDialog.new_profile := EditProfileDialog.new_profile dialog;
     EditProfileDialog.name := EditProfileDialog.name dialog;
     EditProfileDialog.orig_name := EditProfileDialog.orig_name dialog;
     EditProfileDialog.source_file := EditProfileDialog.source_file dialog;
     EditProfileDialog.settings := EditProfileDialog.settings dialog;
     EditProfileDialog.settings_store := store;
     EditProfileDialog.setting_update_canceled :=
       EditProfileDialog.setting_update_canceled dialog;
     EditProfileDialog.error_statusbar := EditProfileDialog.error_statusbar dialog |}.

Definition set_error_statusbar (dialog : EditProfileDialog.t) (statusbar : list string)
  : EditProfileDialog.t :=
  {| EditProfileDialog.parent := EditProfileDialog.parent dialog;
     EditProfileDialog.new_profile := EditProfileDialog.new_profile dialog;
     EditProfileDialog.name := EditProfileDialog.name dialog;
     EditProfileDialog.orig_name := EditProfileDialog.orig_name dialog;
     EditProfileDialog.source_file := EditProfileDialog.source_file dialog;
     EditProfileDialog.settings := EditProfileDialog.settings dialog;
     EditProfileDialog.settings_store := EditProfileDialog.settings_store dialog;
     EditProfileDialog.setting_update_canceled :=
       EditProfileDialog.setting_update_canceled dialog;
     EditProfileDialog.error_statusbar := statusbar |}.

Definition set_setting_update_canceled (dialog : EditProfileDialog.t) (canceled : bool)
  : EditProfileDialog.t :=
  {| EditProfileDialog.parent := EditProfileDialog.parent dialog;
     EditProfileDialog.new_profile := EditProfileDialog.new_profile dialog;
     EditProfileDialog.name := EditProfileDialog.name dialog;
     EditProfileDialog.orig_name := EditProfileDialog.orig_name dialog;
     EditProfileDialog.source_file := EditProfileDialog.source_file dialog;
     EditProfileDialog.settings := EditProfileDialog.settings dialog;
     EditProfileDialog.settings_store := EditProfileDialog.settings_store dialog;
     EditProfileDialog.setting_update_canceled := canceled;
     EditProfileDialog.error_statusbar := EditProfileDialog.error_statusbar dialog |}.

Definition set_settings (dialog : EditProfileDialog.t) (settings : json_t)
  : EditProfileDialog.t :=
  {| EditProfileDialog.parent := EditProfileDialog.parent dialog;
     EditProfileDialog.new_profile := EditProfileDialog.new_profile dialog;
     EditProfileDialog.name := EditProfileDialog.name dialog;
     EditProfileDialog.orig_name := EditProfileDialog.orig_name dialog;
     EditProfileDialog.source_file := EditProfileDialog.source_file dialog;
     EditProfileDialog.settings := settings;
     EditProfileDialog.settings_store := EditProfileDialog.settings_store dialog;
     EditProfileDialog.setting_update_canceled :=
       EditProfileDialog.setting_update_canceled dialog;
     EditProfileDialog.error_statusbar := EditProfileDialog.error_statusbar dialog |}.

(** *** The renderers *)

(** [setting_type_renderer_func]: the text of the type column for a row.
    [None]: the setting has no value, or one the switch asserts against. *)
Definition setting_type_renderer_func (setting : json_t) : option string :=
  value ← json_object_get setting "value";
  match json_typeof value with
  | JSON_STRING => Some "string"
  | JSON_INTEGER => Some "int"
  | JSON_REAL => Some "float"
  | JSON_TRUE | JSON_FALSE => Some "bool"
  | _ => None
  end.

(** The loop of [serialize_settings] from setting [i] on, over the rest of
    the array. *)
Fixpoint serialize_settings_from (settings : list json_t) (i : Z) (old_markup : string)
    (add_markup : bool) : option string :=
  match settings with
  | [] => Some old_markup
  | setting :: rest =>
      let old_markup :=
        if negb (i =? 0) then nvstrcat old_markup ", " else old_markup in
      '(key, value) ← setting_get_key_value setting true true add_markup;
      key ← key;
      value ← value;
      let one_setting := c_str key +:+ "=" +:+ c_str value in
      serialize_settings_from rest (i + 1) (nvstrcat old_markup one_setting) add_markup
  end.

(** [serialize_settings]: [settings] may be NULL. *)
Definition serialize_settings (settings : option json_t) (add_markup : bool)
  : option string :=
  match settings with
  | None => Some (markup_string "(no such profile)" add_markup "span" [("color", "#555555")])
  | Some settings => serialize_settings_from (json_array_elems settings) 0 EmptyString add_markup
  end.

(** [rule_profile_settings_renderer_func]: the markup of the settings
    column of a rule, from the name of the rule's profile.
    [json_object_get] of a NULL profile is NULL. *)
Definition rule_profile_settings_renderer_func (ctk_app_profile : CtkAppProfile)
    (profile_name : string) : option string :=
  let profile :=
    ctk_apc_profile_model_get_profile (apc_profile_model ctk_app_profile) profile_name in
  let settings := profile ≫= λ p, json_object_get p "settings" in
  serialize_settings settings true.

(** *** The rows of the settings store *)

Definition unrecognized_key_message (new_text : string) : string :=
  "The key [" +:+ c_str new_text +:+ "] is not recognized by nvidia-settings."
    +:+ "Please check for spelling errors (keys "
    +:+ "are NOT case sensitive).".

(** [setting_key_edited]: the handler of the key column's edit. *)
Definition setting_key_edited (path_s new_text : string) (dialog : EditProfileDialog.t)
  : EditProfileDialog.t :=
  if EditProfileDialog.setting_update_canceled dialog then dialog
  else
    let path := gtk_tree_path_new_from_string path_s in
    match gtk_tree_model_get_iter (EditProfileDialog.settings_store dialog) path with
    | None => dialog
    | Some iter =>
        match EditProfileDialog.settings_store dialog !! iter with
        | None => dialog
        | Some setting =>
            let canonical_key := get_canonical_setting_key new_text in
            let dialog :=
              match canonical_key with
              | None =>
                  set_error_statusbar dialog
                    (gtk_statusbar_push (EditProfileDialog.error_statusbar dialog)
                       (unrecognized_key_message new_text))
              | Some _ => dialog
              end in
            let setting :=
              match canonical_key with
              | Some canonical_key =>
                  json_object_set_new_nullable setting "key" (json_string_of canonical_key)
              | None => json_object_set_new_nullable setting "key" (json_string_of new_text)
              end in
            set_settings_store dialog
              (<[iter := setting]> (EditProfileDialog.settings_store dialog))
        end
    end.

(** [edit_profile_dialog_settings_new_row]: a fresh setting at the end of
    the store; gives the store, the path of the new row and the index of the
    column to edit. *)
Definition edit_profile_dialog_settings_new_row (store : list json_t)
  : list json_t * list Z * Z :=
  let setting := json_object_of [] in
  let setting := json_object_set_new_nullable setting "key" (json_string_of "") in
  let setting := json_object_set_new setting "value" json_false in
  ((store ++ [setting])%list, [Z.of_nat (length store)], 0).

(** [edit_profile_dialog_add_setting]: the dialog and the cell the cursor
    is put on, in editing mode. *)
Definition edit_profile_dialog_add_setting (dialog : EditProfileDialog.t)
  : EditProfileDialog.t * (list Z * Z) :=
  let '(store, path, column) :=
    edit_profile_dialog_settings_new_row (EditProfileDialog.settings_store dialog) in
  (set_settings_store dialog store, (path, column)).

(** [gtk_window_set_focus(window, NULL)] while a cell is being edited: the
    cell loses the focus, its editing is done
    ([cell_renderer_widget_focus_out_event]) and the column's handler runs
    on the text. *)
Definition gtk_window_set_focus_NULL (pending : option pending_edit)
    (dialog : EditProfileDialog.t) : EditProfileDialog.t :=
  match pending with
  | None => dialog
  | Some (editing_key path_s new_text) => setting_key_edited path_s new_text dialog
  | Some (editing_value path_s new_text) => setting_value_edited path_s new_text dialog
  end.

(** [choose_next_row_in_list_view]: the path to select after a row was
    removed from a list of now [num_rows] rows.  [None]: the assertion on
    the depth of the path. *)
Definition choose_next_row_in_list_view (num_rows : Z) (path : list Z) : option (list Z) :=
  match path with
  | [index] =>
      if (0 <? num_rows) && (index =? num_rows) then Some [num_rows - 1] else Some path
  | _ => None
  end.

(** [edit_profile_dialog_delete_setting_common]: [pending] is the edit in
    progress and [cursor] the path of the cursor, if any.  Gives the dialog
    and the path the cursor is set to. *)
Definition edit_profile_dialog_delete_setting_common (pending : option pending_edit)
    (cursor : option (list Z)) (dialog : EditProfileDialog.t)
  : option (EditProfileDialog.t * option (list Z)) :=
  let dialog := set_setting_update_canceled dialog true in
  let dialog := gtk_window_set_focus_NULL pending dialog in
  let dialog := set_setting_update_canceled dialog false in
  match cursor with
  | None => Some (dialog, cursor)
  | Some path =>
      match gtk_tree_model_get_iter (EditProfileDialog.settings_store dialog) cursor with
      | None => Some (dialog, cursor)
      | Some iter =>
          let store := delete iter (EditProfileDialog.settings_store dialog) in
          path ← choose_next_row_in_list_view (Z.of_nat (length store)) path;
          Some (set_settings_store dialog store, Some path)
      end
  end.

(** [edit_profile_dialog_update_settings]: the array of the dialog is
    cleared and refilled with the settings of the rows. *)
Definition edit_profile_dialog_update_settings (dialog : EditProfileDialog.t)
  : EditProfileDialog.t :=
  match EditProfileDialog.settings dialog with
  | json_array_of _ => set_settings dialog (json_array_of (EditProfileDialog.settings_store dialog))
  | _ => dialog
  end.

(** [load_settings_from_profile]: the store a profile's settings load to;
    [json_deep_copy] gives an equal value. *)
Definition load_settings_from_profile (ctk_app_profile : CtkAppProfile)
    (profile_name : string) : list json_t :=
  match ctk_apc_profile_model_get_profile (apc_profile_model ctk_app_profile) profile_name with
  | None => []
  | Some profile =>
      match json_object_get profile "settings" with
      | None => []
      | Some settings => json_array_elems settings
      end
  end.

End Editor.


(** *** Moving between the cells with the keyboard *)

(** How a run of a function with a loop or an assertion ends. *)
Inductive run (A : Type) : Type :=
  | Returns (a : A)
  | Aborts
  | OutOfFuel.
Arguments Returns {A} a.
Arguments Aborts {A}.
Arguments OutOfFuel {A}.

(** The key event, as far as the handler reads it. *)
Record GdkEventKey := {
  event_type : Z;
  keyval : Z;
  state : Z
}.

Definition GDK_KEY_PRESS : Z := 8.
Definition GDK_SHIFT_MASK : Z := 1.
Definition GDK_Tab : Z := 0xff09.
Definition GDK_ISO_Left_Tab : Z := 0xfe20.
Definition GDK_Return : Z := 0xff0d.
Definition GDK_Up : Z := 0xff52.
Definition GDK_Down : Z := 0xff54.

(** A tree view, as far as the handler reads it: each column with the
    [editable] property of its cell renderers, the number of rows of the
    model, the path of the cursor and the focus column, as its position in
    the list of columns. *)
Record TreeView := {
  columns : list (list bool);
  row_count : Z;
  cursor_path : option (list Z);
  focus_column : option nat
}.

(** [g_list_position (list, g_list_find (list, focus_column))] and
    [g_list_length (list)]. *)
Definition tree_view_get_cursor_path_and_column_idx (tree_view : TreeView)
  : option (list Z) * Z * Z :=
  let column_idx :=
    match focus_column tree_view with
    | Some i => if (i <? length (columns tree_view))%nat then Z.of_nat i else -1
    | None => -1
    end in
  (cursor_path tree_view, column_idx, Z.of_nat (length (columns tree_view))).

(** [cell_renderer_editable] over the renderers of a column. *)
Fixpoint cell_renderers_editable (renderers : list bool) (editable : bool) : bool :=
  match renderers with
  | [] => editable
  | this_editable :: rest =>
      cell_renderers_editable rest
        (if editable then editable else if this_editable then true else editable)
  end.

(** [tree_view_column_is_editable]; a NULL column has no renderers. *)
Definition tree_view_column_is_editable (tree_column : option (list bool)) : bool :=
  cell_renderers_editable (default [] tree_column) false.

Definition gtk_tree_view_get_column (tree_view : TreeView) (n : Z) : option (list bool) :=
  if n <? 0 then None else columns tree_view !! Z.to_nat n.

(** The [do ... while] of [cell_renderer_widget_key_press_event]: from the
    cell at [row_idx], [column_idx], one cell at a time in the direction
    [dx], to an editable column or out of the rows. *)
Fixpoint next_cell (fuel : nat) (tree_view : TreeView) (dx row_idx column_idx : Z)
  : run (Z * Z) :=
  match fuel with
  | O => OutOfFuel
  | S fuel =>
      let column_count := Z.of_nat (length (columns tree_view)) in
      let column_idx := column_idx + dx in
      if negb (1 <=? column_count) then Aborts
      else
        let '(row_idx, column_idx) :=
          if column_idx <? 0 then (row_idx - 1, column_count - 1)
          else if column_count <=? column_idx then (row_idx + 1, 0)
          else (row_idx, column_idx) in
        let column := gtk_tree_view_get_column tree_view column_idx in
        if negb (tree_view_column_is_editable column)
           && (0 <=? row_idx) && (row_idx <? row_count tree_view)
        then next_cell fuel tree_view dx row_idx column_idx
        else Returns (row_idx, column_idx)
  end.

(** [cell_renderer_widget_key_press_event]: whether the key is consumed,
    and the cell the cursor is set on, if it is set. *)
Definition cell_renderer_widget_key_press_event (fuel : nat) (event : GdkEventKey)
    (tree_view : TreeView) : run (bool * option (Z * Z)) :=
  if event_type event =? GDK_KEY_PRESS then
    let '(dx, dy) :=
      if (keyval event =? GDK_Tab) || (keyval event =? GDK_ISO_Left_Tab) then
        (if negb (Z.land (state event) GDK_SHIFT_MASK =? 0) then -1 else 1, 0)
      else if keyval event =? GDK_Up then (0, -1)
      else if (keyval event =? GDK_Down) || (keyval event =? GDK_Return) then (0, 1)
      else (0, 0) in
    if negb (dx =? 0) || negb (dy =? 0) then
      let '(path, column_idx, column_count) :=
        tree_view_get_cursor_path_and_column_idx tree_view in
      match path with
      | Some [row_idx] =>
          let moved :=
            if negb (dx =? 0) then next_cell fuel tree_view dx row_idx column_idx
            else Returns (row_idx + dy, column_idx) in
          match moved with
          | Returns (row_idx, column_idx) =>
              if (0 <=? row_idx) && (row_idx <? row_count tree_view)
              then Returns (true, Some (row_idx, column_idx))
              else Returns (true, None)
          | Aborts => Aborts
          | OutOfFuel => OutOfFuel
          end
      | _ => Aborts
      end
    else Returns (false, None)
  else Returns (false, None).

(** *** The preview of a save *)

(** The loop of [get_update_filenames]: each name goes in front of the list.
    [None]: an update without a string under [filename] ([strdup] of NULL). *)
Fixpoint get_update_filenames_from (updates : list json_t) (update_filenames : list string)
  : option (list string) :=
  match updates with
  | [] => Some update_filenames
  | update :: rest =>
      update_filename ← json_string_value (json_object_get update "filename");
      get_update_filenames_from rest (c_str update_filename :: update_filenames)
  end.

Definition get_update_filenames (updates : json_t) : option (list string) :=
  get_update_filenames_from (json_array_elems updates) [].

(** The loop of [save_app_profile_settings_dialog_load_current_update] that
    looks for the text of the file chosen in the menu. *)
Fixpoint current_update_text_from (updates : list json_t) (filename : string)
    (text : option string) : option (option string) :=
  match updates with
  | [] => Some text
  | update :: rest =>
      update_filename ← json_string_value (json_object_get update "filename");
      let text :=
        if strcmp update_filename filename =? 0
        then json_string_value (json_object_get update "text")
        else text in
      current_update_text_from rest filename text
  end.

(** The text the preview buffer is set to. *)
Definition current_update_text (updates : json_t) (filename : string) : option string :=
  text ← current_update_text_from (json_array_elems updates) filename None;
  Some (default EmptyString (c_str <$> text)).


(** *** Editing and saving a rule *)

(** The columns of a row of the rule model that the editor reads. *)
Record RuleRow := {
  row_id : Z;
  row_feature : string;
  row_matches : string;
  row_profile_name : string;
  row_filename : string
}.

Section RuleEditor.
Context `{Jansson} `{GLib} `{AppProfileLib} `{JanssonUtf8} `{!RuleModelLib}.

(** [edit_rule_callbacks_common], up to the showing of the dialog: [row] is
    the row at the path, if the path names one. *)
Definition edit_rule_callbacks_common (row : option RuleRow) (dialog : EditRuleDialog.t)
  : EditRuleDialog.t :=
  match row with
  | None => dialog
  | Some row =>
      {| EditRuleDialog.parent := EditRuleDialog.parent dialog;
         EditRuleDialog.new_rule := false;
         EditRuleDialog.rule_id := row_id row;
         EditRuleDialog.source_file := c_str (row_filename row);
         EditRuleDialog.feature := parse_feature (row_feature row);
         EditRuleDialog.matches := c_str (row_matches row);
         EditRuleDialog.profile_name := c_str (row_profile_name row) |}
  end.

(** The update object [edit_rule_dialog_save_changes] builds.  [None]: the
    feature is not an index of the table. *)
Definition rule_update_object (dialog : EditRuleDialog.t) : option json_t :=
  let rule_json := json_object_of [] in
  let pattern_json := json_object_of [] in
  feature_identifier ←
    (if EditRuleDialog.feature dialog <? 0 then None
     else rule_feature_identifiers !! Z.to_nat (EditRuleDialog.feature dialog));
  let pattern_json :=
    json_object_set_new_nullable pattern_json "feature" (json_string_of feature_identifier) in
  let pattern_json :=
    json_object_set_new_nullable pattern_json "matches"
      (json_string_of (EditRuleDialog.matches dialog)) in
  let rule_json :=
    json_object_set_new_nullable rule_json "profile"
      (json_string_of (EditRuleDialog.profile_name dialog)) in
  Some (json_object_set_new rule_json "pattern" pattern_json).

(** [edit_rule_dialog_save_changes]: [matches_text] and [source_file_text]
    are the texts of the two entries, [result] the answer to the validation
    dialog. *)
Definition edit_rule_dialog_save_changes (result : Z) (matches_text source_file_text : string)
    (dialog : EditRuleDialog.t) : option EditRuleDialog.t :=
  let ctk_app_profile := EditRuleDialog.parent dialog in
  let dialog :=
    {| EditRuleDialog.parent := ctk_app_profile;
       EditRuleDialog.new_rule := EditRuleDialog.new_rule dialog;
       EditRuleDialog.rule_id := EditRuleDialog.rule_id dialog;
       EditRuleDialog.source_file := c_str source_file_text;
       EditRuleDialog.feature := EditRuleDialog.feature dialog;
       EditRuleDialog.matches := c_str matches_text;
       EditRuleDialog.profile_name := EditRuleDialog.profile_name dialog |} in
  if negb (edit_rule_dialog_validate result dialog) then Some dialog
  else
    rule_json ← rule_update_object dialog;
    let '(rule_model, config) :=
      if EditRuleDialog.new_rule dialog then
        ctk_apc_rule_model_create_rule
          (apc_rule_model ctk_app_profile, cur_config ctk_app_profile)
          (EditRuleDialog.source_file dialog) rule_json
      else
        ctk_apc_rule_model_update_rule
          (apc_rule_model ctk_app_profile, cur_config ctk_app_profile)
          (EditRuleDialog.source_file dialog) (EditRuleDialog.rule_id dialog) rule_json in
    let ctk_app_profile :=
      ctk_config_statusbar_message
        {| cur_config := config;
           gold_config := gold_config ctk_app_profile;
           apc_profile_model := apc_profile_model ctk_app_profile;
           apc_rule_model := rule_model;
           enable_check_button := enable_check_button ctk_app_profile;
           status_bar_enabled := status_bar_enabled ctk_app_profile;
           status_bar := status_bar ctk_app_profile |}
        ("Rule updated. " +:+ STATUSBAR_UPDATE_WARNING) in
    Some {| EditRuleDialog.parent := ctk_app_profile;
            EditRuleDialog.new_rule := EditRuleDialog.new_rule dialog;
            EditRuleDialog.rule_id := EditRuleDialog.rule_id dialog;
            EditRuleDialog.source_file := EditRuleDialog.source_file dialog;
            EditRuleDialog.feature := EditRuleDialog.feature dialog;
            EditRuleDialog.matches := EditRuleDialog.matches dialog;
            EditRuleDialog.profile_name := EditRuleDialog.profile_name dialog |}.

End RuleEditor.


(** *** Opening and saving a profile *)

(** The calls into the profile model and the configuration behind it.  The
    model writes through to the configuration it is attached to, so the
    calls on the model take and give the pair of the two.
    [ctk_apc_profile_model_names] is the name column of the rows of the
    model, as [gtk_tree_model_foreach] visits them. *)
Class ProfileModelLib `{AppProfileLib} := {
  ctk_apc_profile_model_update_profile :
    CtkApcProfileModel * AppProfileConfig → string → string → json_t →
    CtkApcProfileModel * AppProfileConfig;
  ctk_apc_profile_model_delete_profile :
    CtkApcProfileModel * AppProfileConfig → string →
    CtkApcProfileModel * AppProfileConfig;
  ctk_apc_profile_model_names : CtkApcProfileModel → list string;
  nv_app_profile_config_profile_name_change_fixup :
    AppProfileConfig → string → string → AppProfileConfig * bool;
  nv_app_profile_config_get_source_filenames : AppProfileConfig → json_t;
  nv_app_profile_config_get_unused_profile_name : AppProfileConfig → string
}.

(** The columns of a row of the profile model that the editor reads; the
    settings column holds a JSON value. *)
Record ProfileRow := {
  prow_name : string;
  prow_settings : json_t;
  prow_filename : string
}.

Section ProfileEditor.
Context `{Jansson} `{GLib} `{AppProfileLib} `{JanssonUtf8} `{!ProfileModelLib}.

(** The loop of [get_source_filenames]: each name goes in front of the list.
    [None]: an entry that is not a string ([strdup] of NULL). *)
Fixpoint get_source_filenames_from (json_filenames : list json_t) (filenames : list string)
  : option (list string) :=
  match json_filenames with
  | [] => Some filenames
  | json_filename :: rest =>
      filename ← json_string_value (Some json_filename);
      get_source_filenames_from rest (c_str filename :: filenames)
  end.

Definition get_source_filenames (ctk_app_profile : CtkAppProfile) : option (list string) :=
  let json_filenames :=
    nv_app_profile_config_get_source_filenames (cur_config ctk_app_profile) in
  filenames ← get_source_filenames_from (json_array_elems json_filenames) [];
  Some (reverse filenames).

(** [get_profile_names]: the names are put in front of the list, and the
    list is reversed. *)
Definition get_profile_names (ctk_app_profile : CtkAppProfile) : list string :=
  reverse
    (foldl (λ profile_names profile_name, c_str profile_name :: profile_names) []
       (ctk_apc_profile_model_names (apc_profile_model ctk_app_profile))).

Definition set_name_and_source_file (dialog : EditProfileDialog.t)
    (name source_file : string) : EditProfileDialog.t :=
  {| EditProfileDialog.parent := EditProfileDialog.parent dialog;
     EditProfileDialog.new_profile := EditProfileDialog.new_profile dialog;
     EditProfileDialog.name := name;
     EditProfileDialog.orig_name := EditProfileDialog.orig_name dialog;
     EditProfileDialog.source_file := source_file;
     EditProfileDialog.settings := EditProfileDialog.settings dialog;
     EditProfileDialog.settings_store := EditProfileDialog.settings_store dialog;
     EditProfileDialog.setting_update_canceled :=
       EditProfileDialog.setting_update_canceled dialog;
     EditProfileDialog.error_statusbar := EditProfileDialog.error_statusbar dialog |}.

Definition set_profile_dialog_parent (dialog : EditProfileDialog.t)
    (ctk_app_profile : CtkAppProfile) : EditProfileDialog.t :=
  {| EditProfileDialog.parent := ctk_app_profile;
     EditProfileDialog.new_profile := EditProfileDialog.new_profile dialog;
     EditProfileDialog.name := EditProfileDialog.name dialog;
     EditProfileDialog.orig_name := EditProfileDialog.orig_name dialog;
     EditProfileDialog.source_file := EditProfileDialog.source_file dialog;
     EditProfileDialog.settings := EditProfileDialog.settings dialog;
     EditProfileDialog.settings_store := EditProfileDialog.settings_store dialog;
     EditProfileDialog.setting_update_canceled :=
       EditProfileDialog.setting_update_canceled dialog;
     EditProfileDialog.error_statusbar := EditProfileDialog.error_statusbar dialog |}.

Definition set_rule_dialog_parent (dialog : EditRuleDialog.t)
    (ctk_app_profile : CtkAppProfile) : EditRuleDialog.t :=
  {| EditRuleDialog.parent := ctk_app_profile;
     EditRuleDialog.new_rule := EditRuleDialog.new_rule dialog;
     EditRuleDialog.rule_id := EditRuleDialog.rule_id dialog;
     EditRuleDialog.source_file := EditRuleDialog.source_file dialog;
     EditRuleDialog.feature := EditRuleDialog.feature dialog;
     EditRuleDialog.matches := EditRuleDialog.matches dialog;
     EditRuleDialog.profile_name := EditRuleDialog.profile_name dialog |}.

(** [edit_profile_dialog_load_values], as far as it writes the fields of the
    dialog: the source file of a new profile and the rows of the store. *)
Definition edit_profile_dialog_load_values (dialog : EditProfileDialog.t)
  : option EditProfileDialog.t :=
  strings ← get_source_filenames (EditProfileDialog.parent dialog);
  let source_file :=
    if EditProfileDialog.new_profile dialog then
      match strings with
      | first :: _ => c_str first
      | [] => EmptyString
      end
    else EditProfileDialog.source_file dialog in
  let dialog := set_name_and_source_file dialog (EditProfileDialog.name dialog) source_file in
  Some (set_settings_store dialog
          (if negb (EditProfileDialog.new_profile dialog) then
             load_settings_from_profile (EditProfileDialog.parent dialog)
               (EditProfileDialog.name dialog)
           else [])).

Definition edit_profile_dialog_show (dialog : EditProfileDialog.t)
  : option EditProfileDialog.t :=
  edit_profile_dialog_load_values dialog.

(** [add_profile_callbacks_common]; the dialog is the one of the page. *)
Definition add_profile_callbacks_common (dialog : EditProfileDialog.t)
  : option EditProfileDialog.t :=
  let ctk_app_profile := EditProfileDialog.parent dialog in
  let unused_profile_name :=
    nv_app_profile_config_get_unused_profile_name (cur_config ctk_app_profile) in
  edit_profile_dialog_show
    {| EditProfileDialog.parent := ctk_app_profile;
       EditProfileDialog.new_profile := true;
       EditProfileDialog.name := c_str unused_profile_name;
       EditProfileDialog.orig_name := EmptyString;
       EditProfileDialog.source_file := EditProfileDialog.source_file dialog;
       EditProfileDialog.settings := EditProfileDialog.settings dialog;
       EditProfileDialog.settings_store := EditProfileDialog.settings_store dialog;
       EditProfileDialog.setting_update_canceled :=
         EditProfileDialog.setting_update_canceled dialog;
       EditProfileDialog.error_statusbar := EditProfileDialog.error_statusbar dialog |}.

(** [edit_profile_callbacks_common]: [row] is the row at the path, if the
    path names one. *)
Definition edit_profile_callbacks_common (row : option ProfileRow)
    (dialog : EditProfileDialog.t) : option EditProfileDialog.t :=
  match row with
  | None => Some dialog
  | Some row =>
      edit_profile_dialog_show
        {| EditProfileDialog.parent := EditProfileDialog.parent dialog;
           EditProfileDialog.new_profile := false;
           EditProfileDialog.name := c_str (prow_name row);
           EditProfileDialog.orig_name := c_str (prow_name row);
           EditProfileDialog.source_file := c_str (prow_filename row);
           EditProfileDialog.settings := prow_settings row;
           EditProfileDialog.settings_store := EditProfileDialog.settings_store dialog;
           EditProfileDialog.setting_update_canceled :=
             EditProfileDialog.setting_update_canceled dialog;
           EditProfileDialog.error_statusbar := EditProfileDialog.error_statusbar dialog |}
  end.

(** [edit_rule_dialog_load_profile], as far as it writes the fields of the
    rule dialog: [profile_name] may be NULL. *)
Definition edit_rule_dialog_load_profile (dialog : EditRuleDialog.t)
    (profile_name : option string) : EditRuleDialog.t :=
  let strings := get_profile_names (EditRuleDialog.parent dialog) in
  {| EditRuleDialog.parent := EditRuleDialog.parent dialog;
     EditRuleDialog.new_rule := EditRuleDialog.new_rule dialog;
     EditRuleDialog.rule_id := EditRuleDialog.rule_id dialog;
     EditRuleDialog.source_file := EditRuleDialog.source_file dialog;
     EditRuleDialog.feature := EditRuleDialog.feature dialog;
     EditRuleDialog.matches := EditRuleDialog.matches dialog;
     EditRuleDialog.profile_name :=
       match profile_name with
       | None =>
           match strings with
           | first :: _ => c_str first
           | [] => EmptyString
           end
       | Some profile_name => c_str profile_name
       end |}.

(** [edit_profile_dialog_save_changes] up to the validation: the editing in
    progress is ended, the entries are read and the array is refilled from
    the rows.  [name_text] and [source_file_text] are the texts of the two
    entries. *)
Definition edit_profile_dialog_latest_values (pending : option pending_edit)
    (name_text source_file_text : string) (profile_dialog : EditProfileDialog.t)
  : EditProfileDialog.t :=
  let profile_dialog := gtk_window_set_focus_NULL pending profile_dialog in
  let profile_dialog :=
    set_name_and_source_file profile_dialog (c_str name_text) (c_str source_file_text) in
  edit_profile_dialog_update_settings profile_dialog.

(** The deletion of the old profile of a renamed one, with the fixing up of
    the rules when [update_rules] (the bit
    [CONFIG_PROPERTIES_UPDATE_RULES_ON_PROFILE_NAME_CHANGE] of the
    configuration of the program) is set: the model and the configuration
    after it, and [rules_fixed_up]. *)
Definition delete_renamed_profile (update_rules : bool) (profile_dialog : EditProfileDialog.t)
  : CtkApcProfileModel * AppProfileConfig * bool :=
  let ctk_app_profile := EditProfileDialog.parent profile_dialog in
  let model := (apc_profile_model ctk_app_profile, cur_config ctk_app_profile) in
  if negb (EditProfileDialog.new_profile profile_dialog)
     && negb (strcmp (EditProfileDialog.name profile_dialog)
                (EditProfileDialog.orig_name profile_dialog) =? 0)
  then
    let model :=
      ctk_apc_profile_model_delete_profile model
        (EditProfileDialog.orig_name profile_dialog) in
    if update_rules then
      let '(config, rules_fixed_up) :=
        nv_app_profile_config_profile_name_change_fixup model.2
          (EditProfileDialog.orig_name profile_dialog)
          (EditProfileDialog.name profile_dialog) in
      (model.1, config, rules_fixed_up)
    else (model, false)
  else (model, false).

Definition profile_updated_message (name : string) (rules_fixed_up : bool) : string :=
  "Profile " +:+ dquote +:+ c_str name +:+ dquote +:+ " updated. "
    +:+ (if rules_fixed_up
         then "Some rules have been updated to refer to the new profile name. "
         else EmptyString)
    +:+ STATUSBAR_UPDATE_WARNING.

(** [edit_profile_dialog_save_changes]: [result] is the answer to the
    validation dialog, [rule_dialog] the rule dialog of the page and
    [rule_dialog_visible] whether its window is visible.  Both dialogs point
    to the page, so both are given with the page as the save leaves it. *)
Definition edit_profile_dialog_save_changes (result : Z) (pending : option pending_edit)
    (name_text source_file_text : string) (update_rules : bool)
    (rule_dialog : EditRuleDialog.t) (rule_dialog_visible : bool)
    (profile_dialog : EditProfileDialog.t)
  : option (EditProfileDialog.t * EditRuleDialog.t) :=
  let profile_dialog :=
    edit_profile_dialog_latest_values pending name_text source_file_text profile_dialog in
  let ctk_app_profile := EditProfileDialog.parent profile_dialog in
  valid ← edit_profile_dialog_validate result profile_dialog;
  if negb valid then Some (profile_dialog, rule_dialog)
  else
    let profile_json :=
      json_object_set_new (json_object_of []) "settings"
        (EditProfileDialog.settings profile_dialog) in
    let '(model, rules_fixed_up) := delete_renamed_profile update_rules profile_dialog in
    let '(profile_model, config) :=
      ctk_apc_profile_model_update_profile model
        (EditProfileDialog.source_file profile_dialog)
        (EditProfileDialog.name profile_dialog) profile_json in
    let ctk_app_profile :=
      {| cur_config := config;
         gold_config := gold_config ctk_app_profile;
         apc_profile_model := profile_model;
         apc_rule_model := apc_rule_model ctk_app_profile;
         enable_check_button := enable_check_button ctk_app_profile;
         status_bar_enabled := status_bar_enabled ctk_app_profile;
         status_bar := status_bar ctk_app_profile |} in
    rule_dialog ←
      (if rule_dialog_visible then
         _ ← get_source_filenames ctk_app_profile;
         Some (edit_rule_dialog_load_profile
                 (set_rule_dialog_parent rule_dialog ctk_app_profile)
                 (Some (EditProfileDialog.name profile_dialog)))
       else Some rule_dialog);
    let ctk_app_profile :=
      ctk_config_statusbar_message ctk_app_profile
        (profile_updated_message (EditProfileDialog.name profile_dialog) rules_fixed_up) in
    Some (set_profile_dialog_parent profile_dialog ctk_app_profile,
          set_rule_dialog_parent rule_dialog ctk_app_profile).

End ProfileEditor.



(** ** An implementation of the collaborators

    Small stand-ins for jansson, GLib and the app-profile library, used to
    run the engine on concrete inputs. *)

(** jansson on the literals, the empty array and the empty object.  Strings
    are written between quotes as they are. *)
Definition literal_json_loads (text : string) : option json_t :=
  if String.eqb text "true" then Some json_true
  else if String.eqb text "false" then Some json_false
  else if String.eqb text "null" then Some json_null
  else if String.eqb text "[]" then Some (json_array_of [])
  else if String.eqb text "{}" then Some (json_object_of [])
  else None.

Definition literal_json_dumps (v : json_t) : option string :=
  match v with
  | json_true => Some "true"
  | json_false => Some "false"
  | json_null => Some "null"
  | json_string s => Some (dquote +:+ s +:+ dquote)
  | _ => None
  end.

Definition literal_jansson : Jansson :=
  {| json_dumps := literal_json_dumps; json_loads := literal_json_loads |}.

(** [g_markup_escape_text] on the five characters it replaces. *)
Fixpoint markup_escape (s : string) : string :=
  match s with
  | EmptyString => EmptyString
  | String c r =>
      (if Ascii.eqb c "&" then "&amp;"
       else if Ascii.eqb c "<" then "&lt;"
       else if Ascii.eqb c ">" then "&gt;"
       else if Ascii.eqb c "'" then "&#39;"
       else if Ascii.eqb c "034" then "&quot;"
       else String c EmptyString) +:+ markup_escape r
  end.

(** The paths of a list store: one decimal index. *)
Fixpoint decimal_value (acc : Z) (s : string) : option Z :=
  match s with
  | EmptyString => Some acc
  | String c r =>
      let n := Z.of_N (N_of_ascii c) in
      if (48 <=? n) && (n <=? 57) then decimal_value (10 * acc + (n - 48)) r else None
  end.

Definition list_store_path (s : string) : option (list Z) :=
  match s with
  | EmptyString => None
  | _ => n ← decimal_value 0 s; Some [n]
  end.

Definition plain_glib : GLib :=
  {| g_markup_escape_text := markup_escape;
     gtk_tree_path_new_from_string := list_store_path |}.

(** A configuration as the data model describes it, with the files it may
    use.  The files on disk are taken as the configuration they parse to. *)
Record SimpleConfig := {
  cfg_enabled : bool;
  cfg_rules : list json_t;
  cfg_profiles : list (string * json_t);
  cfg_search_path : list string
}.

Definition simple_set_enabled (c : SimpleConfig) (enabled : bool) : SimpleConfig :=
  {| cfg_enabled := enabled;
     cfg_rules := cfg_rules c;
     cfg_profiles := cfg_profiles c;
     cfg_search_path := cfg_search_path c |}.

Definition simple_check_valid_source_file (c : SimpleConfig) (file : string) : Z * string :=
  if bool_decide (c_str file ∈ cfg_search_path c) then (1, EmptyString)
  else (0, "the file is not on the search path").

Definition simple_lib : AppProfileLib :=
  {| AppProfileConfig := SimpleConfig;
     CtkApcProfileModel := list (string * json_t);
     CtkApcRuleModel := list json_t;
     Disk := SimpleConfig;
     nv_app_profile_config_load := λ d _ search_path,
       {| cfg_enabled := cfg_enabled d;
          cfg_rules := cfg_rules d;
          cfg_profiles := cfg_profiles d;
          cfg_search_path := search_path |};
     nv_app_profile_config_dup := λ c, c;
     nv_app_profile_config_validate := λ _ _, json_array_of [];
     nv_app_profile_config_check_backing_files := λ _ _, false;
     nv_app_profile_config_save_updates := λ _ c _ _, (c, 0);
     nv_app_profile_config_get_enabled := cfg_enabled;
     nv_app_profile_config_set_enabled := simple_set_enabled;
     nv_app_profile_config_check_valid_source_file := simple_check_valid_source_file;
     nv_app_profile_cfg_file_syntax_to_json := λ text, text;
     ctk_apc_profile_model_get_profile := members_get;
     ctk_apc_profile_model_attach := λ _ c, cfg_profiles c;
     ctk_apc_rule_model_attach := λ _ c, cfg_rules c |}.

(** ** Sample inputs *)

Definition sample_setting (key : string) (value : json_t) : json_t :=
  json_object_of [("key", json_string key); ("value", value)].

Definition sample_profile : json_t :=
  json_object_of
    [("settings", json_array_of [sample_setting "GLSyncToVblank" json_false])].

Definition sample_rule : json_t :=
  json_object_of
    [("pattern",
      json_object_of [("feature", json_string "procname");
                      ("matches", json_string "glxgears")]);
     ("profile", json_string "Fast")].

Definition sample_search_path : list string :=
  [ "/home/user/.nv/nvidia-application-profiles-rc";
    "/home/user/.nv/nvidia-application-profiles-rc.d";
    "/etc/nvidia/nvidia-application-profiles-rc";
    "/etc/nvidia/nvidia-application-profiles-rc.d" ].

(** The configuration as it was loaded. *)
Definition sample_gold : SimpleConfig :=
  {| cfg_enabled := true;
     cfg_rules := [sample_rule];
     cfg_profiles := [("Fast", sample_profile)];
     cfg_search_path := sample_search_path |}.

(** The files after another program removed the rule from them. *)
Definition sample_disk : SimpleConfig :=
  {| cfg_enabled := true;
     cfg_rules := [];
     cfg_profiles := [("Fast", sample_profile)];
     cfg_search_path := sample_search_path |}.

Definition sample_world : @World simple_lib :=
  {| environ := {[ "HOME" := "/home/user" ]};
     disk := (sample_disk : @Disk simple_lib);
     stderr := [] |}.

Definition sample_world_no_home : @World simple_lib :=
  {| environ := ∅; disk := (sample_disk : @Disk simple_lib); stderr := [] |}.

Definition sample_page : @CtkAppProfile simple_lib :=
  {| cur_config := (sample_gold : @AppProfileConfig simple_lib);
     gold_config := (sample_gold : @AppProfileConfig simple_lib);
     apc_profile_model := (cfg_profiles sample_gold : @CtkApcProfileModel simple_lib);
     apc_rule_model := (cfg_rules sample_gold : @CtkApcRuleModel simple_lib);
     enable_check_button := true;
     status_bar_enabled := true;
     status_bar := [] |}.

(** A rule for a profile that does not exist, in a file off the search path. *)
Definition sample_rule_dialog : @EditRuleDialog.t simple_lib :=
  {| EditRuleDialog.parent := sample_page;
     EditRuleDialog.new_rule := true;
     EditRuleDialog.rule_id := 1;
     EditRuleDialog.source_file := "/tmp/rules";
     EditRuleDialog.feature := RULE_FEATURE_PROCNAME;
     EditRuleDialog.matches := "glxgears";
     EditRuleDialog.profile_name := "Slow" |}.

(** A new profile under the name of an existing one, with a key the table
    does not have; [canceled] is the state of [setting_update_canceled]. *)
Definition sample_profile_dialog (canceled : bool) : @EditProfileDialog.t simple_lib :=
  {| EditProfileDialog.parent := sample_page;
     EditProfileDialog.new_profile := true;
     EditProfileDialog.name := "Fast";
     EditProfileDialog.orig_name := "";
     EditProfileDialog.source_file := "/etc/nvidia/nvidia-application-profiles-rc";
     EditProfileDialog.settings :=
       json_array_of [sample_setting "glsynctovblank" json_true;
                      sample_setting "GLFoo" (json_integer 31)];
     EditProfileDialog.settings_store :=
       [sample_setting "glsynctovblank" json_true;
        sample_setting "GLFoo" (json_integer 31)];
     EditProfileDialog.setting_update_canceled := canceled;
     EditProfileDialog.error_statusbar := [] |}.

(** jansson's check of UTF-8, on the strings of 7-bit characters. *)
Definition ascii_utf8_check_string (s : string) : bool :=
  forallb (λ c, (N_of_ascii c <? 128)%N) (list_ascii_of_string s).

Definition ascii_utf8 : JanssonUtf8 :=
  {| utf8_check_string := ascii_utf8_check_string |}.

(** The rule model over the rules of the configuration: a rule's id is its
    place in the list, and a new rule goes to the end. *)
Definition simple_set_rules (c : SimpleConfig) (rules : list json_t) : SimpleConfig :=
  {| cfg_enabled := cfg_enabled c;
     cfg_rules := rules;
     cfg_profiles := cfg_profiles c;
     cfg_search_path := cfg_search_path c |}.

Definition simple_create_rule (model : list json_t * SimpleConfig) (filename : string)
    (rule_json : json_t) : list json_t * SimpleConfig :=
  let rules := (model.1 ++ [rule_json])%list in
  (rules, simple_set_rules model.2 rules).

Definition simple_update_rule (model : list json_t * SimpleConfig) (filename : string)
    (id : Z) (rule_json : json_t) : list json_t * SimpleConfig :=
  let rules := if id <? 0 then model.1 else <[Z.to_nat id := rule_json]> model.1 in
  (rules, simple_set_rules model.2 rules).

Definition simple_rule_model : @RuleModelLib simple_lib :=
  @Build_RuleModelLib simple_lib simple_create_rule simple_update_rule.

(** The settings view of the profile dialog: the key and value columns can
    be edited, the type column between them cannot.  Two rows, the cursor on
    the value of the first. *)
Definition sample_tree_view : TreeView :=
  {| columns := [[true]; [false]; [true]];
     row_count := 2;
     cursor_path := Some [0];
     focus_column := Some 2%nat |}.

Definition sample_tab_key (shift : bool) : GdkEventKey :=
  {| event_type := GDK_KEY_PRESS;
     keyval := if shift then GDK_ISO_Left_Tab else GDK_Tab;
     state := if shift then GDK_SHIFT_MASK else 0 |}.

(** Updates for two files, the first file twice. *)
Definition sample_update (filename text : string) : json_t :=
  json_object_of [("filename", json_string filename); ("text", json_string text)].

Definition sample_updates : json_t :=
  json_array_of [sample_update "/etc/rc" "first";
                 sample_update "/home/user/rc" "second";
                 sample_update "/etc/rc" "third"].

(** The row of the sample rule, with a feature the table does not have. *)
Definition sample_rule_row : RuleRow :=
  {| row_id := 0;
     row_feature := "Procname";
     row_matches := "glxgears";
     row_profile_name := "Fast";
     row_filename := "/etc/nvidia/nvidia-application-profiles-rc" |}.


(** The profile model over the profiles of the configuration.  The rules are
    left as they are when a profile is renamed. *)
Definition simple_set_profiles (c : SimpleConfig) (profiles : list (string * json_t))
  : SimpleConfig :=
  {| cfg_enabled := cfg_enabled c;
     cfg_rules := cfg_rules c;
     cfg_profiles := profiles;
     cfg_search_path := cfg_search_path c |}.

Definition simple_update_profile (model : list (string * json_t) * SimpleConfig)
    (filename name : string) (profile_json : json_t)
  : list (string * json_t) * SimpleConfig :=
  let profiles := members_set model.1 name profile_json in
  (profiles, simple_set_profiles model.2 profiles).

Definition simple_delete_profile (model : list (string * json_t) * SimpleConfig)
    (name : string) : list (string * json_t) * SimpleConfig :=
  let profiles := List.filter (λ p, negb (String.eqb p.1 name)) model.1 in
  (profiles, simple_set_profiles model.2 profiles).

Definition simple_profile_model : @ProfileModelLib simple_lib :=
  @Build_ProfileModelLib simple_lib
    simple_update_profile
    simple_delete_profile
    (λ profiles, profiles.*1)
    (λ c _ _, (c, false))
    (λ c, json_array_of (json_string <$> cfg_search_path c))
    (λ _, "Profile").

(** The row of the sample profile in the profile model. *)
Definition sample_profile_row : ProfileRow :=
  {| prow_name := "Fast";
     prow_settings := json_array_of [sample_setting "GLSyncToVblank" json_false];
     prow_filename := "/etc/nvidia/nvidia-application-profiles-rc" |}.


(** ** Vocabulary of the statements *)

(** The string is not empty and its first character satisfies [P]. *)
Definition first_char (P : ascii → Prop) (s : string) : Prop :=
  match s with
  | EmptyString => False
  | String c _ => P c
  end.

(** The types a setting value may have. *)
Definition legal_setting_type (t : json_type) : Prop :=
  t = JSON_STRING ∨ t = JSON_TRUE ∨ t = JSON_FALSE ∨ t = JSON_REAL ∨ t = JSON_INTEGER.

(** A setting with a string under [key], and one whose key is not in the
    table of recognised keys. *)
Definition has_string_key (setting : json_t) : Prop :=
  is_Some (json_string_value (json_object_get setting "key")).

Definition has_unrecognized_key (setting : json_t) : Prop :=
  ∃ key, json_string_value (json_object_get setting "key") = Some key
         ∧ get_canonical_setting_key key = None.

(** What [setting_value_edited] computes from the text when the edit goes
    through: the value it stores and the status bar it leaves. *)
Definition edit_outcome `{Jansson} `{AppProfileLib} (new_text : string)
    (error_statusbar : list string) : json_t * list string :=
  match json_loads (nv_app_profile_cfg_file_syntax_to_json new_text) with
  | None => (json_false, parse_error_message new_text :: error_statusbar)
  | Some value =>
      if (is_valid_setting_value value).1 then (value, error_statusbar)
      else (json_false,
            illegal_type_message (is_valid_setting_value value).2 :: error_statusbar)
  end.

(** A row the editor can show and validate: an object with a string under
    [key] and a value of a legal type under [value]. *)
Definition well_formed_setting (setting : json_t) : Prop :=
  json_typeof setting = JSON_OBJECT
  ∧ has_string_key setting
  ∧ ∃ value, json_object_get setting "value" = Some value
             ∧ legal_setting_type (json_typeof value).

(** The key a row of the settings store holds. *)
Definition stored_key (store : list json_t) (row : nat) : option json_t :=
  setting ← store !! row; json_object_get setting "key".


(** One turn of the loop of [cell_renderer_widget_key_press_event]: the cell
    next to [cell] in the direction [dx]. *)
Definition cell_after (tree_view : TreeView) (dx : Z) (cell : Z * Z) : Z * Z :=
  let column_count := Z.of_nat (length (columns tree_view)) in
  let column_idx := cell.2 + dx in
  if column_idx <? 0 then (cell.1 - 1, column_count - 1)
  else if column_count <=? column_idx then (cell.1 + 1, 0)
  else (cell.1, column_idx).

(** How many cells lie between a cell and the end of the rows, in the
    direction of the move; 0 outside the rows. *)
Definition cells_left (tree_view : TreeView) (dx : Z) (cell : Z * Z) : Z :=
  let column_count := Z.of_nat (length (columns tree_view)) in
  if (0 <=? cell.1) && (cell.1 <? row_count tree_view) then
    if dx =? 1 then (row_count tree_view - cell.1) * column_count - cell.2
    else cell.1 * column_count + cell.2 + 1
  else 0.


(** The name of the file an update is for, and whether it is [filename]. *)
Definition update_filename (update : json_t) : option string :=
  json_string_value (json_object_get update "filename").

Definition update_is_for (filename : string) (update : json_t) : bool :=
  match update_filename update with
  | Some name => bool_decide (c_str name = c_str filename)
  | None => false
  end.


(** A setting whose key is in the table of recognised keys. *)
Definition has_recognized_key (setting : json_t) : Prop :=
  ∃ key, json_string_value (json_object_get setting "key") = Some key
         ∧ is_Some (get_canonical_setting_key key).

(** The update object of a profile with the given settings. *)
Definition profile_update_object (settings : list json_t) : json_t :=
  json_object_of [("settings", json_array_of settings)].


(** * Properties *)

(** ** C strings *)

Lemma code_range (c : ascii) : 0 <= Z.of_N (N_of_ascii c) < 256.
Proof.
  pose proof (N_ascii_bounded c). lia.
Qed.

Lemma code_inj (a b : ascii) :
  Z.of_N (N_of_ascii a) = Z.of_N (N_of_ascii b) → a = b.
Proof.
  intros E. apply N2Z.inj in E.
  rewrite <- (ascii_N_embedding a), <- (ascii_N_embedding b). by rewrite E.
Qed.

Lemma tolower_range (c : Z) : 0 <= c < 256 → 0 <= tolower c < 256.
Proof.
  unfold tolower. intros Hc.
  destruct ((65 <=? c) && (c <=? 90)) eqn:E; [|lia].
  apply andb_true_iff in E as [?%Z.leb_le ?%Z.leb_le]. lia.
Qed.

Lemma tolower_eq_0 (c : Z) : 0 <= c → tolower c = 0 ↔ c = 0.
Proof.
  unfold tolower. intros Hc.
  destruct ((65 <=? c) && (c <=? 90)) eqn:E; [|done].
  apply andb_true_iff in E as [?%Z.leb_le ?%Z.leb_le]. lia.
Qed.

Lemma tolower_ascii_code (c : ascii) :
  Z.of_N (N_of_ascii (tolower_ascii c)) = tolower (Z.of_N (N_of_ascii c)).
Proof.
  unfold tolower_ascii.
  pose proof (tolower_range _ (code_range c)) as Hr.
  rewrite N_ascii_embedding by lia. lia.
Qed.

Lemma tolower_ascii_eq (a b : ascii) :
  tolower (Z.of_N (N_of_ascii a)) = tolower (Z.of_N (N_of_ascii b))
  ↔ tolower_ascii a = tolower_ascii b.
Proof.
  rewrite <- !tolower_ascii_code. split; [apply code_inj | by intros ->].
Qed.

Lemma deref_range (s : string) : 0 <= deref s < 256.
Proof.
  destruct s as [|c r]; simpl; [lia | apply code_range].
Qed.

Lemma deref_0_c_str (s : string) : deref s = 0 ↔ c_str s = EmptyString.
Proof.
  destruct s as [|c r]; simpl; [done|].
  destruct (N.eqb_spec (N_of_ascii c) 0) as [E|E].
  - rewrite E. done.
  - split; [lia | done].
Qed.

Lemma deref_0_c_lower (s : string) : deref s = 0 ↔ c_lower s = EmptyString.
Proof.
  destruct s as [|c r]; simpl; [done|].
  destruct (N.eqb_spec (N_of_ascii c) 0) as [E|E].
  - rewrite E. done.
  - split; [lia | done].
Qed.

(** [strcmp] gives 0 exactly on equal C strings. *)
Lemma strcmp_0_iff (s1 s2 : string) : strcmp s1 s2 = 0 ↔ c_str s1 = c_str s2.
Proof.
  revert s2. induction s1 as [|c1 r1 IH]; intros s2.
  - cbn [strcmp c_str]. change (deref EmptyString) with 0.
    rewrite (eq_comm EmptyString), <- deref_0_c_str. lia.
  - cbn [strcmp]. set (d1 := deref (String c1 r1)). set (d2 := deref s2).
    destruct (Z.eqb_spec d1 0) as [E1|E1]; cbn [orb].
    + assert (c_str (String c1 r1) = EmptyString) as -> by by apply deref_0_c_str.
      rewrite (eq_comm EmptyString), <- deref_0_c_str. fold d2. lia.
    + destruct (Z.eqb_spec d1 d2) as [E2|E2]; cbn [negb].
      * destruct s2 as [|c2 r2]; [done|]. subst d1 d2. cbn [deref] in *.
        apply code_inj in E2 as <-. cbn [advance c_str].
        destruct (N.eqb_spec (N_of_ascii c1) 0) as [E|E]; [lia|].
        rewrite IH. split; [by intros -> | by intros [=]].
      * split; [lia|]. intros E. exfalso. apply E2.
        subst d1 d2. destruct s2 as [|c2 r2]; cbn [deref c_str] in *.
        -- destruct (N.eqb_spec (N_of_ascii c1) 0); [lia | done].
        -- destruct (N.eqb_spec (N_of_ascii c1) 0); [lia|].
           destruct (N.eqb_spec (N_of_ascii c2) 0); [done|]. by injection E as -> _.
Qed.

(** [strcasecmp] gives 0 exactly on C strings that are equal once lowered. *)
Lemma strcasecmp_0_iff (s1 s2 : string) :
  strcasecmp s1 s2 = 0 ↔ c_lower s1 = c_lower s2.
Proof.
  revert s2. induction s1 as [|c1 r1 IH]; intros s2.
  - cbn [strcasecmp c_lower]. change (deref EmptyString) with 0.
    rewrite (eq_comm EmptyString), <- deref_0_c_lower.
    pose proof (tolower_eq_0 (deref s2) (proj1 (deref_range s2))).
    change (tolower 0) with 0. lia.
  - cbn [strcasecmp]. set (d1 := deref (String c1 r1)). set (d2 := deref s2).
    pose proof (tolower_eq_0 d1 (proj1 (deref_range _))) as T1.
    pose proof (tolower_eq_0 d2 (proj1 (deref_range _))) as T2.
    destruct (Z.eqb_spec (tolower d1 - tolower d2) 0) as [E|E]; cbn [negb].
    + destruct (Z.eqb_spec d1 0) as [E1|E1].
      * split; [intros _|done].
        assert (d2 = 0) as E2 by lia.
        apply deref_0_c_lower in E1, E2. by rewrite E1, E2.
      * destruct s2 as [|c2 r2]; [subst d2; cbn [deref] in *; lia|].
        subst d1 d2. cbn [deref advance c_lower] in *.
        destruct (N.eqb_spec (N_of_ascii c1) 0); [lia|].
        destruct (N.eqb_spec (N_of_ascii c2) 0); [lia|].
        assert (tolower_ascii c1 = tolower_ascii c2) as -> by (apply tolower_ascii_eq; lia).
        rewrite IH. split; [by intros -> | by intros [=]].
    + split; [done|]. intros Hl. exfalso. apply E.
      subst d1 d2. destruct s2 as [|c2 r2]; cbn [deref c_lower] in *.
      * destruct (N.eqb_spec (N_of_ascii c1) 0); [|done].
        change (tolower 0) with 0. pose proof (tolower_eq_0 (Z.of_N (N_of_ascii c1))). lia.
      * destruct (N.eqb_spec (N_of_ascii c1) 0).
        -- destruct (N.eqb_spec (N_of_ascii c2) 0); [|done]. lia.
        -- destruct (N.eqb_spec (N_of_ascii c2) 0); [done|].
           injection Hl as Hl _. apply tolower_ascii_eq in Hl. lia.
Qed.

Lemma strcmp_eqb (s1 s2 : string) :
  (strcmp s1 s2 =? 0) = bool_decide (c_str s1 = c_str s2).
Proof.
  destruct (Z.eqb_spec (strcmp s1 s2) 0) as [E|E].
  - apply strcmp_0_iff in E. by rewrite bool_decide_eq_true_2.
  - rewrite bool_decide_eq_false_2; [done|]. by rewrite <- strcmp_0_iff.
Qed.

Lemma strcasecmp_eqb (s1 s2 : string) :
  (strcasecmp s1 s2 =? 0) = bool_decide (c_lower s1 = c_lower s2).
Proof.
  destruct (Z.eqb_spec (strcasecmp s1 s2) 0) as [E|E].
  - apply strcasecmp_0_iff in E. by rewrite bool_decide_eq_true_2.
  - rewrite bool_decide_eq_false_2; [done|]. by rewrite <- strcasecmp_0_iff.
Qed.

(** A string without NUL byte is its own C string. *)
Lemma c_str_id (s : string) : Ascii.zero ∉ list_ascii_of_string s → c_str s = s.
Proof.
  induction s as [|c r IH]; cbn [c_str list_ascii_of_string]; [done|].
  intros Hn. apply not_elem_of_cons in Hn as [Hc Hr].
  destruct (N.eqb_spec (N_of_ascii c) 0) as [E|E].
  - exfalso. apply Hc. rewrite <- (ascii_N_embedding c), E. done.
  - by rewrite IH.
Qed.

(** ** The feature table *)

Example parse_feature_dso : parse_feature "dso" = RULE_FEATURE_DSO.
Proof. reflexivity. Qed.

Example parse_feature_true : parse_feature "true" = RULE_FEATURE_TRUE.
Proof. reflexivity. Qed.

Example parse_feature_unknown : parse_feature "Procname" = RULE_FEATURE_PROCNAME.
Proof. reflexivity. Qed.

Lemma parse_feature_from_found (feature_str : string) (ids : list string) (base : Z)
    (i : nat) (id : string) :
  NoDup (c_str <$> ids) →
  ids !! i = Some id → c_str feature_str = c_str id →
  parse_feature_from feature_str base ids = base + Z.of_nat i.
Proof.
  revert base i. induction ids as [|id0 rest IH]; intros base i Hnd Hi Heq; [done|].
  cbn [parse_feature_from]. rewrite strcmp_eqb.
  rewrite fmap_cons in Hnd. apply NoDup_cons in Hnd as [Hnotin Hnd].
  destruct i as [|i]; cbn in Hi.
  - injection Hi as ->. rewrite bool_decide_eq_true_2 by done. lia.
  - rewrite bool_decide_eq_false_2.
    + rewrite (IH (base + 1) i) by done. lia.
    + intros E. apply Hnotin. rewrite <- E, Heq.
      apply list_elem_of_fmap_2, list_elem_of_lookup. eauto.
Qed.

Lemma parse_feature_from_missing (feature_str : string) (ids : list string) (base : Z) :
  c_str feature_str ∉ (c_str <$> ids) → parse_feature_from feature_str base ids = 0.
Proof.
  revert base. induction ids as [|id0 rest IH]; intros base Hn; [done|].
  cbn [parse_feature_from]. rewrite strcmp_eqb.
  rewrite fmap_cons in Hn. apply not_elem_of_cons in Hn as [Hne Hn].
  rewrite bool_decide_eq_false_2 by done. by apply IH.
Qed.

(** C9. For every feature string, [parse_feature] gives the index of the
    string in the table of identifiers [procname], [dso], [true], and gives
    0, the index of [procname], for every string that is not in the table:
    the function has no other result to report an unknown feature with. *)
Theorem parse_feature_spec (feature_str : string) :
  rule_feature_identifiers = ["procname"; "dso"; "true"]
  ∧ (∀ (i : nat) (id : string),
       rule_feature_identifiers !! i = Some id →
       c_str feature_str = id → parse_feature feature_str = Z.of_nat i)
  ∧ (c_str feature_str ∉ rule_feature_identifiers →
       parse_feature feature_str = RULE_FEATURE_PROCNAME).
Proof.
  assert (c_str <$> rule_feature_identifiers = rule_feature_identifiers) as Hc by done.
  split; [done|]. split.
  - intros i id Hi Heq. unfold parse_feature.
    rewrite (parse_feature_from_found feature_str rule_feature_identifiers 0 i id).
    + lia.
    + rewrite Hc. by apply (bool_decide_unpack (NoDup _)).
    + done.
    + rewrite Heq. symmetry.
      assert (id ∈ c_str <$> rule_feature_identifiers) as Hin.
      { rewrite Hc. apply list_elem_of_lookup. eauto. }
      assert (Forall (λ s, c_str s = s) rule_feature_identifiers) as Hall.
      { repeat constructor. }
      rewrite Hc in Hin. by apply (proj1 (Forall_forall _ _) Hall).
  - intros Hn. apply parse_feature_from_missing. by rewrite Hc.
Qed.

(** ** The table of recognised keys *)

Example canonical_key_lower :
  get_canonical_setting_key "glsynctovblank" = Some "GLSyncToVblank".
Proof. reflexivity. Qed.

Example canonical_key_upper : get_canonical_setting_key "GLYIELD" = Some "GLYield".
Proof. reflexivity. Qed.

Example canonical_key_prefix : get_canonical_setting_key "GLYiel" = None.
Proof. reflexivity. Qed.

Example canonical_key_empty : get_canonical_setting_key "" = None.
Proof. reflexivity. Qed.

Lemma profile_setting_keys_distinct : NoDup (c_lower <$> profile_setting_keys).
Proof. by apply (bool_decide_unpack (NoDup _)). Qed.

Lemma get_canonical_setting_key_from_Some (key : string) (keys : list string) (k : string) :
  NoDup (c_lower <$> keys) →
  get_canonical_setting_key_from key keys = Some k
  ↔ k ∈ keys ∧ c_lower key = c_lower k.
Proof.
  induction keys as [|k0 rest IH]; intros Hnd.
  - cbn. split; [done|]. intros [Hin _]. by apply elem_of_nil in Hin.
  - rewrite fmap_cons in Hnd. apply NoDup_cons in Hnd as [Hnotin Hnd].
    cbn [get_canonical_setting_key_from]. rewrite strcasecmp_eqb.
    case_bool_decide as Hk.
    + split.
      * intros [= <-]. split; [left|done].
      * intros [Hin Heq]. apply elem_of_cons in Hin as [->|Hin]; [done|].
        exfalso. apply Hnotin. rewrite <- Hk, Heq. by apply list_elem_of_fmap_2.
    + rewrite IH by done. split.
      * intros [Hin Heq]. split; [by right|done].
      * intros [Hin Heq]. apply elem_of_cons in Hin as [->|Hin]; done.
Qed.

Lemma get_canonical_setting_key_from_None (key : string) (keys : list string) :
  get_canonical_setting_key_from key keys = None
  ↔ ∀ k, k ∈ keys → c_lower key ≠ c_lower k.
Proof.
  induction keys as [|k0 rest IH].
  - cbn. split; [|done]. intros _ k Hin. by apply elem_of_nil in Hin.
  - cbn [get_canonical_setting_key_from]. rewrite strcasecmp_eqb.
    case_bool_decide as Hk.
    + split; [done|]. intros Hall. exfalso. apply (Hall k0); [left|done].
    + rewrite IH. split.
      * intros Hall k Hin. apply elem_of_cons in Hin as [->|Hin]; [done|by apply Hall].
      * intros Hall k Hin. apply Hall. by right.
Qed.

(** C3. The table of recognised keys has 15 entries.  For every input
    string, [get_canonical_setting_key] returns an entry [k] of the table
    exactly when the input matches [k] without regard to case, so it returns
    the canonical spelling of a recognised key exactly when the input matches
    one of the 15 entries, and it returns NULL for every other string. *)
Theorem get_canonical_setting_key_spec (key : string) :
  length profile_setting_keys = 15%nat
  ∧ (∀ k, get_canonical_setting_key key = Some k
          ↔ k ∈ profile_setting_keys ∧ c_lower key = c_lower k)
  ∧ (is_Some (get_canonical_setting_key key)
     ↔ ∃ k, k ∈ profile_setting_keys ∧ c_lower key = c_lower k)
  ∧ (get_canonical_setting_key key = None
     ↔ ∀ k, k ∈ profile_setting_keys → c_lower key ≠ c_lower k).
Proof.
  assert (take NUM_PROFILE_SETTINGS profile_setting_keys = profile_setting_keys) as Ht by done.
  unfold get_canonical_setting_key. rewrite Ht.
  split; [done|].
  assert (∀ k, get_canonical_setting_key_from key profile_setting_keys = Some k
               ↔ k ∈ profile_setting_keys ∧ c_lower key = c_lower k) as HSome.
  { intros k. apply get_canonical_setting_key_from_Some, profile_setting_keys_distinct. }
  split; [done|]. split.
  - split.
    + intros [k Hk]. exists k. by apply HSome.
    + intros [k Hk]. exists k. by apply HSome.
  - apply get_canonical_setting_key_from_None.
Qed.

(** ** Legal setting values *)

(** C1. For every JSON value, [is_valid_setting_value] accepts the value
    if and only if its type is string, true, false, real or integer, and
    then leaves no type name; for a value of type null, object or array it
    rejects the value and reports exactly the name [null], [object] or
    [array] of the illegal type. *)
Theorem is_valid_setting_value_spec (value : json_t) :
  ((is_valid_setting_value value).1 = true
   ↔ json_typeof value ∈
       [JSON_STRING; JSON_TRUE; JSON_FALSE; JSON_REAL; JSON_INTEGER])
  ∧ ((is_valid_setting_value value).1 = true → (is_valid_setting_value value).2 = None)
  ∧ (json_typeof value = JSON_NULL → is_valid_setting_value value = (false, Some "null"))
  ∧ (json_typeof value = JSON_OBJECT → is_valid_setting_value value = (false, Some "object"))
  ∧ (json_typeof value = JSON_ARRAY → is_valid_setting_value value = (false, Some "array"))
  ∧ ((is_valid_setting_value value).1 = false
     ↔ json_typeof value ∈ [JSON_NULL; JSON_OBJECT; JSON_ARRAY]).
Proof.
  rewrite !list_elem_of_In. unfold is_valid_setting_value.
  destruct (json_typeof value); cbn; intuition congruence.
Qed.

(** ** Hexadecimal output *)

Example printf_hex_31 : printf_hex 31 = "1f".
Proof. reflexivity. Qed.

Example printf_hex_0 : printf_hex 0 = "0".
Proof. reflexivity. Qed.

Example printf_hex_minus_1 : printf_hex (-1) = "ffffffffffffffff".
Proof. reflexivity. Qed.

Lemma string_app_cons (x : ascii) (a b : string) :
  String x a +:+ b = String x (a +:+ b).
Proof. reflexivity. Qed.

Lemma string_app_nil_l (b : string) : EmptyString +:+ b = b.
Proof. reflexivity. Qed.

Lemma string_app_nil_r (a : string) : a +:+ EmptyString = a.
Proof.
  induction a as [|x a IH]; [done | by rewrite string_app_cons, IH].
Qed.

Lemma string_app_assoc (a b c : string) : (a +:+ b) +:+ c = a +:+ (b +:+ c).
Proof.
  induction a as [|x a IH]; [done | by rewrite !string_app_cons, IH].
Qed.

Lemma list_ascii_of_string_app (a b : string) :
  list_ascii_of_string (a +:+ b)
  = (list_ascii_of_string a ++ list_ascii_of_string b)%list.
Proof.
  induction a as [|x a IH]; [done|].
  rewrite string_app_cons. cbn. by rewrite IH.
Qed.

Lemma hex_value_from_app (a b : string) (acc : Z) :
  hex_value_from acc (a +:+ b) = hex_value_from (hex_value_from acc a) b.
Proof.
  revert acc. induction a as [|x a IH]; intros acc; [done|].
  rewrite string_app_cons. cbn. by rewrite IH.
Qed.

Lemma hex_digit_code (d : Z) :
  0 <= d < 16 →
  Z.of_N (N_of_ascii (hex_digit d)) = if d <? 10 then 48 + d else 87 + d.
Proof.
  intros Hd. unfold hex_digit.
  destruct (Z.ltb_spec d 10); rewrite N_ascii_embedding; lia.
Qed.

Lemma hex_digit_value_digit (d : Z) : 0 <= d < 16 → hex_digit_value (hex_digit d) = d.
Proof.
  intros Hd. unfold hex_digit_value. rewrite hex_digit_code by done.
  destruct (Z.ltb_spec d 10).
  - rewrite (proj2 (Z.leb_le 48 _)), (proj2 (Z.leb_le _ 57)) by lia. cbn. lia.
  - rewrite (proj2 (Z.leb_gt _ 57)) by lia. rewrite andb_false_r. lia.
Qed.

Lemma hex_digit_not_nul (d : Z) : 0 <= d < 16 → hex_digit d ≠ Ascii.zero.
Proof.
  intros Hd E. pose proof (hex_digit_code d Hd) as Hc. rewrite E in Hc.
  cbn in Hc. destruct (Z.ltb_spec d 10); lia.
Qed.

Lemma first_char_app (P : ascii → Prop) (a b : string) :
  first_char P a → first_char P (a +:+ b).
Proof. destruct a; [done | by rewrite string_app_cons]. Qed.

Lemma hex_digits_S (fuel : nat) (u : Z) (acc : string) :
  hex_digits (S fuel) u acc
  = if u / 16 =? 0 then String (hex_digit (u mod 16)) acc
    else hex_digits fuel (u / 16) (String (hex_digit (u mod 16)) acc).
Proof. reflexivity. Qed.

(** What [hex_digits] puts in front of [acc]: a run of digits that denotes
    [u], holds no NUL and starts with a digit other than 0 unless [u] is 0. *)
Lemma hex_digits_spec (fuel : nat) (u : Z) (acc : string) :
  0 <= u < 16 ^ Z.of_nat (S fuel) →
  ∃ ds, hex_digits (S fuel) u acc = ds +:+ acc
        ∧ hex_value ds = u
        ∧ (Ascii.zero ∉ list_ascii_of_string ds)
        ∧ first_char (λ c, u ≠ 0 → c ≠ "0"%char) ds.
Proof.
  revert u acc. induction fuel as [|fuel IH]; intros u acc Hu.
  - change (16 ^ Z.of_nat 1) with 16 in Hu.
    assert (u / 16 = 0) as Hq by (apply Z.div_small; lia).
    assert (u mod 16 = u) as Hm by (apply Z.mod_small; lia).
    rewrite hex_digits_S, Hq, Hm. cbn [Z.eqb].
    exists (String (hex_digit u) EmptyString). repeat split.
    + unfold hex_value. cbn. rewrite hex_digit_value_digit; lia.
    + cbn. intros Hin. apply list_elem_of_singleton in Hin.
      by apply (hex_digit_not_nul u).
    + cbn. intros Hne E. apply Hne.
      rewrite <- (hex_digit_value_digit u), E by lia. done.
  - rewrite hex_digits_S.
    pose proof (Z.mod_pos_bound u 16 ltac:(lia)) as Hm.
    destruct (Z.eqb_spec (u / 16) 0) as [Hq|Hq].
    + assert (u mod 16 = u) as Hm'.
      { pose proof (Z.div_mod u 16 ltac:(lia)). lia. }
      rewrite Hm'. exists (String (hex_digit u) EmptyString). repeat split.
      * unfold hex_value. cbn. rewrite hex_digit_value_digit; lia.
      * cbn. intros Hin. apply list_elem_of_singleton in Hin.
        apply (hex_digit_not_nul u); [lia|done].
      * cbn. intros Hne E. apply Hne.
        rewrite <- (hex_digit_value_digit u), E by lia. done.
    + assert (0 <= u / 16 < 16 ^ Z.of_nat (S fuel)) as Hu'.
      { split; [apply Z.div_pos; lia|].
        apply Z.div_lt_upper_bound; [lia|].
        rewrite <- Z.pow_succ_r by lia. rewrite <- Nat2Z.inj_succ. lia. }
      destruct (IH (u / 16) (String (hex_digit (u mod 16)) acc) Hu')
        as (ds & Hds & Hval & Hnul & Hfirst).
      exists (ds +:+ String (hex_digit (u mod 16)) EmptyString). repeat split.
      * rewrite Hds, string_app_assoc. done.
      * unfold hex_value in *. rewrite hex_value_from_app, Hval. cbn.
        rewrite hex_digit_value_digit by done.
        pose proof (Z.div_mod u 16 ltac:(lia)). lia.
      * rewrite list_ascii_of_string_app. cbn. intros Hin.
        apply elem_of_app in Hin as [Hin|Hin]; [done|].
        apply list_elem_of_singleton in Hin. by apply (hex_digit_not_nul (u mod 16)).
      * apply first_char_app. destruct ds as [|c r]; [done|]. cbn in *.
        intros _. by apply Hfirst.
Qed.

Lemma printf_hex_spec (n : Z) :
  hex_value (printf_hex n) = n mod 2 ^ JSON_INTEGER_BITS
  ∧ c_str (printf_hex n) = printf_hex n
  ∧ first_char (λ c, n mod 2 ^ JSON_INTEGER_BITS ≠ 0 → c ≠ "0"%char) (printf_hex n).
Proof.
  unfold printf_hex.
  assert (0 <= n mod 2 ^ JSON_INTEGER_BITS < 16 ^ Z.of_nat 16) as Hu.
  { change (16 ^ Z.of_nat 16) with (2 ^ JSON_INTEGER_BITS).
    apply Z.mod_pos_bound. done. }
  destruct (hex_digits_spec 15 _ EmptyString Hu) as (ds & Hds & Hval & Hnul & Hfirst).
  rewrite Hds, string_app_nil_r. split; [done|]. split; [by apply c_str_id | done].
Qed.

Section EngineProperties.
Context `{Jansson} `{GLib} `{AppProfileLib}.

(** ** Rendering of setting values *)

Lemma markup_string_plain (s tag : string) (ap : list (string * string)) :
  markup_string s false tag ap = c_str s.
Proof. reflexivity. Qed.

Lemma c_str_0x_hex (n : Z) : c_str ("0x" +:+ printf_hex n) = "0x" +:+ printf_hex n.
Proof.
  rewrite !string_app_cons, string_app_nil_l. cbn [c_str].
  change (N_of_ascii "0" =? 0)%N with false. change (N_of_ascii "x" =? 0)%N with false.
  cbv iota. by rewrite (proj1 (proj2 (printf_hex_spec n))).
Qed.

(** C6. For every setting whose value is an integer, the text rendered for
    the value is [0x] followed by the hexadecimal digits, without leading
    zeros, of the integer read as an unsigned 64-bit number (the integer
    itself when it is not negative), wrapped in the value markup when markup
    is asked for.  String,
    boolean and real values are rendered as the text [json_dumps] gives for
    them, wrapped the same way.  A value of another type ends in the
    function's assertion. *)
Theorem setting_get_key_value_rendering (setting json_value : json_t)
    (key add_markup : bool) :
  json_object_get setting "value" = Some json_value →
  (key = true → is_Some (json_string_value (json_object_get setting "key"))) →
  ∃ key_out : option string,
    (∀ n, json_value = json_integer n →
       setting_get_key_value setting key true add_markup
       = Some (key_out,
               Some (markup_string ("0x" +:+ printf_hex n) add_markup "span"
                       [("color", "#003300")]))
       ∧ markup_string ("0x" +:+ printf_hex n) false "span" [("color", "#003300")]
         = "0x" +:+ printf_hex n
       ∧ hex_value (printf_hex n) = n mod 2 ^ 64
       ∧ first_char (λ c, n mod 2 ^ 64 ≠ 0 → c ≠ "0"%char) (printf_hex n)
       ∧ (0 <= n < 2 ^ 63 → hex_value (printf_hex n) = n))
    ∧ (json_typeof json_value ∈ [JSON_STRING; JSON_TRUE; JSON_FALSE; JSON_REAL] →
       setting_get_key_value setting key true add_markup
       = plain_value ← json_dumps json_value;
         Some (key_out,
               Some (markup_string plain_value add_markup "span" [("color", "#003300")])))
    ∧ (json_typeof json_value ∈ [JSON_NULL; JSON_OBJECT; JSON_ARRAY] →
       setting_get_key_value setting key true add_markup = None).
Proof.
  intros Hvalue Hkey. unfold setting_get_key_value. rewrite Hvalue.
  set (key_res :=
         if key then
           plain_key ← json_string_value (json_object_get setting "key");
           Some (Some (markup_string plain_key add_markup "span" [("color", "#000033")]))
         else Some None).
  assert (∃ key_out, key_res = Some key_out) as [key_out Hk].
  { subst key_res. destruct key; [|by eexists].
    destruct (Hkey eq_refl) as [k ->]. by eexists. }
  exists key_out. rewrite Hk. cbn [mbind option_bind].
  split; [|split].
  - intros n ->. split; [reflexivity|]. repeat split.
    + rewrite markup_string_plain. apply c_str_0x_hex.
    + apply printf_hex_spec.
    + apply printf_hex_spec.
    + intros Hn. rewrite (proj1 (printf_hex_spec n)).
      apply Z.mod_small. change (2 ^ JSON_INTEGER_BITS) with (2 ^ 64). lia.
  - intros Ht. apply list_elem_of_In in Ht. cbn in Ht.
    destruct (json_typeof json_value);
      try (exfalso; intuition congruence);
      destruct (json_dumps json_value); reflexivity.
  - intros Ht. apply list_elem_of_In in Ht. cbn in Ht.
    destruct (json_typeof json_value);
      try (exfalso; intuition congruence); reflexivity.
Qed.

(** ** Validation of a rule *)

Lemma source_file_error_nonempty (source_file reason : string) :
  source_file_error source_file reason ≠ EmptyString.
Proof. discriminate. Qed.

Lemma missing_profile_error_nonempty (profile_name : string) :
  missing_profile_error profile_name ≠ EmptyString.
Proof. discriminate. Qed.

(** The two error strings in closed form. *)
Lemma edit_rule_dialog_errors_eq (dialog : EditRuleDialog.t) :
  edit_rule_dialog_errors dialog
  = ((if (nv_app_profile_config_check_valid_source_file
            (cur_config (EditRuleDialog.parent dialog))
            (EditRuleDialog.source_file dialog)).1 =? 0
      then source_file_error (EditRuleDialog.source_file dialog)
             (check_valid_source_file (EditRuleDialog.parent dialog)
                (EditRuleDialog.source_file dialog)).2
      else EmptyString),
     match ctk_apc_profile_model_get_profile
             (apc_profile_model (EditRuleDialog.parent dialog))
             (EditRuleDialog.profile_name dialog) with
     | None => missing_profile_error (EditRuleDialog.profile_name dialog)
     | Some _ => EmptyString
     end).
Proof.
  unfold edit_rule_dialog_errors, check_valid_source_file.
  destruct (nv_app_profile_config_check_valid_source_file _ _) as [r reason].
  cbn [fst snd].
  by destruct (ctk_apc_profile_model_get_profile _ _), (r =? 0).
Qed.

(** C4. For every rule being saved, the validation produces a fatal error
    if and only if the library rejects the rule's source file as a location
    of the configuration, and a nonfatal error if and only if the rule's
    profile name does not resolve to a profile of the model; the fatal
    errors are nothing but the source-file message and the nonfatal errors
    nothing but the missing-profile message. *)
Theorem edit_rule_dialog_validate_errors (dialog : EditRuleDialog.t) :
  ∃ fatal_errors nonfatal_errors reason,
    edit_rule_dialog_errors dialog = (fatal_errors, nonfatal_errors)
    ∧ (check_valid_source_file (EditRuleDialog.parent dialog)
         (EditRuleDialog.source_file dialog)).2 = reason
    ∧ (fatal_errors ≠ EmptyString
       ↔ (nv_app_profile_config_check_valid_source_file
            (cur_config (EditRuleDialog.parent dialog))
            (EditRuleDialog.source_file dialog)).1 = 0)
    ∧ (fatal_errors = EmptyString
       ∨ fatal_errors = source_file_error (EditRuleDialog.source_file dialog) reason)
    ∧ (nonfatal_errors ≠ EmptyString
       ↔ ctk_apc_profile_model_get_profile
           (apc_profile_model (EditRuleDialog.parent dialog))
           (EditRuleDialog.profile_name dialog) = None)
    ∧ (nonfatal_errors = EmptyString
       ∨ nonfatal_errors = missing_profile_error (EditRuleDialog.profile_name dialog)).
Proof.
  rewrite edit_rule_dialog_errors_eq.
  do 3 eexists. split; [reflexivity|]. split; [reflexivity|].
  pose proof (source_file_error_nonempty (EditRuleDialog.source_file dialog)
                (check_valid_source_file (EditRuleDialog.parent dialog)
                   (EditRuleDialog.source_file dialog)).2).
  pose proof (missing_profile_error_nonempty (EditRuleDialog.profile_name dialog)).
  destruct (Z.eqb_spec
              (nv_app_profile_config_check_valid_source_file
                 (cur_config (EditRuleDialog.parent dialog))
                 (EditRuleDialog.source_file dialog)).1 0) as [Hr|Hr];
    destruct (ctk_apc_profile_model_get_profile _ _) as [p|];
    intuition congruence.
Qed.

Lemma g_string_len_eqb (s : string) :
  (g_string_len s =? 0) = match s with EmptyString => true | String _ _ => false end.
Proof. by destruct s. Qed.

(** [run_error_dialog] lets the operation go on exactly when there is no
    fatal error and either no nonfatal error or the user's consent. *)
Lemma run_error_dialog_success (result : Z) (fatal_errors nonfatal_errors op_string : string) :
  (run_error_dialog result fatal_errors nonfatal_errors op_string).2 = true
  ↔ fatal_errors = EmptyString
    ∧ (nonfatal_errors = EmptyString ∨ result = GTK_RESPONSE_YES).
Proof.
  unfold run_error_dialog. rewrite !g_string_len_eqb.
  destruct fatal_errors as [|c f], nonfatal_errors as [|d n]; cbn.
  - split; [by intros _; split; [|left] | done].
  - rewrite Z.eqb_eq. split; [by intros ->; split; [|right] | by intros [_ [?|?]]].
  - split; [done | by intros [? _]].
  - split; [done | by intros [? _]].
Qed.

(** The rule is saved without a question when there is no error, never
    with a fatal error, and otherwise when the user answers yes. *)
Lemma edit_rule_dialog_validate_result (result : Z) (dialog : EditRuleDialog.t) :
  edit_rule_dialog_validate result dialog = true
  ↔ (nv_app_profile_config_check_valid_source_file
       (cur_config (EditRuleDialog.parent dialog))
       (EditRuleDialog.source_file dialog)).1 ≠ 0
    ∧ (is_Some (ctk_apc_profile_model_get_profile
                  (apc_profile_model (EditRuleDialog.parent dialog))
                  (EditRuleDialog.profile_name dialog))
       ∨ result = GTK_RESPONSE_YES).
Proof.
  unfold edit_rule_dialog_validate. rewrite edit_rule_dialog_errors_eq.
  rewrite run_error_dialog_success.
  pose proof (source_file_error_nonempty (EditRuleDialog.source_file dialog)
                (check_valid_source_file (EditRuleDialog.parent dialog)
                   (EditRuleDialog.source_file dialog)).2).
  pose proof (missing_profile_error_nonempty (EditRuleDialog.profile_name dialog)).
  destruct (Z.eqb_spec
              (nv_app_profile_config_check_valid_source_file
                 (cur_config (EditRuleDialog.parent dialog))
                 (EditRuleDialog.source_file dialog)).1 0) as [Hr|Hr];
    destruct (ctk_apc_profile_model_get_profile _ _) as [p|].
  all: unfold is_Some; intuition (try congruence).
  all: try (left; by eexists).
  all: try match goal with H : ∃ _, None = Some _ |- _ => destruct H as [? [=]] end.
Qed.

(** ** Validation of a profile *)

Lemma check_unrecognized_setting_keys_from_spec (settings : list json_t) :
  Forall has_string_key settings →
  ∃ unrecognized,
    check_unrecognized_setting_keys_from settings = Some unrecognized
    ∧ (unrecognized = true ↔ Exists has_unrecognized_key settings).
Proof.
  induction settings as [|setting rest IH]; intros Hall.
  - exists false. split; [done|]. split; [done|]. intros Hex. by apply Exists_nil in Hex.
  - apply Forall_cons in Hall as [[key Hkey] Hrest].
    cbn [check_unrecognized_setting_keys_from]. rewrite Hkey.
    destruct (get_canonical_setting_key key) as [k|] eqn:Hcanon.
    + destruct (IH Hrest) as (b & -> & Hb). exists b. split; [done|].
      rewrite Hb, Exists_cons. split; [by right|].
      intros [(key' & Hkey' & Hnone)|Hex]; [|done].
      rewrite Hkey in Hkey'. injection Hkey' as <-. by rewrite Hcanon in Hnone.
    + exists true. split; [done|]. split; [|done].
      intros _. apply Exists_cons. left. by exists key.
Qed.

Lemma empty_name_error_nonempty : empty_name_error ≠ EmptyString.
Proof. discriminate. Qed.

Lemma overwrite_error_nonempty (name : string) : overwrite_error name ≠ EmptyString.
Proof. discriminate. Qed.

Lemma rename_error_nonempty (orig_name name : string) :
  rename_error orig_name name ≠ EmptyString.
Proof. discriminate. Qed.

Lemma unrecognized_keys_error_nonempty : unrecognized_keys_error ≠ EmptyString.
Proof. discriminate. Qed.

(** C5. For every profile being saved whose settings all have a string key,
    the validation produces a fatal error exactly when the library rejects
    the source file, and its nonfatal errors are, in this order, one for each
    of the conditions that hold: the profile name is empty; the name is that
    of an existing profile while the profile is new or is being renamed (the
    existing profile will be overwritten); some setting has a key that is not
    in the table of recognised keys. *)
Theorem edit_profile_dialog_validate_errors (dialog : EditProfileDialog.t) :
  Forall has_string_key (json_array_elems (EditProfileDialog.settings dialog)) →
  ∃ fatal_errors reason e_name e_collision e_keys,
    edit_profile_dialog_errors dialog
    = Some (fatal_errors, e_name +:+ e_collision +:+ e_keys)
    ∧ (check_valid_source_file (EditProfileDialog.parent dialog)
         (EditProfileDialog.source_file dialog)).2 = reason
    ∧ (fatal_errors ≠ EmptyString
       ↔ (nv_app_profile_config_check_valid_source_file
            (cur_config (EditProfileDialog.parent dialog))
            (EditProfileDialog.source_file dialog)).1 = 0)
    ∧ (fatal_errors = EmptyString
       ∨ fatal_errors = source_file_error (EditProfileDialog.source_file dialog) reason)
    ∧ (e_name ≠ EmptyString ↔ c_str (EditProfileDialog.name dialog) = EmptyString)
    ∧ (e_name = EmptyString ∨ e_name = empty_name_error)
    ∧ (e_collision ≠ EmptyString
       ↔ is_Some (ctk_apc_profile_model_get_profile
                    (apc_profile_model (EditProfileDialog.parent dialog))
                    (EditProfileDialog.name dialog))
         ∧ (EditProfileDialog.new_profile dialog = true
            ∨ c_str (EditProfileDialog.name dialog)
              ≠ c_str (EditProfileDialog.orig_name dialog)))
    ∧ (e_collision = EmptyString
       ∨ (EditProfileDialog.new_profile dialog = true
          ∧ e_collision = overwrite_error (EditProfileDialog.name dialog))
       ∨ (EditProfileDialog.new_profile dialog = false
          ∧ e_collision = rename_error (EditProfileDialog.orig_name dialog)
                            (EditProfileDialog.name dialog)))
    ∧ (e_keys ≠ EmptyString
       ↔ Exists has_unrecognized_key
           (json_array_elems (EditProfileDialog.settings dialog)))
    ∧ (e_keys = EmptyString ∨ e_keys = unrecognized_keys_error).
Proof.
  intros Hkeys.
  destruct (check_unrecognized_setting_keys_from_spec _ Hkeys) as (unrec & Hchk & Hunrec).
  unfold edit_profile_dialog_errors, check_valid_source_file, check_unrecognized_setting_keys.
  rewrite Hchk. cbn [mbind option_bind].
  destruct (nv_app_profile_config_check_valid_source_file _ _) as [r reason].
  rewrite !strcmp_eqb. change (c_str "") with EmptyString.
  set (found := ctk_apc_profile_model_get_profile _ _).
  exists (if negb (negb (r =? 0))
          then source_file_error (EditProfileDialog.source_file dialog) reason
          else EmptyString).
  exists reason.
  exists (if bool_decide (c_str (EditProfileDialog.name dialog) = EmptyString)
          then empty_name_error else EmptyString).
  exists (if (EditProfileDialog.new_profile dialog
              || negb (bool_decide (c_str (EditProfileDialog.name dialog)
                                    = c_str (EditProfileDialog.orig_name dialog))))
             && match found with Some _ => true | None => false end
          then if EditProfileDialog.new_profile dialog
               then overwrite_error (EditProfileDialog.name dialog)
               else rename_error (EditProfileDialog.orig_name dialog)
                      (EditProfileDialog.name dialog)
          else EmptyString).
  exists (if unrec then unrecognized_keys_error else EmptyString).
  cbn [fst snd].
  pose proof (source_file_error_nonempty (EditProfileDialog.source_file dialog) reason).
  pose proof empty_name_error_nonempty.
  pose proof (overwrite_error_nonempty (EditProfileDialog.name dialog)).
  pose proof (rename_error_nonempty (EditProfileDialog.orig_name dialog)
                (EditProfileDialog.name dialog)).
  pose proof unrecognized_keys_error_nonempty.
  split.
  { destruct (bool_decide _), (_ && _), (EditProfileDialog.new_profile dialog),
      (r =? 0), unrec; cbn [negb];
      rewrite ?string_app_nil_l, ?string_app_nil_r, ?string_app_assoc; reflexivity. }
  split; [done|]. split.
  { destruct (Z.eqb_spec r 0); cbn [negb]; intuition congruence. }
  split.
  { destruct (r =? 0); cbn [negb]; auto. }
  split.
  { case_bool_decide; intuition congruence. }
  split.
  { case_bool_decide; auto. }
  split.
  { assert (match found with Some _ => true | None => false end = true ↔ is_Some found)
      as Hfound.
    { destruct found as [p|].
      - split; [intros _; by eexists | done].
      - split; [done | by intros [? [=]]]. }
    set (cond := (_ || _) && _).
    assert (cond = true
            ↔ is_Some found
              ∧ (EditProfileDialog.new_profile dialog = true
                 ∨ c_str (EditProfileDialog.name dialog)
                   ≠ c_str (EditProfileDialog.orig_name dialog))) as Hcond.
    { subst cond.
      rewrite andb_true_iff, orb_true_iff, negb_true_iff, bool_decide_eq_false, Hfound.
      tauto. }
    rewrite <- Hcond. destruct cond; [|done].
    destruct (EditProfileDialog.new_profile dialog); done. }
  split.
  { destruct (_ && _); [|by left].
    destruct (EditProfileDialog.new_profile dialog); right; [left | right]; done. }
  split.
  { rewrite <- Hunrec. destruct unrec; intuition congruence. }
  destruct unrec; auto.
Qed.

(** ** The default search path *)

(** C7. When HOME is set, the default search path is the two files under
    the home directory followed by the two files under /etc/nvidia, and the
    global configuration file is under the home directory.  When HOME is not
    set, the search path is the two files under /etc/nvidia alone, there is
    no global configuration file and a message says so; nothing else
    changes.  The path never has more than [SEARCH_PATH_NUM_FILES] entries. *)
Theorem get_default_search_path_spec (w : World) :
  (∀ homeStr, getenv w "HOME" = Some homeStr →
     get_default_search_path w
     = [ c_str homeStr +:+ "/.nv/nvidia-application-profiles-rc";
         c_str homeStr +:+ "/.nv/nvidia-application-profiles-rc.d";
         "/etc/nvidia/nvidia-application-profiles-rc";
         "/etc/nvidia/nvidia-application-profiles-rc.d" ]
     ∧ get_default_global_config_file w
       = (w, Some (c_str homeStr +:+ "/.nv/nvidia-application-profile-globals-rc")))
  ∧ (getenv w "HOME" = None →
     get_default_search_path w
     = [ "/etc/nvidia/nvidia-application-profiles-rc";
         "/etc/nvidia/nvidia-application-profiles-rc.d" ]
     ∧ get_default_global_config_file w = (nv_error_msg w HOME_not_set_error, None)
     ∧ environ (nv_error_msg w HOME_not_set_error) = environ w
     ∧ disk (nv_error_msg w HOME_not_set_error) = disk w
     ∧ stderr (nv_error_msg w HOME_not_set_error)
       = (stderr w ++ [HOME_not_set_error])%list)
  ∧ Z.of_nat (length (get_default_search_path w)) <= SEARCH_PATH_NUM_FILES.
Proof.
  unfold get_default_search_path, get_default_global_config_file.
  destruct (getenv w "HOME") as [homeStr|].
  - split; [|split]; [|done|done]. by intros ? [= <-].
  - split; [done|]. split; [|done]. intros _. by repeat split.
Qed.

(** ** Editing the value of a setting *)

Lemma members_get_set (ms : list (string * json_t)) (key : string) (v : json_t) :
  members_get (members_set ms key v) key = Some v.
Proof.
  induction ms as [|[k w] rest IH]; cbn.
  - by rewrite String.eqb_refl.
  - destruct (String.eqb k key) eqn:E; cbn; rewrite E; done.
Qed.

Lemma json_object_get_set_new (o : json_t) (key : string) (v : json_t) :
  json_typeof o = JSON_OBJECT →
  json_object_get (json_object_set_new o key v) key = Some v.
Proof.
  destruct o; try done. intros _. apply members_get_set.
Qed.

Lemma json_object_set_new_not_object (o : json_t) (key : string) (v : json_t) :
  json_typeof o ≠ JSON_OBJECT → json_object_set_new o key v = o.
Proof. by destruct o. Qed.

Lemma gtk_tree_model_get_iter_Some (store : list json_t) (path : option (list Z)) (iter : nat) :
  gtk_tree_model_get_iter store path = Some iter → is_Some (store !! iter).
Proof.
  unfold gtk_tree_model_get_iter.
  destruct path as [[|i [|]]|]; try done.
  destruct (Z.leb_spec 0 i), (Z.ltb_spec i (Z.of_nat (length store))); try done.
  intros [= <-]. apply lookup_lt_is_Some. lia.
Qed.

(** An edit that is cancelled, or whose row is gone, changes nothing. *)
Lemma setting_value_edited_dropped (path_s new_text : string) (dialog : EditProfileDialog.t) :
  EditProfileDialog.setting_update_canceled dialog = true
  ∨ gtk_tree_model_get_iter (EditProfileDialog.settings_store dialog)
      (gtk_tree_path_new_from_string path_s) = None →
  setting_value_edited path_s new_text dialog = dialog.
Proof.
  unfold setting_value_edited. intros [-> | ->]; [done|].
  by destruct (EditProfileDialog.setting_update_canceled dialog).
Qed.

(** An edit that goes through stores [edit_outcome]'s value in the row and
    leaves its status bar. *)
Lemma setting_value_edited_live (path_s new_text : string) (dialog : EditProfileDialog.t)
    (iter : nat) (setting : json_t) :
  EditProfileDialog.setting_update_canceled dialog = false →
  gtk_tree_model_get_iter (EditProfileDialog.settings_store dialog)
    (gtk_tree_path_new_from_string path_s) = Some iter →
  EditProfileDialog.settings_store dialog !! iter = Some setting →
  let outcome := edit_outcome new_text (EditProfileDialog.error_statusbar dialog) in
  EditProfileDialog.settings_store (setting_value_edited path_s new_text dialog)
  = <[iter := json_object_set_new setting "value" outcome.1]>
      (EditProfileDialog.settings_store dialog)
  ∧ EditProfileDialog.error_statusbar (setting_value_edited path_s new_text dialog)
    = outcome.2.
Proof.
  intros Hc Hi Hs. unfold setting_value_edited, edit_outcome.
  rewrite Hc, Hi, Hs.
  destruct (json_loads _) as [value|]; [|done].
  destruct (is_valid_setting_value value) as [[] t]; done.
Qed.

Lemma edit_outcome_legal (new_text : string) (statusbar : list string) :
  legal_setting_type (json_typeof (edit_outcome new_text statusbar).1).
Proof.
  unfold edit_outcome, legal_setting_type.
  destruct (json_loads _) as [value|]; [|cbn; tauto].
  unfold is_valid_setting_value.
  destruct (json_typeof value) eqn:E; cbn; rewrite ?E; tauto.
Qed.

(** C2, as the code has it.  For every value text that the JSON parser
    cannot parse: when the update is not cancelled and the path names a row
    of the settings store, the edit pushes the parse error on the status bar
    and stores boolean false as the value of that row's setting, leaving the
    other rows as they are; when the update is cancelled or the row is gone,
    the edit changes nothing and reports nothing.  The handler has a result
    on every input. *)
Theorem setting_value_edited_unparseable (path_s new_text : string)
    (dialog : EditProfileDialog.t) :
  json_loads (nv_app_profile_cfg_file_syntax_to_json new_text) = None →
  (EditProfileDialog.setting_update_canceled dialog = false →
   ∀ iter,
     gtk_tree_model_get_iter (EditProfileDialog.settings_store dialog)
       (gtk_tree_path_new_from_string path_s) = Some iter →
     ∃ setting,
       EditProfileDialog.settings_store dialog !! iter = Some setting
       ∧ EditProfileDialog.error_statusbar (setting_value_edited path_s new_text dialog)
         = parse_error_message new_text :: EditProfileDialog.error_statusbar dialog
       ∧ EditProfileDialog.settings_store (setting_value_edited path_s new_text dialog)
         = <[iter := json_object_set_new setting "value" json_false]>
             (EditProfileDialog.settings_store dialog)
       ∧ (json_typeof setting = JSON_OBJECT →
          stored_value
            (EditProfileDialog.settings_store (setting_value_edited path_s new_text dialog))
            iter = Some json_false))
  ∧ (EditProfileDialog.setting_update_canceled dialog = true
     ∨ gtk_tree_model_get_iter (EditProfileDialog.settings_store dialog)
         (gtk_tree_path_new_from_string path_s) = None →
     setting_value_edited path_s new_text dialog = dialog).
Proof.
  intros Hparse. split; [|apply setting_value_edited_dropped].
  intros Hc iter Hi.
  destruct (gtk_tree_model_get_iter_Some _ _ _ Hi) as [setting Hs].
  destruct (setting_value_edited_live path_s new_text dialog iter setting Hc Hi Hs)
    as [Hstore Hbar].
  unfold edit_outcome in Hstore, Hbar. rewrite Hparse in Hstore, Hbar. cbn in Hstore, Hbar.
  exists setting. split; [done|]. split; [done|]. split; [done|].
  intros Hobj. unfold stored_value. rewrite Hstore.
  rewrite list_lookup_insert_eq by (by apply lookup_lt_is_Some; eexists).
  cbn. by apply json_object_get_set_new.
Qed.

(** C10. After every edit of a setting value, the value of every row of the
    settings store is the value the row had before or a value of type string,
    integer, real or boolean: the edit never brings a null, an object or an
    array into the settings.  When the edit goes through, the value it stores
    in the row is legal: it is the parsed value when that is legal, and
    boolean false, with a message that names the type, when the text parses
    to a null, an object or an array, just as when the text does not parse. *)
Theorem setting_value_edited_legal (path_s new_text : string)
    (dialog : EditProfileDialog.t) :
  (∀ row v,
     stored_value
       (EditProfileDialog.settings_store (setting_value_edited path_s new_text dialog)) row
     = Some v →
     stored_value (EditProfileDialog.settings_store dialog) row = Some v
     ∨ legal_setting_type (json_typeof v))
  ∧ (EditProfileDialog.setting_update_canceled dialog = false →
     ∀ iter setting,
       gtk_tree_model_get_iter (EditProfileDialog.settings_store dialog)
         (gtk_tree_path_new_from_string path_s) = Some iter →
       EditProfileDialog.settings_store dialog !! iter = Some setting →
       ∃ value,
         EditProfileDialog.settings_store (setting_value_edited path_s new_text dialog)
         = <[iter := json_object_set_new setting "value" value]>
             (EditProfileDialog.settings_store dialog)
         ∧ legal_setting_type (json_typeof value)
         ∧ (∀ parsed,
              json_loads (nv_app_profile_cfg_file_syntax_to_json new_text) = Some parsed →
              legal_setting_type (json_typeof parsed) → value = parsed)
         ∧ (∀ parsed,
              json_loads (nv_app_profile_cfg_file_syntax_to_json new_text) = Some parsed →
              json_typeof parsed ∈ [JSON_NULL; JSON_OBJECT; JSON_ARRAY] →
              value = json_false
              ∧ EditProfileDialog.error_statusbar
                  (setting_value_edited path_s new_text dialog)
                = illegal_type_message (is_valid_setting_value parsed).2
                    :: EditProfileDialog.error_statusbar dialog)
         ∧ (json_loads (nv_app_profile_cfg_file_syntax_to_json new_text) = None →
            value = json_false)).
Proof.
  split.
  - intros row v Hv.
    destruct (EditProfileDialog.setting_update_canceled dialog) eqn:Hc.
    { left. by rewrite setting_value_edited_dropped in Hv by by left. }
    destruct (gtk_tree_model_get_iter (EditProfileDialog.settings_store dialog)
                (gtk_tree_path_new_from_string path_s)) as [iter|] eqn:Hi.
    2: { left. by rewrite setting_value_edited_dropped in Hv by by right. }
    destruct (gtk_tree_model_get_iter_Some _ _ _ Hi) as [setting Hs].
    destruct (setting_value_edited_live path_s new_text dialog iter setting Hc Hi Hs)
      as [Hstore _].
    unfold stored_value in *. rewrite Hstore in Hv.
    destruct (decide (iter = row)) as [<-|Hne].
    + rewrite list_lookup_insert_eq in Hv by (by apply lookup_lt_is_Some; eexists).
      rewrite Hs. cbn in *.
      destruct (decide (json_typeof setting = JSON_OBJECT)) as [Hobj|Hobj].
      * rewrite json_object_get_set_new in Hv by done. injection Hv as <-.
        right. apply edit_outcome_legal.
      * rewrite json_object_set_new_not_object in Hv by done. by left.
    + rewrite list_lookup_insert_ne in Hv by done. by left.
  - intros Hc iter setting Hi Hs.
    destruct (setting_value_edited_live path_s new_text dialog iter setting Hc Hi Hs)
      as [Hstore Hbar].
    exists (edit_outcome new_text (EditProfileDialog.error_statusbar dialog)).1.
    split; [done|]. split; [apply edit_outcome_legal|].
    rewrite Hbar. unfold edit_outcome. split; [|split].
    + intros parsed -> Hlegal.
      unfold is_valid_setting_value, legal_setting_type in *.
      destruct (json_typeof parsed); cbn; intuition congruence.
    + intros parsed -> Ht. apply list_elem_of_In in Ht. cbn in Ht.
      unfold is_valid_setting_value.
      destruct (json_typeof parsed); cbn; intuition congruence.
    + by intros ->.
Qed.

(** ** Reload and save *)

Lemma statusbar_message_configs (ctk_app_profile : CtkAppProfile) (msg : string) :
  cur_config (ctk_config_statusbar_message ctk_app_profile msg) = cur_config ctk_app_profile
  ∧ gold_config (ctk_config_statusbar_message ctk_app_profile msg)
    = gold_config ctk_app_profile.
Proof.
  unfold ctk_config_statusbar_message. by destruct (status_bar_enabled ctk_app_profile).
Qed.

Lemma get_default_global_config_file_world (w : World) :
  disk (get_default_global_config_file w).1 = disk w
  ∧ environ (get_default_global_config_file w).1 = environ w.
Proof.
  unfold get_default_global_config_file. by destruct (getenv w "HOME").
Qed.

(** The default files depend on the environment alone. *)
Lemma default_files_environ (w1 w2 : World) :
  environ w1 = environ w2 →
  nv_app_profile_config_load (disk w1) (get_default_global_config_file w1).2
    (get_default_search_path w1)
  = nv_app_profile_config_load (disk w1) (get_default_global_config_file w2).2
      (get_default_search_path w2).
Proof.
  intros He. unfold get_default_global_config_file, get_default_search_path, getenv.
  rewrite He. by destruct (environ w2 !! "HOME").
Qed.

(** What a reload leaves: the gold configuration is the one loaded from the
    files; the current one is its duplicate, with the enabled flag written
    back by the check button's handler when the button changes state. *)
Lemma app_profile_reload_configs (w : World) (ctk_app_profile : CtkAppProfile) :
  let gold :=
    nv_app_profile_config_load (disk w) (get_default_global_config_file w).2
      (get_default_search_path w) in
  let cur := nv_app_profile_config_dup gold in
  gold_config (app_profile_reload w ctk_app_profile).2 = gold
  ∧ cur_config (app_profile_reload w ctk_app_profile).2
    = (if Bool.eqb (enable_check_button ctk_app_profile)
            (nv_app_profile_config_get_enabled cur)
       then cur
       else nv_app_profile_config_set_enabled cur (nv_app_profile_config_get_enabled cur))
  ∧ disk (app_profile_reload w ctk_app_profile).1 = disk w
  ∧ environ (app_profile_reload w ctk_app_profile).1 = environ w.
Proof.
  unfold app_profile_reload.
  pose proof (get_default_global_config_file_world w) as [Hd He].
  destruct (get_default_global_config_file w) as [w' global_config_file].
  cbn [fst snd] in *. rewrite Hd.
  unfold app_profile_load_global_settings, gtk_toggle_button_set_active,
    set_status_bar_enabled, enabled_check_button_toggled, ctk_config_statusbar_message.
  cbn. destruct (Bool.eqb _ _); done.
Qed.

(** C8, as the code has it.  Provided a duplicate is equal to its original
    and writing back the enabled flag a configuration already has leaves it
    as it is: a reload discards both configurations, replaces gold by what
    loading the configuration files gives and current by a duplicate of that
    new gold, so that current equals gold (Clean), and leaves the files
    alone.  A save that the user does not call off writes the files and
    then runs the same reload, unless writing failed and the user declines
    the reload, in which case both configurations stay; a save that is
    called off changes nothing but the pending updates. *)
Theorem reload_replaces_both_configs :
  (∀ c, nv_app_profile_config_dup c = c) →
  (∀ c, nv_app_profile_config_set_enabled c (nv_app_profile_config_get_enabled c) = c) →
  (∀ (w : World) (ctk_app_profile : CtkAppProfile),
     gold_config (app_profile_reload w ctk_app_profile).2
     = nv_app_profile_config_load (disk w) (get_default_global_config_file w).2
         (get_default_search_path w)
     ∧ cur_config (app_profile_reload w ctk_app_profile).2
       = gold_config (app_profile_reload w ctk_app_profile).2
     ∧ disk (app_profile_reload w ctk_app_profile).1 = disk w)
  ∧ (∀ (conflict_result write_error_result : Z) (w : World)
       (dialog : SaveAppProfileChangesDialog.t),
       let ctk_app_profile := SaveAppProfileChangesDialog.parent dialog in
       let out :=
         save_app_profile_changes_dialog_save_changes conflict_result write_error_result
           w dialog in
       let written :=
         nv_app_profile_config_save_updates (disk w) (cur_config ctk_app_profile)
           (default json_null (SaveAppProfileChangesDialog.updates dialog))
           (SaveAppProfileChangesDialog.backup_check_button dialog) in
       if nv_app_profile_config_check_backing_files (disk w) (cur_config ctk_app_profile)
          && negb (conflict_result =? GTK_RESPONSE_YES)
       then out.1 = w ∧ SaveAppProfileChangesDialog.parent out.2 = ctk_app_profile
       else
         disk out.1 = written.1
         ∧ if (written.2 <? 0) && negb (write_error_result =? GTK_RESPONSE_YES)
           then cur_config (SaveAppProfileChangesDialog.parent out.2)
                = cur_config ctk_app_profile
                ∧ gold_config (SaveAppProfileChangesDialog.parent out.2)
                  = gold_config ctk_app_profile
           else gold_config (SaveAppProfileChangesDialog.parent out.2)
                = nv_app_profile_config_load written.1
                    (get_default_global_config_file w).2 (get_default_search_path w)
                ∧ cur_config (SaveAppProfileChangesDialog.parent out.2)
                  = gold_config (SaveAppProfileChangesDialog.parent out.2)).
Proof.
  intros Hdup Hset.
  assert (∀ (w : World) (ctk_app_profile : CtkAppProfile),
            gold_config (app_profile_reload w ctk_app_profile).2
            = nv_app_profile_config_load (disk w) (get_default_global_config_file w).2
                (get_default_search_path w)
            ∧ cur_config (app_profile_reload w ctk_app_profile).2
              = gold_config (app_profile_reload w ctk_app_profile).2
            ∧ disk (app_profile_reload w ctk_app_profile).1 = disk w) as Hreload.
  { intros w ctk_app_profile.
    destruct (app_profile_reload_configs w ctk_app_profile) as (Hg & Hcur & Hd & _).
    cbv zeta in Hg, Hcur. rewrite Hg, Hcur, Hset, Hdup. clear Hg Hcur.
    by case_match. }
  split; [exact Hreload|].
  intros conflict_result write_error_result w dialog. cbv zeta.
  unfold save_app_profile_changes_dialog_save_changes.
  destruct (nv_app_profile_config_check_backing_files _ _); cbn [andb];
    [destruct (conflict_result =? GTK_RESPONSE_YES); cbn [negb]; [|done]|].
  all: destruct (nv_app_profile_config_save_updates _ _ _ _) as [disk' ret];
    cbn [fst snd];
    destruct (ret <? 0); cbn [andb];
    [destruct (write_error_result =? GTK_RESPONSE_YES); cbn [negb]|].
  all: try (split; [done|]; split; apply statusbar_message_configs).
  all: set (w' := {| environ := environ w; disk := disk'; stderr := stderr w |});
    destruct (Hreload w' (SaveAppProfileChangesDialog.parent dialog)) as (Hg & Hc & Hd);
    rewrite (default_files_environ w' w eq_refl) in Hg;
    destruct (app_profile_reload w' _) as [w'' ctk''];
    cbn [fst snd SaveAppProfileChangesDialog.parent] in *;
    pose proof (statusbar_message_configs ctk''
                  "Application profile configuration saved to disk.") as [-> ->];
    by rewrite Hc, Hg, Hd.
Qed.

(** The Reload button runs the reload when nothing is pending or the user
    consents. *)
Lemma reload_callback_reloads (result : Z) (w : World) (ctk_app_profile : CtkAppProfile) :
  json_array_size
    (nv_app_profile_config_validate (cur_config ctk_app_profile)
       (gold_config ctk_app_profile)) <= 0
  ∧ nv_app_profile_config_check_backing_files (disk w) (cur_config ctk_app_profile) = false
  ∨ result = GTK_RESPONSE_YES →
  reload_callback result w ctk_app_profile
  = ((app_profile_reload w ctk_app_profile).1,
     ctk_config_statusbar_message (app_profile_reload w ctk_app_profile).2
       "Application profile configuration reloaded from disk.").
Proof.
  intros Hok. unfold reload_callback.
  set (n := _ +:+ _ : string) at 1.
  match goal with |- context [run_error_dialog result ?f ?n ?o] =>
    assert ((run_error_dialog result f n o).2 = true) as ->
  end.
  { apply run_error_dialog_success. split; [done|].
    destruct Hok as [[Hsize ->]| ->]; [left|by right].
    by rewrite (proj2 (Z.ltb_ge _ _) Hsize). }
  by destruct (app_profile_reload w ctk_app_profile).
Qed.

End EngineProperties.

(** * The engine on the sample inputs *)

Section Samples.
#[local] Existing Instance literal_jansson.
#[local] Existing Instance plain_glib.
#[local] Existing Instance simple_lib.

Example sample_rule_errors :
  edit_rule_dialog_errors sample_rule_dialog
  = (source_file_error "/tmp/rules" "the file is not on the search path",
     missing_profile_error "Slow").
Proof. reflexivity. Qed.

Example sample_rule_blocked :
  edit_rule_dialog_validate GTK_RESPONSE_YES sample_rule_dialog = false.
Proof. reflexivity. Qed.

Example sample_profile_errors :
  edit_profile_dialog_errors (sample_profile_dialog false)
  = Some (EmptyString, overwrite_error "Fast" +:+ unrecognized_keys_error).
Proof. reflexivity. Qed.

Example sample_render_integer :
  setting_get_key_value (sample_setting "GLFoo" (json_integer 31)) true true false
  = Some (Some "GLFoo", Some "0x1f").
Proof. reflexivity. Qed.

Example sample_render_markup :
  setting_get_key_value (sample_setting "GLFoo" (json_integer 31)) false true true
  = Some (None,
          Some ("<span color=" +:+ dquote +:+ "#003300" +:+ dquote +:+ ">0x1f</span>")).
Proof. reflexivity. Qed.

Example sample_render_string :
  setting_get_key_value (sample_setting "GLYield" (json_string "USLEEP")) false true false
  = Some (None, Some (dquote +:+ "USLEEP" +:+ dquote)).
Proof. reflexivity. Qed.

Example sample_render_negative :
  setting_get_key_value (sample_setting "GLFoo" (json_integer (-2))) false true false
  = Some (None, Some "0xfffffffffffffffe").
Proof. reflexivity. Qed.

Example sample_render_null :
  setting_get_key_value (sample_setting "GLFoo" json_null) false true false = None.
Proof. reflexivity. Qed.

Example sample_search_path_home : get_default_search_path sample_world = sample_search_path.
Proof. reflexivity. Qed.

Example sample_search_path_no_home :
  get_default_search_path sample_world_no_home
  = [ "/etc/nvidia/nvidia-application-profiles-rc";
      "/etc/nvidia/nvidia-application-profiles-rc.d" ].
Proof. reflexivity. Qed.

Example sample_edit_null :
  stored_value
    (EditProfileDialog.settings_store
       (setting_value_edited "1" "null" (sample_profile_dialog false))) 1
  = Some json_false.
Proof. reflexivity. Qed.

Example sample_edit_true :
  stored_value
    (EditProfileDialog.settings_store
       (setting_value_edited "1" "true" (sample_profile_dialog false))) 1
  = Some json_true.
Proof. reflexivity. Qed.

(** The parse error of C2 on a live edit of the first row. *)
Lemma setting_value_edited_unparseable_witness :
  json_loads (nv_app_profile_cfg_file_syntax_to_json "not valid json") = None
  ∧ EditProfileDialog.error_statusbar
      (setting_value_edited "0" "not valid json" (sample_profile_dialog false))
    = ["The value [not valid json] was not understood by the JSON parser."]
  ∧ stored_value
      (EditProfileDialog.settings_store
         (setting_value_edited "0" "not valid json" (sample_profile_dialog false))) 0
    = Some json_false.
Proof.
  assert (json_loads (nv_app_profile_cfg_file_syntax_to_json "not valid json") = None)
    as Hparse by reflexivity.
  split; [exact Hparse|].
  destruct (setting_value_edited_unparseable "0" "not valid json"
              (sample_profile_dialog false) Hparse) as [Hlive _].
  destruct (Hlive eq_refl 0%nat eq_refl) as (setting & Hs & Hbar & _ & Hval).
  split; [exact Hbar|]. apply Hval.
  cbn in Hs. injection Hs as <-. reflexivity.
Defined.

(** The claim C2 fails on a cancelled update: the text does not parse, yet
    nothing is reported and the row keeps its value [true]. *)
Lemma setting_value_edited_cancelled_counterexample :
  json_loads (nv_app_profile_cfg_file_syntax_to_json "not valid json") = None
  ∧ EditProfileDialog.error_statusbar
      (setting_value_edited "0" "not valid json" (sample_profile_dialog true)) = []
  ∧ stored_value
      (EditProfileDialog.settings_store
         (setting_value_edited "0" "not valid json" (sample_profile_dialog true))) 0
    = Some json_true
  ∧ json_true ≠ json_false.
Proof. repeat split. discriminate. Qed.

(** The validation of C5 on the sample profile. *)
Lemma edit_profile_dialog_validate_errors_witness :
  Forall has_string_key
    (json_array_elems (EditProfileDialog.settings (sample_profile_dialog false)))
  ∧ ∃ fatal_errors nonfatal_errors,
      edit_profile_dialog_errors (sample_profile_dialog false)
      = Some (fatal_errors, nonfatal_errors).
Proof.
  assert (Forall has_string_key
            (json_array_elems (EditProfileDialog.settings (sample_profile_dialog false))))
    as Hkeys.
  { repeat constructor; by eexists. }
  split; [exact Hkeys|].
  destruct (edit_profile_dialog_validate_errors (sample_profile_dialog false) Hkeys)
    as (fatal_errors & reason & e_name & e_collision & e_keys & Herrors & _).
  exists fatal_errors, (e_name +:+ e_collision +:+ e_keys). exact Herrors.
Defined.

(** The rendering of C6 on an integer setting. *)
Lemma setting_get_key_value_rendering_witness :
  json_object_get (sample_setting "GLFoo" (json_integer 31)) "value" = Some (json_integer 31)
  ∧ is_Some (json_string_value
               (json_object_get (sample_setting "GLFoo" (json_integer 31)) "key"))
  ∧ ∃ key_out,
      setting_get_key_value (sample_setting "GLFoo" (json_integer 31)) true true false
      = Some (key_out, Some "0x1f").
Proof.
  assert (is_Some (json_string_value
                     (json_object_get (sample_setting "GLFoo" (json_integer 31)) "key")))
    as Hkey by (by eexists).
  split; [reflexivity|]. split; [exact Hkey|].
  destruct (setting_get_key_value_rendering (sample_setting "GLFoo" (json_integer 31))
              (json_integer 31) true false eq_refl (λ _, Hkey))
    as (key_out & Hinteger & _).
  exists key_out. destruct (Hinteger 31 eq_refl) as [Hrendered _]. exact Hrendered.
Defined.

(** The reload of C8 with the sample library. *)
Lemma reload_replaces_both_configs_witness :
  (∀ c : SimpleConfig, nv_app_profile_config_dup c = c)
  ∧ (∀ c : SimpleConfig,
       nv_app_profile_config_set_enabled c (nv_app_profile_config_get_enabled c) = c)
  ∧ cur_config (app_profile_reload sample_world sample_page).2
    = gold_config (app_profile_reload sample_world sample_page).2.
Proof.
  assert (∀ c : SimpleConfig, nv_app_profile_config_dup c = c) as Hdup by reflexivity.
  assert (∀ c : SimpleConfig,
            nv_app_profile_config_set_enabled c (nv_app_profile_config_get_enabled c) = c)
    as Hset by (by intros []).
  split; [exact Hdup|]. split; [exact Hset|].
  destruct (@reload_replaces_both_configs simple_lib Hdup Hset) as [Hreload _].
  destruct (Hreload sample_world sample_page) as (_ & Hclean & _). exact Hclean.
Defined.

(** The claim C8 fails when the files changed since the last load: the
    reload replaces the gold configuration, and the current configuration is
    not a duplicate of the gold configuration the session had. *)
Lemma reload_keeps_gold_counterexample :
  gold_config (app_profile_reload sample_world sample_page).2 ≠ gold_config sample_page
  ∧ cur_config (app_profile_reload sample_world sample_page).2
    ≠ nv_app_profile_config_dup (gold_config sample_page).
Proof.
  split; intros E; apply (f_equal cfg_rules) in E; vm_compute in E; discriminate E.
Qed.

End Samples.

(** * More properties of the editor *)

(** ** The tables, again *)

Lemma tolower_idemp (c : Z) : tolower (tolower c) = tolower c.
Proof.
  unfold tolower.
  destruct ((65 <=? c) && (c <=? 90)) eqn:E; [|by rewrite E].
  apply andb_true_iff in E as [?%Z.leb_le ?%Z.leb_le].
  rewrite (proj2 (Z.leb_gt (c + 32) 90)) by lia. by rewrite andb_false_r.
Qed.

Lemma tolower_ascii_idemp (c : ascii) : tolower_ascii (tolower_ascii c) = tolower_ascii c.
Proof.
  apply code_inj. by rewrite !tolower_ascii_code, tolower_idemp.
Qed.

Lemma tolower_ascii_not_nul (c : ascii) :
  N_of_ascii c ≠ 0%N → N_of_ascii (tolower_ascii c) ≠ 0%N.
Proof.
  intros Hc E.
  assert (Z.of_N (N_of_ascii (tolower_ascii c)) = 0) as Hz by lia.
  rewrite tolower_ascii_code in Hz.
  pose proof (code_range c) as Hr.
  apply (tolower_eq_0 _ (proj1 Hr)) in Hz. lia.
Qed.

(** Lowering is idempotent. *)
Lemma c_lower_idemp (s : string) : c_lower (c_lower s) = c_lower s.
Proof.
  induction s as [|c r IH]; [done|]. cbn [c_lower].
  destruct (N.eqb_spec (N_of_ascii c) 0) as [E|E]; [done|].
  cbn [c_lower].
  destruct (N.eqb_spec (N_of_ascii (tolower_ascii c)) 0) as [E'|E'].
  - by apply tolower_ascii_not_nul in E'.
  - by rewrite tolower_ascii_idemp, IH.
Qed.

Lemma get_canonical_setting_key_eq (key : string) :
  get_canonical_setting_key key
  = get_canonical_setting_key_from key profile_setting_keys.
Proof. reflexivity. Qed.

(** The answer depends on the lowered text alone. *)
Lemma get_canonical_setting_key_lower (key key' : string) :
  c_lower key = c_lower key' →
  get_canonical_setting_key key = get_canonical_setting_key key'.
Proof.
  intros Heq. rewrite !get_canonical_setting_key_eq.
  destruct (get_canonical_setting_key_from key' profile_setting_keys) as [k|] eqn:Hk.
  - apply get_canonical_setting_key_from_Some in Hk as [Hin Hl];
      [|apply profile_setting_keys_distinct].
    apply get_canonical_setting_key_from_Some; [apply profile_setting_keys_distinct|].
    split; [done | congruence].
  - apply get_canonical_setting_key_from_None.
    intros k Hin. rewrite Heq.
    by apply (proj1 (get_canonical_setting_key_from_None key' profile_setting_keys) Hk).
Qed.

(** A canonical spelling is its own canonical spelling. *)
Lemma get_canonical_setting_key_fixed (key k : string) :
  get_canonical_setting_key key = Some k → get_canonical_setting_key k = Some k.
Proof.
  rewrite !get_canonical_setting_key_eq. intros Hk.
  apply get_canonical_setting_key_from_Some in Hk as [Hin Hl];
    [|apply profile_setting_keys_distinct].
  by apply get_canonical_setting_key_from_Some; [apply profile_setting_keys_distinct|].
Qed.

(** X1. Looking a key up is idempotent, and blind to case: the canonical
    spelling of a key is its own canonical spelling, an unrecognised key
    stays unrecognised, and a key and its lowered text get the same
    answer. *)
Theorem get_canonical_setting_key_idempotent (key : string) :
  get_canonical_setting_key key ≫= get_canonical_setting_key
  = get_canonical_setting_key key
  ∧ get_canonical_setting_key (c_lower key) = get_canonical_setting_key key.
Proof.
  split.
  - destruct (get_canonical_setting_key key) as [k|] eqn:Hk; [|done].
    by apply (get_canonical_setting_key_fixed key).
  - apply get_canonical_setting_key_lower, c_lower_idemp.
Qed.

(** The four ways [parse_feature] ends. *)
Lemma parse_feature_cases (feature_str : string) :
  (c_str feature_str = "procname" ∧ parse_feature feature_str = 0)
  ∨ (c_str feature_str = "dso" ∧ parse_feature feature_str = 1)
  ∨ (c_str feature_str = "true" ∧ parse_feature feature_str = 2)
  ∨ ((c_str feature_str ∉ rule_feature_identifiers) ∧ parse_feature feature_str = 0).
Proof.
  unfold parse_feature, rule_feature_identifiers. cbn [parse_feature_from].
  rewrite !strcmp_eqb.
  change (c_str "procname") with "procname". change (c_str "dso") with "dso".
  change (c_str "true") with "true".
  repeat case_bool_decide; auto.
  do 3 right. split; [|done].
  rewrite !not_elem_of_cons. repeat split; [done..|apply not_elem_of_nil].
Qed.

(** X2. The feature [parse_feature] gives is always an index of the table
    of identifiers, so the table can be read at it, and the identifier found
    there parses back to the same feature; every identifier of the table
    parses to its own index. *)
Theorem parse_feature_round_trip (feature_str : string) :
  0 <= parse_feature feature_str < NUM_RULE_FEATURES
  ∧ (∃ id, rule_feature_identifiers !! Z.to_nat (parse_feature feature_str) = Some id
           ∧ parse_feature id = parse_feature feature_str
           ∧ (c_str feature_str ∈ rule_feature_identifiers → id = c_str feature_str))
  ∧ (∀ (i : nat) id, rule_feature_identifiers !! i = Some id → parse_feature id = Z.of_nat i).
Proof.
  split; [|split].
  - destruct (parse_feature_cases feature_str) as [[_ ->]|[[_ ->]|[[_ ->]|[_ ->]]]]; done.
  - destruct (parse_feature_cases feature_str) as [[E ->]|[[E ->]|[[E ->]|[E ->]]]].
    + exists "procname". by rewrite E.
    + exists "dso". by rewrite E.
    + exists "true". by rewrite E.
    + exists "procname". repeat split. by intros Hin.
  - intros [|[|[|i]]] id [= <-]; reflexivity.
Qed.

Section MoreEngineProperties.
Context `{Jansson} `{GLib} `{AppProfileLib} `{JanssonUtf8} `{!RuleModelLib}.

(** ** The default search path, again *)

Lemma string_suffix_drop (a s t : string) :
  a +:+ s = t →
  list_ascii_of_string s
  = drop (length (list_ascii_of_string t) - length (list_ascii_of_string s))
      (list_ascii_of_string t).
Proof.
  intros <-. rewrite list_ascii_of_string_app, length_app.
  replace (_ + _ - _)%nat with (length (list_ascii_of_string a)) by lia.
  by rewrite drop_app_length.
Qed.

(** X3. Whatever HOME is, the default search path lists no file twice: the
    two files under the home directory differ from each other and from the
    two files under /etc/nvidia. *)
Theorem get_default_search_path_NoDup (w : World) : NoDup (get_default_search_path w).
Proof.
  unfold get_default_search_path, nvstrcat.
  destruct (getenv w "HOME") as [homeStr|]; cbn [app].
  2: { by apply (bool_decide_unpack (NoDup _)). }
  change (c_str "/.nv/nvidia-application-profiles-rc")
    with "/.nv/nvidia-application-profiles-rc".
  change (c_str "/.nv/nvidia-application-profiles-rc.d")
    with "/.nv/nvidia-application-profiles-rc.d".
  repeat (apply NoDup_cons; split); [..|apply NoDup_nil_2];
    rewrite ?not_elem_of_cons; repeat split; try apply not_elem_of_nil;
    intros E;
    try (apply string_suffix_drop in E; vm_compute in E; discriminate E).
  - apply (inj (String.append (c_str homeStr))) in E. discriminate E.
  - discriminate E.
Qed.

(** ** The result of the profile validation *)

Lemma string_app_eq_empty (a b : string) :
  a +:+ b = EmptyString ↔ a = EmptyString ∧ b = EmptyString.
Proof.
  destruct a as [|c a].
  - rewrite string_app_nil_l. by split; [|intros [_ ?]].
  - rewrite string_app_cons. by split; [|intros [? _]].
Qed.

(** The two error strings in closed form, when no key is missing. *)
Lemma edit_profile_dialog_errors_eq (dialog : EditProfileDialog.t) (unrecognized : bool) :
  check_unrecognized_setting_keys (EditProfileDialog.settings dialog) = Some unrecognized →
  edit_profile_dialog_errors dialog
  = Some
      ((if (nv_app_profile_config_check_valid_source_file
              (cur_config (EditProfileDialog.parent dialog))
              (EditProfileDialog.source_file dialog)).1 =? 0
        then source_file_error (EditProfileDialog.source_file dialog)
               (check_valid_source_file (EditProfileDialog.parent dialog)
                  (EditProfileDialog.source_file dialog)).2
        else EmptyString),
       (if bool_decide (c_str (EditProfileDialog.name dialog) = EmptyString)
        then empty_name_error else EmptyString)
       +:+ (if (EditProfileDialog.new_profile dialog
                || negb (bool_decide (c_str (EditProfileDialog.name dialog)
                                      = c_str (EditProfileDialog.orig_name dialog))))
               && bool_decide
                    (is_Some (ctk_apc_profile_model_get_profile
                                (apc_profile_model (EditProfileDialog.parent dialog))
                                (EditProfileDialog.name dialog)))
            then if EditProfileDialog.new_profile dialog
                 then overwrite_error (EditProfileDialog.name dialog)
                 else rename_error (EditProfileDialog.orig_name dialog)
                        (EditProfileDialog.name dialog)
            else EmptyString)
       +:+ (if unrecognized then unrecognized_keys_error else EmptyString)).
Proof.
  intros Hchk. unfold edit_profile_dialog_errors, check_valid_source_file.
  rewrite Hchk. cbn [mbind option_bind].
  destruct (nv_app_profile_config_check_valid_source_file _ _) as [r reason].
  rewrite !strcmp_eqb. change (c_str "") with EmptyString. cbn [fst snd].
  destruct (ctk_apc_profile_model_get_profile _ _) as [p|].
  - rewrite (bool_decide_eq_true_2 (is_Some (Some p))) by by eexists.
    destruct (bool_decide (c_str (EditProfileDialog.name dialog) = EmptyString)),
      (_ && _), (EditProfileDialog.new_profile dialog), (r =? 0), unrecognized;
      cbn [negb];
      rewrite ?string_app_nil_l, ?string_app_nil_r, ?string_app_assoc; reflexivity.
  - rewrite (bool_decide_eq_false_2 (is_Some None)) by by intros [? [=]].
    rewrite !andb_false_r.
    destruct (bool_decide (c_str (EditProfileDialog.name dialog) = EmptyString)),
      (r =? 0), unrecognized;
      cbn [negb];
      rewrite ?string_app_nil_l, ?string_app_nil_r, ?string_app_assoc; reflexivity.
Qed.

(** X4. A profile whose settings all have a string key is saved exactly
    when the library accepts its source file and, besides, either nothing is
    questionable (the name is not empty, no other profile is overwritten, no
    key is unrecognised) or the user answers yes: no answer gets a profile
    with a bad source file saved. *)
Theorem edit_profile_dialog_validate_result (result : Z) (dialog : EditProfileDialog.t) :
  Forall has_string_key (json_array_elems (EditProfileDialog.settings dialog)) →
  ∃ success,
    edit_profile_dialog_validate result dialog = Some success
    ∧ (success = true
       ↔ (nv_app_profile_config_check_valid_source_file
            (cur_config (EditProfileDialog.parent dialog))
            (EditProfileDialog.source_file dialog)).1 ≠ 0
         ∧ ((c_str (EditProfileDialog.name dialog) ≠ EmptyString
             ∧ ¬ (is_Some (ctk_apc_profile_model_get_profile
                             (apc_profile_model (EditProfileDialog.parent dialog))
                             (EditProfileDialog.name dialog))
                  ∧ (EditProfileDialog.new_profile dialog = true
                     ∨ c_str (EditProfileDialog.name dialog)
                       ≠ c_str (EditProfileDialog.orig_name dialog)))
             ∧ ¬ Exists has_unrecognized_key
                   (json_array_elems (EditProfileDialog.settings dialog)))
            ∨ result = GTK_RESPONSE_YES)).
Proof.
  intros Hkeys.
  destruct (check_unrecognized_setting_keys_from_spec _ Hkeys) as (unrec & Hchk & Hunrec).
  unfold edit_profile_dialog_validate.
  rewrite (edit_profile_dialog_errors_eq dialog unrec Hchk). cbn [mbind option_bind].
  eexists. split; [reflexivity|].
  rewrite run_error_dialog_success, !string_app_eq_empty.
  pose proof (source_file_error_nonempty (EditProfileDialog.source_file dialog)
                (check_valid_source_file (EditProfileDialog.parent dialog)
                   (EditProfileDialog.source_file dialog)).2) as Hsf.
  pose proof empty_name_error_nonempty as Hen.
  pose proof (overwrite_error_nonempty (EditProfileDialog.name dialog)) as Hov.
  pose proof (rename_error_nonempty (EditProfileDialog.orig_name dialog)
                (EditProfileDialog.name dialog)) as Hrn.
  pose proof unrecognized_keys_error_nonempty as Huk.
  rewrite <- Hunrec.
  set (cond := (_ || _) && _).
  assert (cond = true
          ↔ is_Some (ctk_apc_profile_model_get_profile
                       (apc_profile_model (EditProfileDialog.parent dialog))
                       (EditProfileDialog.name dialog))
            ∧ (EditProfileDialog.new_profile dialog = true
               ∨ c_str (EditProfileDialog.name dialog)
                 ≠ c_str (EditProfileDialog.orig_name dialog))) as Hcond.
  { subst cond.
    rewrite andb_true_iff, orb_true_iff, negb_true_iff, bool_decide_eq_false,
      bool_decide_eq_true. tauto. }
  rewrite <- Hcond.
  destruct (Z.eqb_spec
              (nv_app_profile_config_check_valid_source_file
                 (cur_config (EditProfileDialog.parent dialog))
                 (EditProfileDialog.source_file dialog)).1 0) as [Hr|Hr];
    case_bool_decide; destruct cond, (EditProfileDialog.new_profile dialog), unrec;
    intuition congruence.
Qed.

(** ** The Reload button *)

(** With nonfatal errors alone, the user's answer decides. *)
Lemma run_error_dialog_nonfatal (result : Z) (nonfatal_errors op_string : string) :
  nonfatal_errors ≠ EmptyString →
  (run_error_dialog result EmptyString nonfatal_errors op_string).2
  = (result =? GTK_RESPONSE_YES).
Proof.
  intros Hn. unfold run_error_dialog. rewrite !g_string_len_eqb.
  by destruct nonfatal_errors.
Qed.

(** X5. The Reload button reloads at once when the configuration has no
    unsaved change and the files were not altered; otherwise it reloads
    exactly when the user answers yes, and a refusal leaves the page and the
    files as they are. *)
Theorem reload_callback_policy (result : Z) (w : World) (ctk_app_profile : CtkAppProfile) :
  reload_callback result w ctk_app_profile
  = if negb ((0 <? json_array_size
                     (nv_app_profile_config_validate (cur_config ctk_app_profile)
                        (gold_config ctk_app_profile)))
             || nv_app_profile_config_check_backing_files (disk w)
                  (cur_config ctk_app_profile))
       || (result =? GTK_RESPONSE_YES)
    then ((app_profile_reload w ctk_app_profile).1,
          ctk_config_statusbar_message (app_profile_reload w ctk_app_profile).2
            "Application profile configuration reloaded from disk.")
    else (w, ctk_app_profile).
Proof.
  unfold reload_callback.
  destruct (0 <? _), (nv_app_profile_config_check_backing_files _ _); cbn [orb negb].
  1-3: rewrite run_error_dialog_nonfatal by discriminate;
    destruct (result =? GTK_RESPONSE_YES); [|done];
    by destruct (app_profile_reload w ctk_app_profile).
  change (run_error_dialog result "" "" "reload the configuration from disk").2 with true.
  by destruct (app_profile_reload w ctk_app_profile).
Qed.

End MoreEngineProperties.

(** ** The rows of the settings store *)

Section StoreProperties.
Context `{Jansson} `{GLib} `{AppProfileLib} `{JanssonUtf8} `{!RuleModelLib}.

Lemma members_get_set_ne (ms : list (string * json_t)) (key key' : string) (v : json_t) :
  key ≠ key' → members_get (members_set ms key v) key' = members_get ms key'.
Proof.
  intros Hne. induction ms as [|[k w] rest IH]; cbn.
  - by rewrite (proj2 (String.eqb_neq key key')).
  - destruct (String.eqb_spec k key) as [->|Hk]; cbn.
    + by rewrite (proj2 (String.eqb_neq key key')).
    + by rewrite IH.
Qed.

Lemma json_object_get_set_new_ne (o : json_t) (key key' : string) (v : json_t) :
  key ≠ key' → json_object_get (json_object_set_new o key v) key' = json_object_get o key'.
Proof.
  intros Hne. destruct o; try done. by apply members_get_set_ne.
Qed.

Lemma json_typeof_set_new (o : json_t) (key : string) (v : json_t) :
  json_typeof (json_object_set_new o key v) = json_typeof o.
Proof. by destruct o. Qed.

Lemma json_object_get_set_nullable_ne (o : json_t) (key key' : string) (v : option json_t) :
  key ≠ key' →
  json_object_get (json_object_set_new_nullable o key v) key' = json_object_get o key'.
Proof.
  intros Hne. destruct v; [by apply json_object_get_set_new_ne | done].
Qed.

Lemma json_typeof_set_nullable (o : json_t) (key : string) (v : option json_t) :
  json_typeof (json_object_set_new_nullable o key v) = json_typeof o.
Proof. destruct v; [apply json_typeof_set_new | done]. Qed.

Lemma c_str_idemp (s : string) : c_str (c_str s) = c_str s.
Proof.
  induction s as [|c r IH]; [done|]. cbn [c_str].
  destruct (N.eqb_spec (N_of_ascii c) 0) as [E|E]; [done|].
  cbn [c_str]. destruct (N.eqb_spec (N_of_ascii c) 0); [done|]. by rewrite IH.
Qed.

Lemma c_lower_c_str (s : string) : c_lower (c_str s) = c_lower s.
Proof.
  induction s as [|c r IH]; [done|]. cbn [c_str c_lower].
  destruct (N.eqb_spec (N_of_ascii c) 0) as [E|E]; [done|].
  cbn [c_lower]. destruct (N.eqb_spec (N_of_ascii c) 0); [done|]. by rewrite IH.
Qed.

(** A key edit that is cancelled, or whose row is gone, changes nothing. *)
Lemma setting_key_edited_dropped (path_s new_text : string) (dialog : EditProfileDialog.t) :
  EditProfileDialog.setting_update_canceled dialog = true
  ∨ gtk_tree_model_get_iter (EditProfileDialog.settings_store dialog)
      (gtk_tree_path_new_from_string path_s) = None →
  setting_key_edited path_s new_text dialog = dialog.
Proof.
  unfold setting_key_edited. intros [-> | ->]; [done|].
  by destruct (EditProfileDialog.setting_update_canceled dialog).
Qed.

(** A key edit that goes through. *)
Lemma setting_key_edited_live (path_s new_text : string) (dialog : EditProfileDialog.t)
    (iter : nat) (setting : json_t) :
  EditProfileDialog.setting_update_canceled dialog = false →
  gtk_tree_model_get_iter (EditProfileDialog.settings_store dialog)
    (gtk_tree_path_new_from_string path_s) = Some iter →
  EditProfileDialog.settings_store dialog !! iter = Some setting →
  EditProfileDialog.settings_store (setting_key_edited path_s new_text dialog)
  = <[iter := json_object_set_new_nullable setting "key"
                (json_string_of (default new_text (get_canonical_setting_key new_text)))]>
      (EditProfileDialog.settings_store dialog)
  ∧ EditProfileDialog.error_statusbar (setting_key_edited path_s new_text dialog)
    = match get_canonical_setting_key new_text with
      | Some _ => EditProfileDialog.error_statusbar dialog
      | None => unrecognized_key_message new_text :: EditProfileDialog.error_statusbar dialog
      end.
Proof.
  intros Hc Hi Hs. unfold setting_key_edited. rewrite Hc, Hi, Hs.
  by destruct (get_canonical_setting_key new_text).
Qed.

(** X6. An edit of a setting's key never touches a value: after it, every
    row holds the value it held before, and the store has as many rows.  When
    the edit goes through, it warns on the status bar exactly when the text
    is not a recognised key; a recognised key is stored in its canonical
    spelling and an unrecognised one as typed (when jansson takes the text
    for a string), so the row is one the validation will flag exactly when
    the edit warned.  A cancelled edit, or one whose row is gone, changes
    nothing. *)
Theorem setting_key_edited_spec (path_s new_text : string) (dialog : EditProfileDialog.t) :
  (∀ row,
     stored_value
       (EditProfileDialog.settings_store (setting_key_edited path_s new_text dialog)) row
     = stored_value (EditProfileDialog.settings_store dialog) row)
  ∧ length (EditProfileDialog.settings_store (setting_key_edited path_s new_text dialog))
    = length (EditProfileDialog.settings_store dialog)
  ∧ (EditProfileDialog.setting_update_canceled dialog = false →
     ∀ iter setting,
       gtk_tree_model_get_iter (EditProfileDialog.settings_store dialog)
         (gtk_tree_path_new_from_string path_s) = Some iter →
       EditProfileDialog.settings_store dialog !! iter = Some setting →
       let stored := default new_text (get_canonical_setting_key new_text) in
       (EditProfileDialog.error_statusbar (setting_key_edited path_s new_text dialog)
        ≠ EditProfileDialog.error_statusbar dialog
        ↔ get_canonical_setting_key new_text = None)
       ∧ (json_typeof setting = JSON_OBJECT →
          utf8_check_string (c_str stored) = true →
          ∃ setting',
            EditProfileDialog.settings_store (setting_key_edited path_s new_text dialog)
              !! iter = Some setting'
            ∧ json_object_get setting' "key" = Some (json_string (c_str stored))
            ∧ (is_Some (get_canonical_setting_key new_text) →
               c_str stored ∈ profile_setting_keys)
            ∧ (has_unrecognized_key setting'
               ↔ get_canonical_setting_key new_text = None)))
  ∧ (EditProfileDialog.setting_update_canceled dialog = true
     ∨ gtk_tree_model_get_iter (EditProfileDialog.settings_store dialog)
         (gtk_tree_path_new_from_string path_s) = None →
     setting_key_edited path_s new_text dialog = dialog).
Proof.
  assert (∀ row,
            stored_value
              (EditProfileDialog.settings_store (setting_key_edited path_s new_text dialog))
              row
            = stored_value (EditProfileDialog.settings_store dialog) row
            ∧ length (EditProfileDialog.settings_store
                        (setting_key_edited path_s new_text dialog))
              = length (EditProfileDialog.settings_store dialog)) as Hframe.
  { intros row.
    destruct (EditProfileDialog.setting_update_canceled dialog) eqn:Hc.
    { by rewrite setting_key_edited_dropped by by left. }
    destruct (gtk_tree_model_get_iter (EditProfileDialog.settings_store dialog)
                (gtk_tree_path_new_from_string path_s)) as [iter|] eqn:Hi.
    2: { by rewrite setting_key_edited_dropped by by right. }
    destruct (gtk_tree_model_get_iter_Some _ _ _ Hi) as [setting Hs].
    destruct (setting_key_edited_live path_s new_text dialog iter setting Hc Hi Hs)
      as [-> _].
    rewrite length_insert. split; [|done]. unfold stored_value.
    destruct (decide (iter = row)) as [<-|Hne].
    - rewrite list_lookup_insert_eq by (by apply lookup_lt_is_Some; eexists).
      rewrite Hs. cbn. by apply json_object_get_set_nullable_ne.
    - by rewrite list_lookup_insert_ne. }
  split; [intros row; apply Hframe|]. split; [apply (Hframe 0%nat)|].
  split; [|apply setting_key_edited_dropped].
  intros Hc iter setting Hi Hs stored.
  destruct (setting_key_edited_live path_s new_text dialog iter setting Hc Hi Hs)
    as [Hstore Hbar].
  split.
  - rewrite Hbar. destruct (get_canonical_setting_key new_text).
    + split; [done | intros [=]].
    + split; [done|]. intros _ E.
      apply (f_equal length) in E. cbn in E. lia.
  - intros Hobj Hutf. eexists. rewrite Hstore.
    split; [apply list_lookup_insert_eq; by apply lookup_lt_is_Some; eexists|].
    assert (json_string_of stored = Some (json_string (c_str stored))) as Hjs.
    { unfold json_string_of. by rewrite Hutf. }
    fold stored. rewrite Hjs. cbn [json_object_set_new_nullable].
    assert (json_object_get (json_object_set_new setting "key" (json_string (c_str stored)))
              "key" = Some (json_string (c_str stored))) as Hget
      by by apply json_object_get_set_new.
    split; [done|].
    assert (get_canonical_setting_key (c_str stored) = get_canonical_setting_key stored)
      as Hcs by apply get_canonical_setting_key_lower, c_lower_c_str.
    split.
    + intros [k Hk]. subst stored. rewrite Hk. cbn [default].
      rewrite get_canonical_setting_key_eq in Hk.
      apply get_canonical_setting_key_from_Some in Hk as [Hin _];
        [|apply profile_setting_keys_distinct].
      rewrite c_str_id; [done|].
      assert (Forall (λ s, Ascii.zero ∉ list_ascii_of_string s) profile_setting_keys)
        as Hall by (apply (bool_decide_unpack (Forall _ _)); by vm_compute).
      by apply (proj1 (Forall_forall _ _) Hall).
    + unfold has_unrecognized_key. rewrite Hget. cbn [json_string_value].
      split.
      * intros (key & [= <-] & Hnone). rewrite Hcs in Hnone. subst stored.
        destruct (get_canonical_setting_key new_text) as [k|] eqn:Hk; [|done].
        change (get_canonical_setting_key k = None) in Hnone.
        apply get_canonical_setting_key_fixed in Hk. congruence.
      * intros Hnone. eexists. split; [done|]. rewrite Hcs. subst stored.
        by rewrite Hnone.
Qed.

Lemma well_formed_setting_set_key (setting : json_t) (v : option json_t) :
  (∀ j, v = Some j → json_typeof j = JSON_STRING) →
  well_formed_setting setting →
  well_formed_setting (json_object_set_new_nullable setting "key" v).
Proof.
  intros Hv Hwf. destruct v as [j|]; [|exact Hwf].
  destruct Hwf as (Hobj & Hkey & value & Hvalue & Hlegal).
  cbn [json_object_set_new_nullable].
  split; [by rewrite json_typeof_set_new|]. split.
  - unfold has_string_key. rewrite json_object_get_set_new by done.
    specialize (Hv j eq_refl). by destruct j.
  - exists value. by rewrite json_object_get_set_new_ne.
Qed.

Lemma well_formed_setting_set_value (setting value : json_t) :
  legal_setting_type (json_typeof value) →
  well_formed_setting setting →
  well_formed_setting (json_object_set_new setting "value" value).
Proof.
  intros Hlegal (Hobj & Hkey & _).
  split; [by rewrite json_typeof_set_new|]. split.
  - unfold has_string_key. by rewrite json_object_get_set_new_ne.
  - exists value. by rewrite json_object_get_set_new.
Qed.

Lemma json_string_of_type (value : string) (j : json_t) :
  json_string_of value = Some j → json_typeof j = JSON_STRING.
Proof.
  unfold json_string_of. destruct (utf8_check_string _); [|done]. by intros [= <-].
Qed.

(** The rows after a key edit, whatever becomes of it. *)
Lemma setting_key_edited_well_formed (path_s new_text : string)
    (dialog : EditProfileDialog.t) :
  Forall well_formed_setting (EditProfileDialog.settings_store dialog) →
  Forall well_formed_setting
    (EditProfileDialog.settings_store (setting_key_edited path_s new_text dialog)).
Proof.
  intros Hall.
  destruct (EditProfileDialog.setting_update_canceled dialog) eqn:Hc.
  { by rewrite setting_key_edited_dropped by by left. }
  destruct (gtk_tree_model_get_iter (EditProfileDialog.settings_store dialog)
              (gtk_tree_path_new_from_string path_s)) as [iter|] eqn:Hi.
  2: { by rewrite setting_key_edited_dropped by by right. }
  destruct (gtk_tree_model_get_iter_Some _ _ _ Hi) as [setting Hs].
  destruct (setting_key_edited_live path_s new_text dialog iter setting Hc Hi Hs)
    as [-> _].
  apply Forall_insert; [done|].
  apply well_formed_setting_set_key; [apply json_string_of_type|].
  by apply (Forall_lookup_1 _ _ _ _ Hall Hs).
Qed.

(** The rows after a value edit, whatever becomes of it. *)
Lemma setting_value_edited_well_formed (path_s new_text : string)
    (dialog : EditProfileDialog.t) :
  Forall well_formed_setting (EditProfileDialog.settings_store dialog) →
  Forall well_formed_setting
    (EditProfileDialog.settings_store (setting_value_edited path_s new_text dialog)).
Proof.
  intros Hall.
  destruct (EditProfileDialog.setting_update_canceled dialog) eqn:Hc.
  { by rewrite setting_value_edited_dropped by by left. }
  destruct (gtk_tree_model_get_iter (EditProfileDialog.settings_store dialog)
              (gtk_tree_path_new_from_string path_s)) as [iter|] eqn:Hi.
  2: { by rewrite setting_value_edited_dropped by by right. }
  destruct (gtk_tree_model_get_iter_Some _ _ _ Hi) as [setting Hs].
  destruct (setting_value_edited_live path_s new_text dialog iter setting Hc Hi Hs)
    as [-> _].
  apply Forall_insert; [done|].
  apply well_formed_setting_set_value; [apply edit_outcome_legal|].
  by apply (Forall_lookup_1 _ _ _ _ Hall Hs).
Qed.

(** With the flag set, the edit in progress is dropped. *)
Lemma gtk_window_set_focus_NULL_canceled (pending : option pending_edit)
    (dialog : EditProfileDialog.t) :
  EditProfileDialog.setting_update_canceled dialog = true →
  gtk_window_set_focus_NULL pending dialog = dialog.
Proof.
  intros Hc. destruct pending as [[path_s new_text|path_s new_text]|]; cbn; [| |done].
  - apply setting_key_edited_dropped. by left.
  - apply setting_value_edited_dropped. by left.
Qed.

(** The deletion in closed form. *)
Lemma edit_profile_dialog_delete_setting_common_eq (pending : option pending_edit)
    (cursor : option (list Z)) (dialog : EditProfileDialog.t) :
  edit_profile_dialog_delete_setting_common pending cursor dialog
  = match gtk_tree_model_get_iter (EditProfileDialog.settings_store dialog) cursor with
    | None => Some (set_setting_update_canceled dialog false, cursor)
    | Some iter =>
        let store := delete iter (EditProfileDialog.settings_store dialog) in
        path ← choose_next_row_in_list_view (Z.of_nat (length store)) (default [] cursor);
        Some (set_settings_store (set_setting_update_canceled dialog false) store,
              Some path)
    end.
Proof.
  unfold edit_profile_dialog_delete_setting_common.
  rewrite gtk_window_set_focus_NULL_canceled by done.
  destruct cursor as [path|]; [|done]. cbn [default].
  change (EditProfileDialog.settings_store
            (set_setting_update_canceled (set_setting_update_canceled dialog true) false))
    with (EditProfileDialog.settings_store dialog).
  by destruct (gtk_tree_model_get_iter _ _).
Qed.

(** X7. Deleting a setting removes the row under the cursor and nothing
    else, even while a cell is being edited: the edit in progress is dropped
    without a message, the other rows keep their place and content, and the
    flag that drops edits is lowered again.  The cursor goes to the row that
    followed the deleted one, or to the new last row when the last row was
    deleted, so it is on a row of the store whenever a row is left.  Without
    a cursor on a row, nothing is deleted. *)
Theorem edit_profile_dialog_delete_setting_spec (pending : option pending_edit)
    (index : Z) (dialog : EditProfileDialog.t) :
  let store := EditProfileDialog.settings_store dialog in
  let n := Z.of_nat (length store) in
  (0 <= index < n →
   ∃ dialog' index',
     edit_profile_dialog_delete_setting_common pending (Some [index]) dialog
     = Some (dialog', Some [index'])
     ∧ EditProfileDialog.settings_store dialog' = delete (Z.to_nat index) store
     ∧ (∀ row, (row < Z.to_nat index)%nat →
               EditProfileDialog.settings_store dialog' !! row = store !! row)
     ∧ (∀ row, (Z.to_nat index <= row)%nat →
               EditProfileDialog.settings_store dialog' !! row = store !! S row)
     ∧ EditProfileDialog.error_statusbar dialog' = EditProfileDialog.error_statusbar dialog
     ∧ EditProfileDialog.setting_update_canceled dialog' = false
     ∧ index' = (if (0 <? n - 1) && (index =? n - 1) then n - 2 else index)
     ∧ (1 < n → 0 <= index' < n - 1))
  ∧ (∀ cursor,
       gtk_tree_model_get_iter store cursor = None →
       edit_profile_dialog_delete_setting_common pending cursor dialog
       = Some (set_setting_update_canceled dialog false, cursor)).
Proof.
  intros store n. split.
  - intros Hindex.
    rewrite edit_profile_dialog_delete_setting_common_eq. fold store.
    assert (gtk_tree_model_get_iter store (Some [index]) = Some (Z.to_nat index)) as ->.
    { unfold gtk_tree_model_get_iter. fold n.
      rewrite (proj2 (Z.leb_le 0 index)), (proj2 (Z.ltb_lt index n)) by lia. done. }
    cbv zeta. change (default [] (Some [index])) with [index].
    assert (Z.of_nat (length (delete (Z.to_nat index) store)) = n - 1) as ->.
    { rewrite length_delete; [lia|]. apply lookup_lt_is_Some. lia. }
    exists (set_settings_store (set_setting_update_canceled dialog false)
              (delete (Z.to_nat index) store)),
      (if (0 <? n - 1) && (index =? n - 1) then n - 2 else index).
    split.
    { unfold choose_next_row_in_list_view.
      destruct ((0 <? n - 1) && (index =? n - 1)); cbn; [|done].
      by replace (n - 1 - 1) with (n - 2) by lia. }
    split; [done|].
    split; [intros row Hrow; by apply list_lookup_delete_lt|].
    split; [intros row Hrow; by apply list_lookup_delete_ge|].
    split; [done|]. split; [done|]. split; [done|].
    intros Hn. destruct (Z.ltb_spec 0 (n - 1)), (Z.eqb_spec index (n - 1)); cbn; lia.
  - intros cursor Hnone.
    rewrite edit_profile_dialog_delete_setting_common_eq. fold store. by rewrite Hnone.
Qed.

(** What the type column shows for a legal value. *)
Lemma setting_type_renderer_func_legal (setting value : json_t) :
  json_object_get setting "value" = Some value →
  is_Some (setting_type_renderer_func setting)
  ↔ legal_setting_type (json_typeof value).
Proof.
  intros Hv. unfold setting_type_renderer_func, legal_setting_type. rewrite Hv. cbn.
  destruct (json_typeof value); split; intros Hx; try (by eexists);
    try (destruct Hx as [? [=]]); intuition congruence.
Qed.

(** X8. The two edit handlers, the adding and the deleting of a row keep
    the rows of the settings store well formed: objects with a string key
    and a value of a legal type (a new row has the empty key and the value
    false).  On such rows the type column never runs into its assertion, and
    the validation of the profile, which reads the rows back into the array
    of the dialog, never reads a key that is missing. *)
Theorem settings_store_well_formed (dialog : EditProfileDialog.t) :
  Forall well_formed_setting (EditProfileDialog.settings_store dialog) →
  (∀ path_s new_text,
     Forall well_formed_setting
       (EditProfileDialog.settings_store (setting_key_edited path_s new_text dialog)))
  ∧ (∀ path_s new_text,
       Forall well_formed_setting
         (EditProfileDialog.settings_store (setting_value_edited path_s new_text dialog)))
  ∧ (utf8_check_string EmptyString = true →
     Forall well_formed_setting
       (EditProfileDialog.settings_store (edit_profile_dialog_add_setting dialog).1))
  ∧ (∀ pending cursor dialog' cursor',
       edit_profile_dialog_delete_setting_common pending cursor dialog
       = Some (dialog', cursor') →
       Forall well_formed_setting (EditProfileDialog.settings_store dialog'))
  ∧ Forall (λ setting, is_Some (setting_type_renderer_func setting))
      (EditProfileDialog.settings_store dialog)
  ∧ (∀ result,
       json_typeof (EditProfileDialog.settings dialog) = JSON_ARRAY →
       is_Some (edit_profile_dialog_validate result
                  (edit_profile_dialog_update_settings dialog))).
Proof.
  intros Hall.
  split; [intros; by apply setting_key_edited_well_formed|].
  split; [intros; by apply setting_value_edited_well_formed|].
  split; [|split; [|split]].
  - intros Hutf. unfold edit_profile_dialog_add_setting, edit_profile_dialog_settings_new_row.
    cbn [fst EditProfileDialog.settings_store set_settings_store].
    apply Forall_app. split; [done|]. apply Forall_singleton.
    unfold json_string_of. change (c_str "") with EmptyString. rewrite Hutf.
    split; [done|]. split; [by eexists|]. exists json_false. split; [done|].
    unfold legal_setting_type. cbn. tauto.
  - intros pending cursor dialog' cursor'.
    rewrite edit_profile_dialog_delete_setting_common_eq.
    destruct (gtk_tree_model_get_iter _ _) as [iter|].
    + cbv zeta. destruct (choose_next_row_in_list_view _ _); [|done].
      intros [= <- _]. by apply Forall_delete.
    + by intros [= <- _].
  - eapply Forall_impl; [exact Hall|].
    intros setting (_ & _ & value & Hvalue & Hlegal).
    by apply (setting_type_renderer_func_legal setting value).
  - intros result Harray. unfold edit_profile_dialog_update_settings.
    destruct (EditProfileDialog.settings dialog) as [|elems| | | | | |]; try done.
    assert (Forall has_string_key (EditProfileDialog.settings_store dialog)) as Hkeys.
    { eapply Forall_impl; [exact Hall|]. by intros setting (_ & Hkey & _). }
    destruct (check_unrecognized_setting_keys_from_spec _ Hkeys) as (unrec & Hchk & _).
    unfold edit_profile_dialog_validate.
    rewrite (edit_profile_dialog_errors_eq _ unrec); [by eexists|].
    exact Hchk.
Qed.

End StoreProperties.

(** ** Moving between the cells with Tab *)

Section TabProperties.
Variable tree_view : TreeView.
Variable dx : Z.
Hypothesis dx_step : dx = 1 ∨ dx = -1.

Let column_count : Z := Z.of_nat (length (columns tree_view)).
Hypothesis some_column : 1 <= column_count.

Lemma next_cell_S (fuel : nat) (row_idx column_idx : Z) :
  next_cell (S fuel) tree_view dx row_idx column_idx
  = let cell := cell_after tree_view dx (row_idx, column_idx) in
    if negb (tree_view_column_is_editable (gtk_tree_view_get_column tree_view cell.2))
       && (0 <=? cell.1) && (cell.1 <? row_count tree_view)
    then next_cell fuel tree_view dx cell.1 cell.2
    else Returns cell.
Proof.
  cbn [next_cell]. fold column_count.
  rewrite (proj2 (Z.leb_le 1 column_count)) by done. cbn [negb].
  unfold cell_after. cbv zeta. fold column_count. cbn [fst snd].
  destruct (column_idx + dx <? 0); [done|].
  by destruct (column_count <=? column_idx + dx).
Qed.

Lemma cell_after_column (cell : Z * Z) :
  -1 <= cell.2 < column_count → 0 <= (cell_after tree_view dx cell).2 < column_count.
Proof.
  intros Hc. unfold cell_after. cbv zeta. fold column_count.
  destruct (Z.ltb_spec (cell.2 + dx) 0); cbn; [lia|].
  destruct (Z.leb_spec column_count (cell.2 + dx)); cbn; lia.
Qed.

Lemma cells_left_nonneg (cell : Z * Z) :
  0 <= cell.2 < column_count → 0 <= cells_left tree_view dx cell.
Proof.
  intros Hc. unfold cells_left. cbv zeta. fold column_count.
  destruct (Z.leb_spec 0 cell.1), (Z.ltb_spec cell.1 (row_count tree_view)); cbn; try lia.
  destruct (Z.eqb_spec dx 1); nia.
Qed.

Lemma cells_left_in_rows (cell : Z * Z) :
  0 <= cell.2 < column_count →
  0 <= cell.1 < row_count tree_view →
  1 <= cells_left tree_view dx cell <= row_count tree_view * column_count.
Proof.
  intros Hc Hr. unfold cells_left. cbv zeta. fold column_count.
  rewrite (proj2 (Z.leb_le 0 cell.1)), (proj2 (Z.ltb_lt cell.1 _)) by lia. cbn.
  destruct (Z.eqb_spec dx 1); nia.
Qed.

(** A turn of the loop from a cell of the rows brings the end nearer. *)
Lemma cells_left_decreases (cell : Z * Z) :
  0 <= cell.2 < column_count →
  0 <= cell.1 < row_count tree_view →
  cells_left tree_view dx (cell_after tree_view dx cell) < cells_left tree_view dx cell.
Proof.
  intros Hc Hr.
  pose proof (cells_left_in_rows cell Hc Hr) as Hin.
  pose proof (cell_after_column cell ltac:(lia)) as Hc'.
  destruct (decide (0 <= (cell_after tree_view dx cell).1 < row_count tree_view)) as [Hr'|Hr'].
  - revert Hin Hc' Hr'. unfold cells_left, cell_after. cbv zeta. fold column_count.
    rewrite (proj2 (Z.leb_le 0 cell.1)), (proj2 (Z.ltb_lt cell.1 _)) by lia.
    cbn [andb]. destruct dx_step as [-> | ->]; cbn [Z.eqb Pos.eqb].
    + destruct (Z.ltb_spec (cell.2 + 1) 0); [lia|].
      destruct (Z.leb_spec column_count (cell.2 + 1)); cbn [fst snd]; intros Hin Hc' Hr'.
      * rewrite (proj2 (Z.leb_le 0 (cell.1 + 1))), (proj2 (Z.ltb_lt (cell.1 + 1) _)) by lia.
        cbn. nia.
      * rewrite (proj2 (Z.leb_le 0 cell.1)), (proj2 (Z.ltb_lt cell.1 _)) by lia.
        cbn. lia.
    + destruct (Z.ltb_spec (cell.2 + -1) 0); cbn [fst snd]; intros Hin Hc' Hr'.
      * rewrite (proj2 (Z.leb_le 0 (cell.1 - 1))), (proj2 (Z.ltb_lt (cell.1 - 1) _)) by lia.
        cbn. nia.
      * destruct (Z.leb_spec column_count (cell.2 + -1)); [lia|]. cbn [fst snd] in *.
        rewrite (proj2 (Z.leb_le 0 cell.1)), (proj2 (Z.ltb_lt cell.1 _)) by lia.
        cbn. lia.
  - assert (cells_left tree_view dx (cell_after tree_view dx cell) = 0) as ->; [|lia].
    unfold cells_left. cbv zeta. fold column_count.
    destruct (Z.leb_spec 0 (cell_after tree_view dx cell).1),
      (Z.ltb_spec (cell_after tree_view dx cell).1 (row_count tree_view)); cbn; lia.
Qed.

(** The loop ends, with the same cell for every fuel that is enough: on an
    editable column, or out of the rows. *)
Lemma next_cell_returns (m : nat) (row_idx column_idx : Z) :
  -1 <= column_idx < column_count →
  cells_left tree_view dx (cell_after tree_view dx (row_idx, column_idx)) <= Z.of_nat m →
  ∃ cell,
    (∀ fuel, (m < fuel)%nat → next_cell fuel tree_view dx row_idx column_idx = Returns cell)
    ∧ 0 <= cell.2 < column_count
    ∧ (0 <= cell.1 < row_count tree_view →
       tree_view_column_is_editable (gtk_tree_view_get_column tree_view cell.2) = true).
Proof.
  revert row_idx column_idx. induction m as [|m IH]; intros row_idx column_idx Hc Hm.
  - pose proof (cell_after_column (row_idx, column_idx) Hc) as Hc'.
    exists (cell_after tree_view dx (row_idx, column_idx)). split; [|split; [done|]].
    + intros [|fuel] Hfuel; [lia|]. rewrite next_cell_S. cbv zeta.
      destruct (decide (0 <= (cell_after tree_view dx (row_idx, column_idx)).1
                        < row_count tree_view))
        as [Hr|Hr].
      * pose proof (cells_left_in_rows _ Hc' Hr). lia.
      * destruct (Z.leb_spec 0 (cell_after tree_view dx (row_idx, column_idx)).1),
          (Z.ltb_spec (cell_after tree_view dx (row_idx, column_idx)).1 (row_count tree_view));
          rewrite ?andb_false_r; try done; lia.
    + intros Hr. pose proof (cells_left_in_rows _ Hc' Hr). lia.
  - pose proof (cell_after_column (row_idx, column_idx) Hc) as Hc'.
    set (cell := cell_after tree_view dx (row_idx, column_idx)) in *.
    destruct (negb (tree_view_column_is_editable (gtk_tree_view_get_column tree_view cell.2))
              && (0 <=? cell.1) && (cell.1 <? row_count tree_view)) eqn:Hcont.
    + apply andb_true_iff in Hcont as [Hcont ?%Z.ltb_lt].
      apply andb_true_iff in Hcont as [Hne ?%Z.leb_le].
      destruct (IH cell.1 cell.2) as (cell' & Hrun & Hprops); [lia| |].
      { pose proof (cells_left_decreases cell Hc' ltac:(lia)) as Hdec.
        destruct cell as [r c]. cbn [fst snd] in *. lia. }
      exists cell'. split; [|done].
      intros [|fuel] Hfuel; [lia|]. rewrite next_cell_S. cbv zeta. fold cell.
      rewrite Hne, (proj2 (Z.leb_le 0 cell.1)), (proj2 (Z.ltb_lt cell.1 _)) by lia.
      cbn [andb]. apply Hrun. lia.
    + exists cell. split; [|split; [done|]].
      * intros [|fuel] Hfuel; [lia|]. rewrite next_cell_S. cbv zeta. fold cell.
        by rewrite Hcont.
      * intros Hr.
        rewrite (proj2 (Z.leb_le 0 cell.1)), (proj2 (Z.ltb_lt cell.1 _)),
          !andb_true_r in Hcont by lia.
        by apply negb_false_iff in Hcont.
Qed.

End TabProperties.

Lemma cell_renderers_editable_spec (renderers : list bool) (editable : bool) :
  cell_renderers_editable renderers editable = true ↔ editable = true ∨ true ∈ renderers.
Proof.
  revert editable. induction renderers as [|this_editable rest IH]; intros editable; cbn.
  - split; [by left|]. intros [? | Hin]; [done|]. by apply elem_of_nil in Hin.
  - rewrite IH, elem_of_cons. destruct editable, this_editable; intuition congruence.
Qed.

(** X9. For [tree_view_column_is_editable] and [cell_renderer_editable]: a
    column is editable exactly when one of its cell renderers is; no column at all
    is not editable. *)
Theorem tree_view_column_is_editable_spec (tree_column : option (list bool)) :
  tree_view_column_is_editable tree_column = true
  ↔ ∃ renderers, tree_column = Some renderers ∧ true ∈ renderers.
Proof.
  unfold tree_view_column_is_editable. rewrite cell_renderers_editable_spec.
  destruct tree_column as [renderers|]; cbn.
  - split.
    + intros [? | Hin]; [done|]. by exists renderers.
    + intros (? & [= <-] & Hin). by right.
  - split.
    + intros [? | Hin]; [done|]. by apply elem_of_nil in Hin.
    + by intros (? & ? & ?).
Qed.

Lemma column_is_editable_lookup (tree_view : TreeView) (column_idx : Z) :
  tree_view_column_is_editable (gtk_tree_view_get_column tree_view column_idx) = true →
  ∃ renderers, columns tree_view !! Z.to_nat column_idx = Some renderers ∧ true ∈ renderers.
Proof.
  unfold tree_view_column_is_editable. rewrite cell_renderers_editable_spec.
  intros [? | Hin]; [done|]. unfold gtk_tree_view_get_column in Hin.
  destruct (column_idx <? 0); [by apply elem_of_nil in Hin|].
  destruct (columns tree_view !! Z.to_nat column_idx) as [renderers|];
    [by exists renderers | by apply elem_of_nil in Hin].
Qed.

Lemma cursor_column_idx_range (tree_view : TreeView) :
  -1 <= (tree_view_get_cursor_path_and_column_idx tree_view).1.2
     < Z.of_nat (length (columns tree_view)).
Proof.
  unfold tree_view_get_cursor_path_and_column_idx. cbn [fst snd].
  destruct (focus_column tree_view) as [i|]; [|lia].
  destruct (Nat.ltb_spec i (length (columns tree_view))); lia.
Qed.

(** X10. For the [do ... while] of the Tab key in
    [cell_renderer_widget_key_press_event]: with the cursor on a row of a
    view that has a column, Tab and Shift-Tab end, the key is consumed, and
    the same result comes out for every fuel above rows times columns; the
    cursor is set only on a row of the model and on a column with an
    editable renderer, and it is left where it was when no column is
    editable. *)
Theorem tab_key_reaches_editable_cell (event : GdkEventKey) (tree_view : TreeView)
    (row_idx : Z) :
  event_type event = GDK_KEY_PRESS →
  keyval event = GDK_Tab ∨ keyval event = GDK_ISO_Left_Tab →
  cursor_path tree_view = Some [row_idx] →
  columns tree_view ≠ [] →
  ∃ cursor,
    (∀ fuel,
       (Z.to_nat (row_count tree_view * Z.of_nat (length (columns tree_view))) < fuel)%nat →
       cell_renderer_widget_key_press_event fuel event tree_view = Returns (true, cursor))
    ∧ (∀ cell, cursor = Some cell →
         0 <= cell.1 < row_count tree_view
         ∧ ∃ renderers,
             columns tree_view !! Z.to_nat cell.2 = Some renderers ∧ true ∈ renderers)
    ∧ (Forall (λ renderers, true ∉ renderers) (columns tree_view) → cursor = None).
Proof.
  intros Hty Hkey Hpath Hcols.
  set (dx := if negb (Z.land (state event) GDK_SHIFT_MASK =? 0) then -1 else 1).
  assert (dx = 1 ∨ dx = -1) as Hdx.
  { unfold dx. destruct (negb _); [by right | by left]. }
  assert (1 <= Z.of_nat (length (columns tree_view))) as Hcount.
  { destruct (columns tree_view); [done | cbn [length]; lia]. }
  pose proof (cursor_column_idx_range tree_view) as Hidx.
  set (column_idx := (tree_view_get_cursor_path_and_column_idx tree_view).1.2) in *.
  set (m := Z.to_nat (row_count tree_view * Z.of_nat (length (columns tree_view)))).
  destruct (next_cell_returns tree_view dx Hdx Hcount m row_idx column_idx Hidx)
    as (cell & Hrun & Hcol & Hedit).
  { pose proof (cell_after_column tree_view dx Hcount (row_idx, column_idx) Hidx) as Hc'.
    destruct (decide (0 <= (cell_after tree_view dx (row_idx, column_idx)).1
                      < row_count tree_view)) as [Hr|Hr].
    - pose proof (cells_left_in_rows tree_view dx Hdx Hcount _ Hc' Hr). unfold m. nia.
    - unfold cells_left.
      destruct (Z.leb_spec 0 (cell_after tree_view dx (row_idx, column_idx)).1),
        (Z.ltb_spec (cell_after tree_view dx (row_idx, column_idx)).1
           (row_count tree_view)); cbn; lia. }
  assert (∀ fuel, (m < fuel)%nat →
          cell_renderer_widget_key_press_event fuel event tree_view
          = Returns (true, if (0 <=? cell.1) && (cell.1 <? row_count tree_view)
                           then Some cell else None)) as Hev.
  { intros fuel Hfuel. unfold cell_renderer_widget_key_press_event.
    rewrite Hty, Z.eqb_refl.
    replace ((keyval event =? GDK_Tab) || (keyval event =? GDK_ISO_Left_Tab)) with true
      by (destruct Hkey as [-> | ->]; by rewrite Z.eqb_refl, ?orb_true_r).
    cbv beta iota zeta. fold dx.
    replace (negb (dx =? 0)) with true by (by destruct Hdx as [-> | ->]).
    cbn [orb]. unfold tree_view_get_cursor_path_and_column_idx in *. cbn [fst snd] in *.
    rewrite Hpath. fold column_idx. rewrite (Hrun fuel Hfuel).
    destruct cell as [r c]. cbn [fst snd].
    by destruct ((0 <=? r) && (r <? row_count tree_view)). }
  assert (∀ cell', (if (0 <=? cell.1) && (cell.1 <? row_count tree_view)
                    then Some cell else None) = Some cell' →
          0 <= cell'.1 < row_count tree_view
          ∧ ∃ renderers,
              columns tree_view !! Z.to_nat cell'.2 = Some renderers ∧ true ∈ renderers)
    as Hset.
  { intros cell' Hcell'.
    destruct (Z.leb_spec 0 cell.1), (Z.ltb_spec cell.1 (row_count tree_view));
      cbn in Hcell'; try done.
    injection Hcell' as <-. split; [lia|].
    apply column_is_editable_lookup, Hedit. lia. }
  eexists. split; [exact Hev|]. split; [exact Hset|].
  intros Hnone.
  destruct (if (0 <=? cell.1) && (cell.1 <? row_count tree_view) then Some cell else None)
    as [cell'|] eqn:Hcursor; [|done].
  destruct (Hset cell' eq_refl) as (_ & renderers & Hlook & Hin).
  rewrite Forall_forall in Hnone. apply list_elem_of_lookup_2 in Hlook.
  by destruct (Hnone renderers Hlook).
Qed.

(** ** What the lists show *)



Section ListProperties.
Context `{Jansson} `{GLib} `{AppProfileLib}.




End ListProperties.

Lemma get_update_filenames_from_spec (updates : list json_t) (update_filenames : list string) :
  get_update_filenames_from updates update_filenames
  = (names ← mapM update_filename updates;
     Some (reverse (c_str <$> names) ++ update_filenames)%list).
Proof.
  revert update_filenames. induction updates as [|update rest IH]; intros acc; [done|].
  cbn [get_update_filenames_from mapM].
  change (json_string_value (json_object_get update "filename"))
    with (update_filename update).
  destruct (update_filename update) as [name|]; [|done].
  cbn [mbind option_bind]. rewrite IH.
  destruct (mapM update_filename rest) as [names|]; [|done].
  cbn [mbind option_bind mret option_ret fmap list_fmap].
  by rewrite reverse_cons, <- app_assoc.
Qed.

(** X12. For [get_update_filenames]: the list of the files to preview holds the
    file names of the updates in reverse order, one for each update, copies
    included; there is no list when an update has no string under
    [filename]. *)
Theorem get_update_filenames_spec (updates : json_t) :
  get_update_filenames updates
  = (names ← mapM update_filename (json_array_elems updates);
     Some (reverse (c_str <$> names)))
  ∧ (∀ update_filenames, get_update_filenames updates = Some update_filenames →
       length update_filenames = length (json_array_elems updates)).
Proof.
  assert (get_update_filenames updates
          = (names ← mapM update_filename (json_array_elems updates);
             Some (reverse (c_str <$> names)))) as Heq.
  { unfold get_update_filenames. rewrite get_update_filenames_from_spec.
    destruct (mapM _ _); [|done]. cbn. by rewrite app_nil_r. }
  split; [done|]. intros update_filenames. rewrite Heq.
  destruct (mapM _ _) as [names|] eqn:Hnames; [|done]. cbn. intros [= <-].
  apply length_mapM in Hnames. by rewrite length_reverse, length_fmap.
Qed.

Lemma current_update_text_from_spec (updates : list json_t) (filename : string)
    (text : option string) :
  Forall (λ update, is_Some (update_filename update)) updates →
  current_update_text_from updates filename text
  = Some match last (filter (λ update, update_is_for filename update = true) updates) with
         | Some update => json_string_value (json_object_get update "text")
         | None => text
         end.
Proof.
  revert text. induction updates as [|update rest IH]; intros text Hall; [done|].
  apply Forall_cons in Hall as [[name Hname] Hrest].
  cbn [current_update_text_from]. unfold update_filename in Hname. rewrite Hname.
  cbn [mbind option_bind]. rewrite IH by done. f_equal.
  rewrite filter_cons, strcmp_eqb.
  assert (update_is_for filename update = bool_decide (c_str name = c_str filename)) as Hfor.
  { unfold update_is_for, update_filename. by rewrite Hname. }
  destruct (decide (update_is_for filename update = true)) as [Hd|Hd];
    rewrite Hfor in Hd.
  - rewrite Hd. destruct (filter _ rest) as [|u us] eqn:Hf; [done|].
    change (last (update :: u :: us)) with (last (u :: us)).
    destruct (last (u :: us)) eqn:Hl; [done|]. by apply last_None in Hl.
  - by apply not_true_is_false in Hd as ->.
Qed.

(** X13. For [save_app_profile_settings_dialog_load_current_update]: when every
    update names its file, the preview shows the text of the last update for
    the chosen file, and nothing when no update is for that file or when
    that last update has no string under [text], whatever the updates
    before it hold. *)
Theorem current_update_text_last (updates : json_t) (filename : string) :
  Forall (λ update, is_Some (update_filename update)) (json_array_elems updates) →
  current_update_text updates filename
  = Some match last (filter (λ update, update_is_for filename update = true)
                       (json_array_elems updates)) with
         | Some update =>
             default EmptyString (c_str <$> json_string_value (json_object_get update "text"))
         | None => EmptyString
         end.
Proof.
  intros Hall. unfold current_update_text.
  rewrite current_update_text_from_spec by done. cbn.
  by destruct (last _).
Qed.

(** ** Saving a rule *)

Section RuleProperties.
Context `{Jansson} `{GLib} `{AppProfileLib} `{JanssonUtf8} `{!RuleModelLib}.

Lemma json_object_get_set_nullable (o : json_t) (key : string) (v : option json_t) :
  json_typeof o = JSON_OBJECT → json_object_get o key = None →
  json_object_get (json_object_set_new_nullable o key v) key = v.
Proof.
  intros Hobj Hnone. destruct v as [v|]; [|done]. by apply json_object_get_set_new.
Qed.

(** The update object holds what the dialog holds, where jansson takes it. *)
Lemma rule_update_object_spec (dialog : EditRuleDialog.t) (feature_identifier : string) :
  0 <= EditRuleDialog.feature dialog →
  rule_feature_identifiers !! Z.to_nat (EditRuleDialog.feature dialog)
    = Some feature_identifier →
  ∃ rule_json pattern_json,
    rule_update_object dialog = Some rule_json
    ∧ json_object_get rule_json "pattern" = Some pattern_json
    ∧ json_object_get pattern_json "feature" = json_string_of feature_identifier
    ∧ json_object_get pattern_json "matches"
      = json_string_of (EditRuleDialog.matches dialog)
    ∧ json_object_get rule_json "profile"
      = json_string_of (EditRuleDialog.profile_name dialog).
Proof.
  intros Hpos Hid. unfold rule_update_object.
  rewrite (proj2 (Z.ltb_ge _ 0)) by done. rewrite Hid. cbn [mbind option_bind].
  do 2 eexists. split; [reflexivity|]. split; [|split; [|split]].
  - apply json_object_get_set_new. by rewrite json_typeof_set_nullable.
  - rewrite json_object_get_set_nullable_ne by done.
    by apply json_object_get_set_nullable.
  - apply json_object_get_set_nullable; [by rewrite json_typeof_set_nullable|].
    by rewrite json_object_get_set_nullable_ne.
  - rewrite json_object_get_set_new_ne by done.
    by apply json_object_get_set_nullable.
Qed.

(** X14. For [edit_rule_dialog_save_changes] after
    [edit_rule_callbacks_common]: saving a rule that was opened from a row
    of the rule model never reads outside the table of features.  It leaves
    the page as it was when the source file is rejected, or when the profile
    is missing and the answer is not yes.  Otherwise it updates the rule
    with the row's id, never creating one, in the file of the entry, with
    the text of the matches entry, the profile name of the row and the row's
    feature, which is written as procname when it is not in the table.
    The handler hands the library the rule model only: it writes neither
    the profile model of the page nor the configuration kept for
    comparison. *)
Theorem edit_rule_dialog_save_changes_spec (result : Z) (row : RuleRow)
    (matches_text source_file_text : string) (dialog : EditRuleDialog.t) :
  let page := EditRuleDialog.parent dialog in
  let goes_on :=
    (nv_app_profile_config_check_valid_source_file (cur_config page)
       (c_str source_file_text)).1 ≠ 0
    ∧ (is_Some (ctk_apc_profile_model_get_profile (apc_profile_model page)
                  (c_str (row_profile_name row)))
       ∨ result = GTK_RESPONSE_YES) in
  ∃ saved,
    edit_rule_dialog_save_changes result matches_text source_file_text
      (edit_rule_callbacks_common (Some row) dialog) = Some saved
    ∧ gold_config (EditRuleDialog.parent saved) = gold_config page
    ∧ apc_profile_model (EditRuleDialog.parent saved) = apc_profile_model page
    ∧ (¬ goes_on → EditRuleDialog.parent saved = page)
    ∧ (goes_on →
       ∃ rule_json pattern_json,
         (apc_rule_model (EditRuleDialog.parent saved),
          cur_config (EditRuleDialog.parent saved))
         = ctk_apc_rule_model_update_rule (apc_rule_model page, cur_config page)
             (c_str source_file_text) (row_id row) rule_json
         ∧ json_object_get rule_json "pattern" = Some pattern_json
         ∧ json_object_get pattern_json "feature"
           = json_string_of
               (if bool_decide (c_str (row_feature row) ∈ rule_feature_identifiers)
                then row_feature row else "procname")
         ∧ json_object_get pattern_json "matches" = json_string_of matches_text
         ∧ json_object_get rule_json "profile" = json_string_of (row_profile_name row)).
Proof.
  intros page goes_on.
  unfold edit_rule_dialog_save_changes, edit_rule_callbacks_common.
  cbn [EditRuleDialog.parent EditRuleDialog.new_rule EditRuleDialog.rule_id
       EditRuleDialog.source_file EditRuleDialog.feature EditRuleDialog.matches
       EditRuleDialog.profile_name].
  fold page.
  set (edited :=
         {| EditRuleDialog.parent := page;
            EditRuleDialog.new_rule := false;
            EditRuleDialog.rule_id := row_id row;
            EditRuleDialog.source_file := c_str source_file_text;
            EditRuleDialog.feature := parse_feature (row_feature row);
            EditRuleDialog.matches := c_str matches_text;
            EditRuleDialog.profile_name := c_str (row_profile_name row) |}).
  pose proof (edit_rule_dialog_validate_result result edited) as Hvalid.
  cbn [edited EditRuleDialog.parent EditRuleDialog.source_file
       EditRuleDialog.profile_name] in Hvalid.
  fold goes_on in Hvalid.
  destruct (edit_rule_dialog_validate result edited) eqn:Hv; cbn [negb].
  - assert (goes_on) as Hgo by (by apply Hvalid).
    assert (∃ feature_identifier,
              rule_feature_identifiers !! Z.to_nat (parse_feature (row_feature row))
                = Some feature_identifier
              ∧ 0 <= parse_feature (row_feature row)
              ∧ json_string_of feature_identifier
                = json_string_of
                    (if bool_decide (c_str (row_feature row) ∈ rule_feature_identifiers)
                     then row_feature row else "procname")) as (id & Hid & Hpos & Hjs).
    { unfold json_string_of.
      destruct (parse_feature_cases (row_feature row))
        as [[E ->]|[[E ->]|[[E ->]|[E ->]]]].
      - exists "procname". rewrite bool_decide_true by (rewrite E; by left).
        by rewrite E.
      - exists "dso". rewrite bool_decide_true by (rewrite E; right; by left).
        by rewrite E.
      - exists "true". rewrite bool_decide_true by (rewrite E; do 2 right; by left).
        by rewrite E.
      - exists "procname". by rewrite bool_decide_false. }
    destruct (rule_update_object_spec edited id Hpos Hid)
      as (rule_json & pattern_json & -> & Hpattern & Hfeature & Hmatches & Hprofile).
    cbn [mbind option_bind].
    destruct (ctk_apc_rule_model_update_rule _ _ _ _) as [rule_model config] eqn:Hupdate.
    eexists. split; [reflexivity|].
    cbn [EditRuleDialog.parent].
    unfold ctk_config_statusbar_message. cbn [status_bar_enabled].
    split; [by destruct (status_bar_enabled page)|].
    split; [by destruct (status_bar_enabled page)|].
    split; [done|]. intros _.
    exists rule_json, pattern_json.
    split; [by destruct (status_bar_enabled page)|].
    split; [done|]. split; [by rewrite Hfeature|].
    cbn [edited EditRuleDialog.matches EditRuleDialog.profile_name] in Hmatches, Hprofile.
    unfold json_string_of in *. by rewrite c_str_idemp in Hmatches, Hprofile.
  - eexists. split; [reflexivity|]. cbn [EditRuleDialog.parent].
    repeat split; try done.
    intros Hgo. apply Hvalid in Hgo. congruence.
Qed.

End RuleProperties.

(** ** What an edit of a value leaves alone *)

Section ValueEditProperties.
Context `{Jansson} `{GLib} `{AppProfileLib}.

(** X15. For [setting_value_edited]: an edit of a value, whether it goes
    through, is refused or is dropped, leaves every key of the store as it
    was, the number of rows the same, and every row but the edited one
    untouched. *)
Theorem setting_value_edited_frame (path_s new_text : string) (dialog : EditProfileDialog.t) :
  let store := EditProfileDialog.settings_store dialog in
  let store' := EditProfileDialog.settings_store (setting_value_edited path_s new_text dialog) in
  (∀ row, stored_key store' row = stored_key store row)
  ∧ length store' = length store
  ∧ (∀ row,
       gtk_tree_model_get_iter store (gtk_tree_path_new_from_string path_s) ≠ Some row →
       store' !! row = store !! row).
Proof.
  intros store store'. subst store'.
  destruct (EditProfileDialog.setting_update_canceled dialog) eqn:Hc.
  { rewrite setting_value_edited_dropped by (by left). done. }
  destruct (gtk_tree_model_get_iter store (gtk_tree_path_new_from_string path_s))
    as [iter|] eqn:Hi.
  2: { rewrite setting_value_edited_dropped by (by right). done. }
  destruct (gtk_tree_model_get_iter_Some _ _ _ Hi) as [setting Hs].
  destruct (setting_value_edited_live path_s new_text dialog iter setting Hc Hi Hs)
    as [-> _].
  fold store. split; [|split].
  - intros row. unfold stored_key. destruct (decide (row = iter)) as [->|Hne].
    + rewrite list_lookup_insert_eq by (by eapply lookup_lt_Some).
      rewrite Hs. cbn [mbind option_bind].
      by apply json_object_get_set_new_ne.
    + by rewrite list_lookup_insert_ne.
  - apply length_insert.
  - intros row Hrow. apply list_lookup_insert_ne. congruence.
Qed.

End ValueEditProperties.

(** ** Opening and saving a profile *)

Section ProfileProperties.
Context `{Jansson} `{GLib} `{AppProfileLib} `{JanssonUtf8} `{!ProfileModelLib}.

Lemma get_source_filenames_from_spec (json_filenames : list json_t)
    (filenames : list string) :
  get_source_filenames_from json_filenames filenames
  = (names ← mapM (λ json_filename, json_string_value (Some json_filename)) json_filenames;
     Some (reverse (c_str <$> names) ++ filenames)%list).
Proof.
  revert filenames. induction json_filenames as [|j rest IH]; intros acc; [done|].
  cbn [get_source_filenames_from mapM].
  destruct (json_string_value (Some j)) as [name|]; [|done].
  cbn [mbind option_bind]. rewrite IH.
  destruct (mapM _ rest) as [names|]; [|done].
  cbn [mbind option_bind mret option_ret fmap list_fmap].
  by rewrite reverse_cons, <- app_assoc.
Qed.

Lemma foldl_prepend {A B} (f : A → B) (l : list A) (acc : list B) :
  foldl (λ acc x, f x :: acc) acc l = (reverse (f <$> l) ++ acc)%list.
Proof.
  revert acc. induction l as [|x l IH]; intros acc; [done|].
  cbn [foldl fmap list_fmap]. by rewrite IH, reverse_cons, <- app_assoc.
Qed.

(** X16. For [get_source_filenames] and [get_profile_names]: both lists
    are built back to front and then reversed, so the source files are
    offered in the order of the library's array, and the profile names in
    the order of the rows of the model; there is no list of source files
    when an entry of the array is not a string. *)
Theorem get_source_filenames_spec (ctk_app_profile : CtkAppProfile) :
  get_source_filenames ctk_app_profile
  = (names ← mapM (λ json_filename, json_string_value (Some json_filename))
               (json_array_elems
                  (nv_app_profile_config_get_source_filenames (cur_config ctk_app_profile)));
     Some (c_str <$> names))
  ∧ get_profile_names ctk_app_profile
    = c_str <$> ctk_apc_profile_model_names (apc_profile_model ctk_app_profile).
Proof.
  split.
  - unfold get_source_filenames. rewrite get_source_filenames_from_spec.
    destruct (mapM _ _) as [names|]; [|done]. cbn [mbind option_bind].
    by rewrite app_nil_r, reverse_involutive.
  - unfold get_profile_names. by rewrite foldl_prepend, app_nil_r, reverse_involutive.
Qed.

(** Ending the editing in progress writes to the store and the status bar
    only. *)
Lemma gtk_window_set_focus_NULL_fields (pending : option pending_edit)
    (dialog : EditProfileDialog.t) :
  let flushed := gtk_window_set_focus_NULL pending dialog in
  EditProfileDialog.parent flushed = EditProfileDialog.parent dialog
  ∧ EditProfileDialog.new_profile flushed = EditProfileDialog.new_profile dialog
  ∧ EditProfileDialog.orig_name flushed = EditProfileDialog.orig_name dialog
  ∧ EditProfileDialog.settings flushed = EditProfileDialog.settings dialog.
Proof.
  destruct pending as [[path_s new_text|path_s new_text]|]; cbn [gtk_window_set_focus_NULL];
    [unfold setting_key_edited | unfold setting_value_edited | done].
  all: repeat case_match; done.
Qed.

Lemma gtk_window_set_focus_NULL_well_formed (pending : option pending_edit)
    (dialog : EditProfileDialog.t) :
  Forall well_formed_setting (EditProfileDialog.settings_store dialog) →
  Forall well_formed_setting
    (EditProfileDialog.settings_store (gtk_window_set_focus_NULL pending dialog)).
Proof.
  intros Hall. destruct pending as [[path_s new_text|path_s new_text]|]; [| |done].
  - by apply setting_key_edited_well_formed.
  - by apply setting_value_edited_well_formed.
Qed.

(** The dialog the validation sees. *)
Lemma edit_profile_dialog_latest_values_fields (pending : option pending_edit)
    (name_text source_file_text : string) (dialog : EditProfileDialog.t) :
  let latest := edit_profile_dialog_latest_values pending name_text source_file_text dialog in
  let store := EditProfileDialog.settings_store (gtk_window_set_focus_NULL pending dialog) in
  EditProfileDialog.parent latest = EditProfileDialog.parent dialog
  ∧ EditProfileDialog.new_profile latest = EditProfileDialog.new_profile dialog
  ∧ EditProfileDialog.name latest = c_str name_text
  ∧ EditProfileDialog.orig_name latest = EditProfileDialog.orig_name dialog
  ∧ EditProfileDialog.source_file latest = c_str source_file_text
  ∧ EditProfileDialog.settings_store latest = store
  ∧ EditProfileDialog.settings latest
    = match EditProfileDialog.settings dialog with
      | json_array_of _ => json_array_of store
      | settings => settings
      end.
Proof.
  intros latest store. subst latest store.
  destruct (gtk_window_set_focus_NULL_fields pending dialog) as (Hp & Hn & Ho & Hs).
  unfold edit_profile_dialog_latest_values, edit_profile_dialog_update_settings.
  cbn [set_name_and_source_file EditProfileDialog.settings].
  rewrite Hs.
  destruct (EditProfileDialog.settings dialog); cbn; by rewrite ?Hp, ?Hn, ?Ho, ?Hs.
Qed.

(** The save in closed form, for each result of the validation. *)
Lemma edit_profile_dialog_save_changes_eq (result : Z) (pending : option pending_edit)
    (name_text source_file_text : string) (update_rules : bool)
    (rule_dialog : EditRuleDialog.t) (rule_dialog_visible valid : bool)
    (profile_dialog : EditProfileDialog.t) :
  let latest :=
    edit_profile_dialog_latest_values pending name_text source_file_text profile_dialog in
  let ctk_app_profile := EditProfileDialog.parent latest in
  let written :=
    ctk_apc_profile_model_update_profile (delete_renamed_profile update_rules latest).1
      (EditProfileDialog.source_file latest) (EditProfileDialog.name latest)
      (json_object_set_new (json_object_of []) "settings" (EditProfileDialog.settings latest)) in
  let page :=
    {| cur_config := written.2;
       gold_config := gold_config ctk_app_profile;
       apc_profile_model := written.1;
       apc_rule_model := apc_rule_model ctk_app_profile;
       enable_check_button := enable_check_button ctk_app_profile;
       status_bar_enabled := status_bar_enabled ctk_app_profile;
       status_bar := status_bar ctk_app_profile |} in
  let page' :=
    ctk_config_statusbar_message page
      (profile_updated_message (EditProfileDialog.name latest)
         (delete_renamed_profile update_rules latest).2) in
  edit_profile_dialog_validate result latest = Some valid →
  (rule_dialog_visible = true → is_Some (get_source_filenames page)) →
  edit_profile_dialog_save_changes result pending name_text source_file_text update_rules
    rule_dialog rule_dialog_visible profile_dialog
  = Some (if valid then
            (set_profile_dialog_parent latest page',
             set_rule_dialog_parent
               (if rule_dialog_visible
                then edit_rule_dialog_load_profile (set_rule_dialog_parent rule_dialog page)
                       (Some (EditProfileDialog.name latest))
                else rule_dialog) page')
          else (latest, rule_dialog)).
Proof.
  intros latest ctk_app_profile written page page' Hvalid Hfiles.
  unfold edit_profile_dialog_save_changes. fold latest. rewrite Hvalid.
  cbn [mbind option_bind]. destruct valid; [|done]. cbn [negb].
  subst page' page written.
  destruct (delete_renamed_profile update_rules latest) as [model fixed].
  cbn [fst snd] in *.
  destruct (ctk_apc_profile_model_update_profile _ _ _ _) as [profile_model config].
  cbn [fst snd] in *. fold ctk_app_profile.
  destruct rule_dialog_visible; [|done].
  destruct (Hfiles eq_refl) as [strings ->]. done.
Qed.

Lemma json_string_value_typeof (j : json_t) :
  json_typeof j = JSON_STRING → is_Some (json_string_value (Some j)).
Proof. by destruct j. Qed.

Lemma get_source_filenames_is_Some (ctk_app_profile : CtkAppProfile) :
  Forall (λ j, json_typeof j = JSON_STRING)
    (json_array_elems
       (nv_app_profile_config_get_source_filenames (cur_config ctk_app_profile))) →
  is_Some (get_source_filenames ctk_app_profile).
Proof.
  intros Hall. unfold get_source_filenames. rewrite get_source_filenames_from_spec.
  destruct (mapM_is_Some_2 (λ j, json_string_value (Some j)) _
              (Forall_impl _ _ _ Hall json_string_value_typeof)) as [names ->].
  by eexists.
Qed.

(** The validation gives a result when every row has a string key. *)
Lemma edit_profile_dialog_validate_is_Some (result : Z) (dialog : EditProfileDialog.t) :
  Forall has_string_key (json_array_elems (EditProfileDialog.settings dialog)) →
  is_Some (edit_profile_dialog_validate result dialog).
Proof.
  intros Hkeys.
  destruct (check_unrecognized_setting_keys_from_spec _ Hkeys) as (unrec & Hchk & _).
  unfold edit_profile_dialog_validate.
  rewrite (edit_profile_dialog_errors_eq dialog unrec Hchk). by eexists.
Qed.

(** What [delete_renamed_profile] hands to the update. *)
Lemma delete_renamed_profile_spec (update_rules : bool) (dialog : EditProfileDialog.t) :
  let page := EditProfileDialog.parent dialog in
  let model := (apc_profile_model page, cur_config page) in
  let renamed :=
    EditProfileDialog.new_profile dialog = false
    ∧ c_str (EditProfileDialog.name dialog) ≠ c_str (EditProfileDialog.orig_name dialog) in
  (¬ renamed → delete_renamed_profile update_rules dialog = (model, false))
  ∧ (renamed →
     let deleted :=
       ctk_apc_profile_model_delete_profile model (EditProfileDialog.orig_name dialog) in
     (delete_renamed_profile update_rules dialog).1.1 = deleted.1
     ∧ (update_rules = false → delete_renamed_profile update_rules dialog = (deleted, false))
     ∧ (update_rules = true →
        ((delete_renamed_profile update_rules dialog).1.2,
         (delete_renamed_profile update_rules dialog).2)
        = nv_app_profile_config_profile_name_change_fixup deleted.2
            (EditProfileDialog.orig_name dialog) (EditProfileDialog.name dialog))).
Proof.
  intros page model renamed. subst renamed. unfold delete_renamed_profile.
  fold page. fold model. rewrite strcmp_eqb.
  destruct (EditProfileDialog.new_profile dialog); cbn [negb andb].
  { split; [done|]. by intros [? _]. }
  case_bool_decide as Hname; cbn [negb].
  { split; [done|]. by intros [_ ?]. }
  split; [intros Hn; by destruct Hn|]. intros _.
  destruct update_rules; [|done].
  destruct (nv_app_profile_config_profile_name_change_fixup _ _ _) as [config fixed] eqn:Hfix.
  cbn [fst snd]. repeat split; done.
Qed.

(** X17. For [edit_profile_dialog_save_changes]: with well-formed rows, an
    array in the dialog and a library whose source file names are strings,
    the save ends without a failed assertion.  The edit in progress is part
    of what is saved: the rows after it are what the array of the dialog is
    refilled with and, when the validation lets the save go on, what the
    profile is updated with, under the name and the file of the entries.
    The old profile is deleted only when an existing profile was renamed,
    and the rules are fixed up only then and only with the option set.  A
    refused save leaves the page and the rule dialog as they were; a rule
    dialog that is visible is switched to the saved profile.  The save never
    writes the rule model or the configuration kept for comparison. *)
Theorem edit_profile_dialog_save_changes_spec (result : Z) (pending : option pending_edit)
    (name_text source_file_text : string) (update_rules : bool)
    (rule_dialog : EditRuleDialog.t) (rule_dialog_visible : bool)
    (profile_dialog : EditProfileDialog.t) :
  Forall well_formed_setting (EditProfileDialog.settings_store profile_dialog) →
  json_typeof (EditProfileDialog.settings profile_dialog) = JSON_ARRAY →
  (∀ config,
     Forall (λ j, json_typeof j = JSON_STRING)
       (json_array_elems (nv_app_profile_config_get_source_filenames config))) →
  let page := EditProfileDialog.parent profile_dialog in
  let model := (apc_profile_model page, cur_config page) in
  let store :=
    EditProfileDialog.settings_store (gtk_window_set_focus_NULL pending profile_dialog) in
  let renamed :=
    EditProfileDialog.new_profile profile_dialog = false
    ∧ c_str name_text ≠ c_str (EditProfileDialog.orig_name profile_dialog) in
  ∃ valid saved rule_dialog',
    edit_profile_dialog_validate result
      (edit_profile_dialog_latest_values pending name_text source_file_text profile_dialog)
    = Some valid
    ∧ edit_profile_dialog_save_changes result pending name_text source_file_text
        update_rules rule_dialog rule_dialog_visible profile_dialog
      = Some (saved, rule_dialog')
    ∧ EditProfileDialog.settings_store saved = store
    ∧ EditProfileDialog.settings saved = json_array_of store
    ∧ gold_config (EditProfileDialog.parent saved) = gold_config page
    ∧ apc_rule_model (EditProfileDialog.parent saved) = apc_rule_model page
    ∧ (valid = false → EditProfileDialog.parent saved = page ∧ rule_dialog' = rule_dialog)
    ∧ (valid = true →
       EditRuleDialog.parent rule_dialog' = EditProfileDialog.parent saved
       ∧ EditRuleDialog.profile_name rule_dialog'
         = (if rule_dialog_visible then c_str name_text
            else EditRuleDialog.profile_name rule_dialog)
       ∧ ∃ before,
           (apc_profile_model (EditProfileDialog.parent saved),
            cur_config (EditProfileDialog.parent saved))
           = ctk_apc_profile_model_update_profile before (c_str source_file_text)
               (c_str name_text) (profile_update_object store)
           ∧ (¬ renamed → before = model)
           ∧ (renamed →
              before.1
              = (ctk_apc_profile_model_delete_profile model
                   (EditProfileDialog.orig_name profile_dialog)).1
              ∧ (update_rules = false →
                 before = ctk_apc_profile_model_delete_profile model
                            (EditProfileDialog.orig_name profile_dialog)))).
Proof.
  intros Hrows Harray Hfiles page model store renamed.
  destruct (edit_profile_dialog_latest_values_fields pending name_text source_file_text
              profile_dialog) as (Hp & Hn & Hname & Ho & Hsf & Hstore & Hsettings).
  fold store in Hstore, Hsettings. fold page in Hp.
  set (latest :=
         edit_profile_dialog_latest_values pending name_text source_file_text profile_dialog)
    in *.
  assert (EditProfileDialog.settings latest = json_array_of store) as Harr.
  { rewrite Hsettings. by destruct (EditProfileDialog.settings profile_dialog). }
  assert (Forall has_string_key (json_array_elems (EditProfileDialog.settings latest)))
    as Hkeys.
  { rewrite Harr. cbn [json_array_elems].
    eapply Forall_impl; [by apply gtk_window_set_focus_NULL_well_formed|].
    by intros setting (_ & Hkey & _). }
  destruct (edit_profile_dialog_validate_is_Some result latest Hkeys) as [valid Hvalid].
  exists valid.
  rewrite (edit_profile_dialog_save_changes_eq result pending name_text source_file_text
             update_rules rule_dialog rule_dialog_visible valid profile_dialog Hvalid)
    by (intros _; apply get_source_filenames_is_Some, Hfiles).
  fold latest.
  destruct (delete_renamed_profile_spec update_rules latest) as [Hsame Hrenamed].
  rewrite Hp, Hn, Hname, Ho, c_str_idemp in Hsame, Hrenamed.
  fold model renamed in Hsame, Hrenamed.
  destruct valid.
  - eexists _, _. split; [done|]. split; [reflexivity|].
    cbn [set_profile_dialog_parent set_rule_dialog_parent EditProfileDialog.settings_store
         EditProfileDialog.settings EditProfileDialog.parent EditRuleDialog.parent
         EditRuleDialog.profile_name].
    rewrite Hp, Hname, Hsf, Harr.
    unfold ctk_config_statusbar_message. cbn [status_bar_enabled].
    split; [done|]. split; [done|].
    split; [by destruct (status_bar_enabled page)|].
    split; [by destruct (status_bar_enabled page)|].
    split; [done|]. intros _. split; [done|].
    split.
    { destruct rule_dialog_visible; [|done].
      cbn [edit_rule_dialog_load_profile EditRuleDialog.profile_name].
      apply c_str_idemp. }
    exists (delete_renamed_profile update_rules latest).1.
    split.
    { destruct (ctk_apc_profile_model_update_profile _ _ _ _) as [pm cfg] eqn:Hupd.
      cbn [fst snd]. by destruct (status_bar_enabled page). }
    split.
    + intros Hn'. by rewrite (Hsame Hn').
    + intros Hr. destruct (Hrenamed Hr) as (Hfst & Hoff & _).
      split; [done|]. intros Hu. by rewrite (Hoff Hu).
  - eexists _, _. split; [done|]. split; [reflexivity|].
    rewrite Hp. repeat split; try done.
Qed.


Lemma check_unrecognized_setting_keys_recognized (settings : list json_t) :
  Forall has_recognized_key settings →
  check_unrecognized_setting_keys_from settings = Some false.
Proof.
  intros Hall.
  assert (Forall has_string_key settings) as Hkeys.
  { eapply Forall_impl; [exact Hall|]. intros setting (key & Hkey & _). by exists key. }
  destruct (check_unrecognized_setting_keys_from_spec _ Hkeys) as (unrec & -> & Hunrec).
  destruct unrec; [|done]. exfalso.
  pose proof (proj1 Hunrec eq_refl) as Hex.
  apply Exists_exists in Hex as (setting & Hin & key & Hkey & Hnone).
  rewrite Forall_forall in Hall.
  destruct (Hall setting Hin) as (key' & Hkey' & [k Hk]). congruence.
Qed.

(** X18. For [edit_profile_callbacks_common], [edit_profile_dialog_load_values],
    [load_settings_from_profile] and [edit_profile_dialog_save_changes]:
    opening a profile and saving it as it is writes back the settings the
    profile has in the model, under the same name and file, without
    deleting a profile and without a question, whatever the answer would be,
    when the name is not empty, the keys are recognised and the library
    accepts the file.  The rows come from the profile of that name, and the
    settings column of the row only has to be an array. *)
Theorem edit_profile_round_trip (result : Z) (update_rules : bool)
    (rule_dialog : EditRuleDialog.t) (rule_dialog_visible : bool) (row : ProfileRow)
    (profile settings : json_t) (dialog : EditProfileDialog.t) :
  let page := EditProfileDialog.parent dialog in
  (∀ config,
     Forall (λ j, json_typeof j = JSON_STRING)
       (json_array_elems (nv_app_profile_config_get_source_filenames config))) →
  ctk_apc_profile_model_get_profile (apc_profile_model page) (c_str (prow_name row))
    = Some profile →
  json_object_get profile "settings" = Some settings →
  Forall has_recognized_key (json_array_elems settings) →
  json_typeof (prow_settings row) = JSON_ARRAY →
  c_str (prow_name row) ≠ EmptyString →
  (nv_app_profile_config_check_valid_source_file (cur_config page)
     (c_str (prow_filename row))).1 ≠ 0 →
  ∃ opened saved rule_dialog',
    edit_profile_callbacks_common (Some row) dialog = Some opened
    ∧ EditProfileDialog.settings_store opened = json_array_elems settings
    ∧ edit_profile_dialog_save_changes result None (EditProfileDialog.name opened)
        (EditProfileDialog.source_file opened) update_rules rule_dialog
        rule_dialog_visible opened
      = Some (saved, rule_dialog')
    ∧ (apc_profile_model (EditProfileDialog.parent saved),
       cur_config (EditProfileDialog.parent saved))
      = ctk_apc_profile_model_update_profile (apc_profile_model page, cur_config page)
          (c_str (prow_filename row)) (c_str (prow_name row))
          (profile_update_object (json_array_elems settings)).
Proof.
  intros page Hfiles Hprofile Hsettings Hkeys Harray Hname Hfile.
  destruct (get_source_filenames_is_Some page (Hfiles _)) as [strings Hstrings].
  unfold edit_profile_callbacks_common, edit_profile_dialog_show,
    edit_profile_dialog_load_values.
  cbn [EditProfileDialog.parent EditProfileDialog.new_profile EditProfileDialog.name
       EditProfileDialog.source_file negb].
  fold page. rewrite Hstrings.
  cbn [mbind option_bind set_name_and_source_file EditProfileDialog.parent
       EditProfileDialog.new_profile EditProfileDialog.name negb].
  unfold load_settings_from_profile. rewrite Hprofile, Hsettings.
  set (opened := set_settings_store _ _). exists opened.
  assert (EditProfileDialog.parent opened = page
          ∧ EditProfileDialog.new_profile opened = false
          ∧ EditProfileDialog.name opened = c_str (prow_name row)
          ∧ EditProfileDialog.orig_name opened = c_str (prow_name row)
          ∧ EditProfileDialog.source_file opened = c_str (prow_filename row)
          ∧ EditProfileDialog.settings opened = prow_settings row
          ∧ EditProfileDialog.settings_store opened = json_array_elems settings)
    as (Hp & Hn & Hnm & Ho & Hsf & Hst & Hstore) by done.
  destruct (edit_profile_dialog_latest_values_fields None (EditProfileDialog.name opened)
              (EditProfileDialog.source_file opened) opened)
    as (Hp' & Hn' & Hnm' & Ho' & Hsf' & Hstore' & Hst').
  cbn [gtk_window_set_focus_NULL] in Hstore', Hst'.
  set (latest := edit_profile_dialog_latest_values None _ _ opened) in *.
  rewrite Hp in Hp'. rewrite Hn in Hn'. rewrite Hnm, c_str_idemp in Hnm'.
  rewrite Ho in Ho'. rewrite Hsf, c_str_idemp in Hsf'. rewrite Hstore in Hstore', Hst'.
  assert (EditProfileDialog.settings latest = json_array_of (json_array_elems settings))
    as Harr.
  { rewrite Hst', Hst. by destruct (prow_settings row). }
  assert (edit_profile_dialog_validate result latest = Some true) as Hvalid.
  { unfold edit_profile_dialog_validate.
    rewrite (edit_profile_dialog_errors_eq latest false).
    2: { unfold check_unrecognized_setting_keys. rewrite Harr.
         by apply check_unrecognized_setting_keys_recognized. }
    rewrite Hp', Hn', Hnm', Ho', Hsf'.
    rewrite (proj2 (Z.eqb_neq _ 0) Hfile), !c_str_idemp.
    rewrite (bool_decide_eq_false_2 _ Hname).
    rewrite (bool_decide_eq_true_2 (c_str (prow_name row) = c_str (prow_name row)) eq_refl).
    done. }
  rewrite (edit_profile_dialog_save_changes_eq result None _ _ update_rules rule_dialog
             rule_dialog_visible true opened Hvalid)
    by (intros _; apply get_source_filenames_is_Some, Hfiles).
  fold latest. eexists _, _.
  split; [reflexivity|]. split; [exact Hstore|]. split; [reflexivity|].
  destruct (delete_renamed_profile_spec update_rules latest) as [Hsame _].
  rewrite Hsame by (rewrite Hnm', Ho'; by intros [_ ?]).
  cbn [fst snd set_profile_dialog_parent EditProfileDialog.parent].
  rewrite Hp', Hnm', Hsf', Harr.
  unfold ctk_config_statusbar_message. cbn [status_bar_enabled].
  destruct (ctk_apc_profile_model_update_profile _ _ _ _) as [pm cfg] eqn:Hupd.
  cbn [fst snd]. by destruct (status_bar_enabled page).
Qed.


End ProfileProperties.


(** ** The check button and the status bar *)

Section StatusBarProperties.
Context `{Jansson} `{GLib} `{AppProfileLib}.

(** X19. For [app_profile_load_global_settings], with
    [enabled_check_button_toggled] as the handler GTK runs: loading the
    global settings makes the check button show whether the configuration
    is enabled, and although the handler of the button runs when the state
    changes, no message reaches the status bar; the status bar is left
    switched on, whatever it was before.  The handler writes the new state
    to the current configuration only; pressed by the user, the same
    handler does leave a message when the status bar is on. *)
Theorem app_profile_load_global_settings_spec (ctk_app_profile : CtkAppProfile)
    (config : AppProfileConfig) :
  let loaded := app_profile_load_global_settings ctk_app_profile config in
  let toggled := enabled_check_button_toggled ctk_app_profile in
  enable_check_button loaded = nv_app_profile_config_get_enabled config
  ∧ status_bar loaded = status_bar ctk_app_profile
  ∧ status_bar_enabled loaded = true
  ∧ gold_config loaded = gold_config ctk_app_profile
  ∧ apc_profile_model loaded = apc_profile_model ctk_app_profile
  ∧ apc_rule_model loaded = apc_rule_model ctk_app_profile
  ∧ cur_config loaded
    = (if Bool.eqb (enable_check_button ctk_app_profile)
            (nv_app_profile_config_get_enabled config)
       then cur_config ctk_app_profile
       else nv_app_profile_config_set_enabled (cur_config ctk_app_profile)
              (nv_app_profile_config_get_enabled config))
  ∧ cur_config toggled
    = nv_app_profile_config_set_enabled (cur_config ctk_app_profile)
        (enable_check_button ctk_app_profile)
  ∧ (status_bar toggled ≠ status_bar ctk_app_profile
     ↔ status_bar_enabled ctk_app_profile = true).
Proof.
  intros loaded toggled.
  assert (cur_config toggled
          = nv_app_profile_config_set_enabled (cur_config ctk_app_profile)
              (enable_check_button ctk_app_profile)
          ∧ (status_bar toggled ≠ status_bar ctk_app_profile
             ↔ status_bar_enabled ctk_app_profile = true)) as Htoggled.
  { subst toggled. unfold enabled_check_button_toggled, ctk_config_statusbar_message.
    cbn [status_bar_enabled].
    destruct (status_bar_enabled ctk_app_profile); cbn [cur_config status_bar].
    - split; [done|]. split; [done|]. intros _ Heq.
      apply (f_equal length) in Heq. cbn [length] in Heq. lia.
    - split; [done|]. split; [intros Hne; by destruct Hne | done]. }
  subst loaded.
  unfold app_profile_load_global_settings, gtk_toggle_button_set_active,
    set_status_bar_enabled, enabled_check_button_toggled, ctk_config_statusbar_message.
  cbn [enable_check_button status_bar_enabled status_bar cur_config gold_config
       apc_profile_model apc_rule_model].
  destruct (Bool.eqb_spec (enable_check_button ctk_app_profile)
              (nv_app_profile_config_get_enabled config)) as [He|He];
    cbn [enable_check_button status_bar_enabled status_bar cur_config gold_config
         apc_profile_model apc_rule_model].
  all: repeat (split; [done|]); exact Htoggled.
Qed.

(** A reload leaves no message and the status bar switched on. *)
Lemma app_profile_reload_status_bar (w : World) (ctk_app_profile : CtkAppProfile) :
  status_bar (app_profile_reload w ctk_app_profile).2 = status_bar ctk_app_profile
  ∧ status_bar_enabled (app_profile_reload w ctk_app_profile).2 = true.
Proof.
  unfold app_profile_reload.
  destruct (get_default_global_config_file w) as [w' global_config_file].
  cbn [snd].
  unfold app_profile_load_global_settings, gtk_toggle_button_set_active,
    set_status_bar_enabled, enabled_check_button_toggled, ctk_config_statusbar_message.
  cbn. by destruct (Bool.eqb _ _).
Qed.

(** X20. For [save_app_profile_changes_dialog_save_changes]: the pending
    updates are dropped whatever happens, also when the save is called off
    or the writing fails.  The status bar says that the configuration was
    saved whenever the writing was tried, also when it failed: always after
    the reload that follows, which switches the status bar on, and, when the
    reload is declined, if the status bar is on.  A save that is called off
    leaves no message. *)
Theorem save_app_profile_changes_dialog_status (conflict_result write_error_result : Z)
    (w : World) (dialog : SaveAppProfileChangesDialog.t) :
  let ctk_app_profile := SaveAppProfileChangesDialog.parent dialog in
  let out :=
    save_app_profile_changes_dialog_save_changes conflict_result write_error_result
      w dialog in
  let written :=
    nv_app_profile_config_save_updates (disk w) (cur_config ctk_app_profile)
      (default json_null (SaveAppProfileChangesDialog.updates dialog))
      (SaveAppProfileChangesDialog.backup_check_button dialog) in
  let called_off :=
    nv_app_profile_config_check_backing_files (disk w) (cur_config ctk_app_profile)
    && negb (conflict_result =? GTK_RESPONSE_YES) in
  let reload_declined := (written.2 <? 0) && negb (write_error_result =? GTK_RESPONSE_YES) in
  SaveAppProfileChangesDialog.updates out.2 = None
  ∧ SaveAppProfileChangesDialog.backup_check_button out.2
    = SaveAppProfileChangesDialog.backup_check_button dialog
  ∧ status_bar (SaveAppProfileChangesDialog.parent out.2)
    = (if called_off then status_bar ctk_app_profile
       else if reload_declined && negb (status_bar_enabled ctk_app_profile)
            then status_bar ctk_app_profile
            else "Application profile configuration saved to disk."
                   :: status_bar ctk_app_profile).
Proof.
  cbv zeta. unfold save_app_profile_changes_dialog_save_changes.
  destruct (nv_app_profile_config_check_backing_files _ _); cbn [andb];
    [destruct (conflict_result =? GTK_RESPONSE_YES); cbn [negb]; [|done]|].
  all: destruct (nv_app_profile_config_save_updates _ _ _ _) as [disk' ret];
    cbn [fst snd];
    destruct (ret <? 0); cbn [andb];
    [destruct (write_error_result =? GTK_RESPONSE_YES); cbn [negb andb]|].
  all: try (unfold ctk_config_statusbar_message;
            by destruct (status_bar_enabled (SaveAppProfileChangesDialog.parent dialog))).
  all: set (w' := {| environ := environ w; disk := disk'; stderr := stderr w |});
    destruct (app_profile_reload_status_bar w' (SaveAppProfileChangesDialog.parent dialog))
      as [Hbar Hon];
    destruct (app_profile_reload w' _) as [w'' ctk''];
    cbn [fst snd SaveAppProfileChangesDialog.parent SaveAppProfileChangesDialog.updates
         SaveAppProfileChangesDialog.backup_check_button] in *;
    unfold ctk_config_statusbar_message; rewrite Hon; cbn [status_bar];
    by rewrite Hbar.
Qed.

End StatusBarProperties.


(** * The editor on the sample inputs *)

Section EditorSamples.
#[local] Existing Instance literal_jansson.
#[local] Existing Instance plain_glib.
#[local] Existing Instance simple_lib.
#[local] Existing Instance ascii_utf8.
#[local] Existing Instance simple_rule_model.
#[local] Existing Instance simple_profile_model.

Example sample_tab_forward :
  cell_renderer_widget_key_press_event 7 (sample_tab_key false) sample_tree_view
  = Returns (true, Some (1, 0)).
Proof. reflexivity. Qed.

Example sample_tab_backward :
  cell_renderer_widget_key_press_event 7 (sample_tab_key true) sample_tree_view
  = Returns (true, Some (0, 0)).
Proof. reflexivity. Qed.

Example sample_serialize :
  serialize_settings (Some (EditProfileDialog.settings (sample_profile_dialog false))) false
  = Some "glsynctovblank=true, GLFoo=0x1f".
Proof. reflexivity. Qed.

Example sample_update_filenames :
  get_update_filenames sample_updates = Some ["/etc/rc"; "/home/user/rc"; "/etc/rc"].
Proof. reflexivity. Qed.

Example sample_key_edit :
  stored_key
    (EditProfileDialog.settings_store
       (setting_key_edited "1" "glyield" (sample_profile_dialog false))) 1
  = Some (json_string "GLYield").
Proof. reflexivity. Qed.

Example sample_rule_save :
  (λ saved, cfg_rules (cur_config (EditRuleDialog.parent saved)))
    <$> edit_rule_dialog_save_changes 0 "glxgears" "/etc/nvidia/nvidia-application-profiles-rc"
          (edit_rule_callbacks_common (Some sample_rule_row) sample_rule_dialog)
  = Some [json_object_of
            [("profile", json_string "Fast");
             ("pattern",
              json_object_of [("feature", json_string "procname");
                              ("matches", json_string "glxgears")])]].
Proof. reflexivity. Qed.

Example sample_rule_save_refused :
  EditRuleDialog.parent
    <$> edit_rule_dialog_save_changes GTK_RESPONSE_YES "glxgears" "/tmp/rules"
          (edit_rule_callbacks_common (Some sample_rule_row) sample_rule_dialog)
  = Some sample_page.
Proof. reflexivity. Qed.

(** The sample profile is saved on the answer yes. *)
Lemma edit_profile_dialog_validate_result_witness :
  Forall has_string_key
    (json_array_elems (EditProfileDialog.settings (sample_profile_dialog false)))
  ∧ edit_profile_dialog_validate GTK_RESPONSE_YES (sample_profile_dialog false) = Some true.
Proof.
  assert (Forall has_string_key
            (json_array_elems (EditProfileDialog.settings (sample_profile_dialog false))))
    as Hkeys.
  { repeat constructor; by eexists. }
  split; [exact Hkeys|].
  destruct (edit_profile_dialog_validate_result GTK_RESPONSE_YES
              (sample_profile_dialog false) Hkeys) as (success & -> & Hsuccess).
  f_equal. apply Hsuccess. split; [done|]. by right.
Defined.

(** The rows of the sample profile stay well formed under an edit of a key. *)
Lemma settings_store_well_formed_witness :
  Forall well_formed_setting (EditProfileDialog.settings_store (sample_profile_dialog false))
  ∧ Forall well_formed_setting
      (EditProfileDialog.settings_store
         (setting_key_edited "1" "glyield" (sample_profile_dialog false))).
Proof.
  assert (Forall well_formed_setting
            (EditProfileDialog.settings_store (sample_profile_dialog false))) as Hrows.
  { constructor; [|constructor; [|constructor]].
    all: split; [done|]; split; [by eexists|]; eexists; split; [done|].
    all: unfold legal_setting_type; cbn; tauto. }
  split; [exact Hrows|].
  destruct (settings_store_well_formed (sample_profile_dialog false) Hrows) as [Hkey _].
  apply Hkey.
Defined.

(** Tab on the sample view. *)
Lemma tab_key_reaches_editable_cell_witness :
  event_type (sample_tab_key false) = GDK_KEY_PRESS
  ∧ (keyval (sample_tab_key false) = GDK_Tab
     ∨ keyval (sample_tab_key false) = GDK_ISO_Left_Tab)
  ∧ cursor_path sample_tree_view = Some [0]
  ∧ columns sample_tree_view ≠ []
  ∧ ∃ cursor,
      cell_renderer_widget_key_press_event 7 (sample_tab_key false) sample_tree_view
      = Returns (true, cursor)
      ∧ ∀ cell, cursor = Some cell → 0 <= cell.1 < row_count sample_tree_view.
Proof.
  assert (columns sample_tree_view ≠ []) as Hcols by discriminate.
  split; [reflexivity|]. split; [by left|]. split; [reflexivity|]. split; [exact Hcols|].
  destruct (tab_key_reaches_editable_cell (sample_tab_key false) sample_tree_view 0
              eq_refl (or_introl eq_refl) eq_refl Hcols) as (cursor & Hrun & Hset & _).
  exists cursor. split.
  - apply Hrun. vm_compute. lia.
  - intros cell Hcell. by destruct (Hset cell Hcell).
Defined.

(** The preview of the file that has two updates. *)
Lemma current_update_text_last_witness :
  Forall (λ update, is_Some (update_filename update)) (json_array_elems sample_updates)
  ∧ current_update_text sample_updates "/etc/rc" = Some "third".
Proof.
  assert (Forall (λ update, is_Some (update_filename update))
            (json_array_elems sample_updates)) as Hall.
  { repeat constructor; by eexists. }
  split; [exact Hall|].
  rewrite (current_update_text_last sample_updates "/etc/rc" Hall). reflexivity.
Defined.

Example sample_source_filenames :
  get_source_filenames sample_page = Some sample_search_path.
Proof. reflexivity. Qed.

Example sample_new_profile :
  (λ dialog, (EditProfileDialog.name dialog, EditProfileDialog.source_file dialog,
              EditProfileDialog.settings_store dialog))
    <$> add_profile_callbacks_common (sample_profile_dialog false)
  = Some ("Profile", "/home/user/.nv/nvidia-application-profiles-rc", []).
Proof. reflexivity. Qed.

(** A rename of the sample profile with the option off: the old profile is
    gone and the new one holds the rows. *)
Example sample_profile_rename :
  (λ saved, cfg_profiles (cur_config (EditProfileDialog.parent saved.1)))
    <$> (opened ← edit_profile_callbacks_common (Some sample_profile_row)
                    (sample_profile_dialog false);
         edit_profile_dialog_save_changes 0 None "Faster"
           "/etc/nvidia/nvidia-application-profiles-rc" false sample_rule_dialog false opened)
  = Some [("Faster",
           profile_update_object [sample_setting "GLSyncToVblank" json_false])].
Proof. reflexivity. Qed.

(** The save of the sample profile while a value is being edited. *)
Lemma edit_profile_dialog_save_changes_spec_witness :
  Forall well_formed_setting (EditProfileDialog.settings_store (sample_profile_dialog false))
  ∧ json_typeof (EditProfileDialog.settings (sample_profile_dialog false)) = JSON_ARRAY
  ∧ (∀ config : SimpleConfig,
       Forall (λ j, json_typeof j = JSON_STRING)
         (json_array_elems (nv_app_profile_config_get_source_filenames config)))
  ∧ ∃ saved rule_dialog',
      edit_profile_dialog_save_changes GTK_RESPONSE_YES (Some (editing_value "1" "true"))
        "Faster" "/etc/nvidia/nvidia-application-profiles-rc" false sample_rule_dialog true
        (sample_profile_dialog false)
      = Some (saved, rule_dialog')
      ∧ EditProfileDialog.settings saved
        = json_array_of [sample_setting "glsynctovblank" json_true;
                         sample_setting "GLFoo" json_true].
Proof.
  assert (Forall well_formed_setting
            (EditProfileDialog.settings_store (sample_profile_dialog false))) as Hrows.
  { constructor; [|constructor; [|constructor]].
    all: split; [done|]; split; [by eexists|]; eexists; split; [done|].
    all: unfold legal_setting_type; cbn; tauto. }
  assert (∀ config : SimpleConfig,
            Forall (λ j, json_typeof j = JSON_STRING)
              (json_array_elems (nv_app_profile_config_get_source_filenames config)))
    as Hfiles.
  { intros config. cbn. apply Forall_fmap. by apply Forall_true. }
  split; [exact Hrows|]. split; [reflexivity|]. split; [exact Hfiles|].
  destruct (edit_profile_dialog_save_changes_spec GTK_RESPONSE_YES
              (Some (editing_value "1" "true")) "Faster"
              "/etc/nvidia/nvidia-application-profiles-rc" false sample_rule_dialog true
              (sample_profile_dialog false) Hrows eq_refl Hfiles)
    as (valid & saved & rule_dialog' & _ & Hsave & _ & Hsettings & _).
  exists saved, rule_dialog'. split; [exact Hsave | exact Hsettings].
Defined.

(** Opening the sample profile and saving it as it is. *)
Lemma edit_profile_round_trip_witness :
  (∀ config : SimpleConfig,
     Forall (λ j, json_typeof j = JSON_STRING)
       (json_array_elems (nv_app_profile_config_get_source_filenames config)))
  ∧ ctk_apc_profile_model_get_profile (apc_profile_model sample_page)
      (c_str (prow_name sample_profile_row)) = Some sample_profile
  ∧ json_object_get sample_profile "settings"
    = Some (json_array_of [sample_setting "GLSyncToVblank" json_false])
  ∧ Forall has_recognized_key [sample_setting "GLSyncToVblank" json_false]
  ∧ json_typeof (prow_settings sample_profile_row) = JSON_ARRAY
  ∧ c_str (prow_name sample_profile_row) ≠ EmptyString
  ∧ (nv_app_profile_config_check_valid_source_file (cur_config sample_page)
       (c_str (prow_filename sample_profile_row))).1 ≠ 0
  ∧ ∃ opened saved rule_dialog',
      edit_profile_callbacks_common (Some sample_profile_row) (sample_profile_dialog false)
      = Some opened
      ∧ edit_profile_dialog_save_changes 0 None (EditProfileDialog.name opened)
          (EditProfileDialog.source_file opened) true sample_rule_dialog true opened
        = Some (saved, rule_dialog')
      ∧ cfg_profiles (cur_config (EditProfileDialog.parent saved))
        = [("Fast", profile_update_object [sample_setting "GLSyncToVblank" json_false])].
Proof.
  assert (∀ config : SimpleConfig,
            Forall (λ j, json_typeof j = JSON_STRING)
              (json_array_elems (nv_app_profile_config_get_source_filenames config)))
    as Hfiles.
  { intros config. cbn. apply Forall_fmap. by apply Forall_true. }
  assert (Forall has_recognized_key [sample_setting "GLSyncToVblank" json_false]) as Hkeys.
  { constructor; [|constructor]. exists "GLSyncToVblank". split; [done | by eexists]. }
  assert (c_str (prow_name sample_profile_row) ≠ EmptyString) as Hname by discriminate.
  assert ((nv_app_profile_config_check_valid_source_file (cur_config sample_page)
             (c_str (prow_filename sample_profile_row))).1 ≠ 0) as Hfile.
  { vm_compute. discriminate. }
  repeat (split; [first [exact Hfiles | exact Hkeys | exact Hname | exact Hfile
                         | reflexivity]|]).
  destruct (edit_profile_round_trip 0 true sample_rule_dialog true sample_profile_row
              sample_profile (json_array_of [sample_setting "GLSyncToVblank" json_false])
              (sample_profile_dialog false) Hfiles eq_refl eq_refl Hkeys eq_refl Hname Hfile)
    as (opened & saved & rule_dialog' & Hopened & _ & Hsave & Hwritten).
  exists opened, saved, rule_dialog'. split; [exact Hopened|]. split; [exact Hsave|].
  apply (f_equal snd) in Hwritten. cbn [snd] in Hwritten. rewrite Hwritten. reflexivity.
Defined.


End EditorSamples.
